(** * Finbrain front end: the API utilities and the investment application

    A shallow embedding of the browser-side code of the repository:
    - the API file: the constant [API_BASE], the class [InvestmentAPI]
      ([call] and its wrappers) and the class [APIUtils] (formatters,
      [formDataToObject], [validateFormData] and the helpers that change the
      page);
    - [app.js]: of the class [InvestmentApp], the tab switch of [setupTabs],
      the five form handlers, the five display functions and
      [drawGoalChart].

    JavaScript numbers are IEEE 754 binary64 values, modelled by
    [spec_float] at precision 53 and maximal exponent 1024; strings are
    modelled by their UTF-8 bytes; objects used as maps are [gmap]s with the
    prototype flag that [__proto__] can clear; the page, the console and the
    network are an explicit state threaded through a state-and-exception
    monad, in which an [async] function is a computation that returns or
    throws.

    The built-in functions the code calls are modelled after their
    standards: [Number(s)], [isNaN], [parseFloat], [Number::toString] and
    [toFixed] after ECMAScript, [Intl.NumberFormat] for [zh-TW] after
    ECMA-402 with the symbols of that locale, [response.ok] after Fetch.  The
    messages of the errors the engine itself throws are worded as V8 words
    them.  The charting library is represented by the data a chart is
    created with. *)

From Stdlib Require Import ZArith String Ascii List Bool Lia DecimalString.
From Stdlib Require Import Floats.SpecFloat.
From stdpp Require Import gmap strings list fin_maps.

Set Warnings "-register-all".
Open Scope string_scope.

(** ** Numbers: IEEE 754 binary64 *)

Module Num.

Definition prec : Z := 53.
Definition emax : Z := 1024.

Definition NaN : spec_float := S754_nan.
Definition zero : spec_float := S754_zero false.

Definition add : spec_float -> spec_float -> spec_float := SFadd prec emax.
Definition sub : spec_float -> spec_float -> spec_float := SFsub prec emax.
Definition mul : spec_float -> spec_float -> spec_float := SFmul prec emax.
Definition abs : spec_float -> spec_float := SFabs.
Definition gtb (x y : spec_float) : bool := SFltb y x.
Definition leb : spec_float -> spec_float -> bool := SFleb.

Definition is_nan (x : spec_float) : bool :=
  match x with S754_nan => true | _ => false end.

Definition is_zero (x : spec_float) : bool :=
  match x with S754_zero _ => true | _ => false end.

(** The quotient [n / d] of two positive integers, rounded to nearest,
    ties to even.  The dividend is shifted so that the integer quotient
    has at least [prec + 2] bits; the remainder gives the rounding
    location. *)
Definition of_ratio (neg : bool) (n d : positive) : spec_float :=
  let s := Z.max 0 (prec + 2 + Zpos (digits2_pos d) - Zpos (digits2_pos n)) in
  let '(q, r) := Z.div_eucl (Z.shiftl (Zpos n) s) (Zpos d) in
  binary_round_aux prec emax neg q (- s) (new_location (Zpos d) r).

(** The decimal [m * 10^e], correctly rounded; [neg] is the sign. *)
Definition of_decimal (neg : bool) (m : Z) (e : Z) : spec_float :=
  match m with
  | Zpos p =>
      if (0 <=? e)%Z
      then of_ratio neg (p * Z.to_pos (10 ^ e)) 1
      else of_ratio neg p (Z.to_pos (10 ^ (- e)))
  | _ => S754_zero neg
  end.

Definition of_Z (z : Z) : spec_float :=
  of_decimal (z <? 0)%Z (Z.abs z) 0.

(** The canonical representative of a finite value. *)
Definition normalize (x : spec_float) : spec_float :=
  match x with
  | S754_finite s m e => binary_round prec emax s m e
  | _ => x
  end.

(** The exact value of a finite positive float [m * 2^e] as a fraction. *)
Definition ratio_of (m : positive) (e : Z) : Z * Z :=
  if (0 <=? e)%Z then (Zpos m * 2 ^ e, 1)%Z else (Zpos m, 2 ^ (- e))%Z.

(** [floor (num / den * 10^k)] *)
Definition floor_scaled (num den : Z) (k : Z) : Z :=
  if (0 <=? k)%Z then (num * 10 ^ k / den)%Z else (num / (den * 10 ^ (- k)))%Z.

(** [round (num / den * 10^f)], ties upwards (the value is non-negative). *)
Definition round_half_up_scaled (num den : Z) (f : Z) : Z :=
  ((2 * num * 10 ^ f + den) / (2 * den))%Z.

End Num.

(** ** Characters and decimal digits *)

Definition hex_digit_of_ascii (c : ascii) : option Z :=
  let n := Z.of_nat (nat_of_ascii c) in
  if ((48 <=? n) && (n <=? 57))%Z then Some (n - 48)%Z
  else if ((65 <=? n) && (n <=? 70))%Z then Some (n - 55)%Z
  else if ((97 <=? n) && (n <=? 102))%Z then Some (n - 87)%Z
  else None.

Definition radix_digit (radix : Z) (c : ascii) : option Z :=
  match hex_digit_of_ascii c with
  | Some d => if (d <? radix)%Z then Some d else None
  | None => None
  end.

(** Decimal numeral of a non-negative integer. *)
Definition string_of_Z (z : Z) : string :=
  NilZero.string_of_uint (N.to_uint (Z.to_N z)).

(** The longest prefix of digits in [radix], as (number of digits, value,
    rest of the string). *)
Fixpoint take_digits (radix : Z) (s : string) (count : nat) (acc : Z) : nat * Z * string :=
  match s with
  | String c r =>
      match radix_digit radix c with
      | Some d => take_digits radix r (S count) (acc * radix + d)%Z
      | None => (count, acc, s)
      end
  | EmptyString => (count, acc, s)
  end.

Fixpoint repeat_string (n : nat) (s : string) : string :=
  match n with
  | O => ""
  | S n' => s ++ repeat_string n' s
  end.

(** ** White space (ECMAScript [StrWhiteSpaceChar], on UTF-8 bytes) *)

Definition is_ascii_space (c : ascii) : bool :=
  let n := nat_of_ascii c in
  (n =? 9)%nat || (n =? 10)%nat || (n =? 11)%nat || (n =? 12)%nat
  || (n =? 13)%nat || (n =? 32)%nat.

(** Third byte of a white-space character whose first bytes are E2 80:
    U+2000..U+200A, U+2028, U+2029, U+202F. *)
Definition is_e2_80_space (n : nat) : bool :=
  ((128 <=? n)%nat && (n <=? 138)%nat) || (n =? 168)%nat || (n =? 169)%nat
  || (n =? 175)%nat.

(** Drops the white space at the start of a string. *)
Fixpoint trim_start (s : string) : string :=
  match s with
  | String c r =>
      if is_ascii_space c then trim_start r
      else
        match nat_of_ascii c, r with
        | 194, String c2 r2 =>
            if (nat_of_ascii c2 =? 160)%nat then trim_start r2 else s
        | 225, String c2 (String c3 r3) =>
            if ((nat_of_ascii c2 =? 154) && (nat_of_ascii c3 =? 128))%nat
            then trim_start r3 else s
        | 226, String c2 (String c3 r3) =>
            if ((nat_of_ascii c2 =? 128)%nat && is_e2_80_space (nat_of_ascii c3))
               || ((nat_of_ascii c2 =? 129) && (nat_of_ascii c3 =? 159))%nat
            then trim_start r3 else s
        | 227, String c2 (String c3 r3) =>
            if ((nat_of_ascii c2 =? 128) && (nat_of_ascii c3 =? 128))%nat
            then trim_start r3 else s
        | 239, String c2 (String c3 r3) =>
            if ((nat_of_ascii c2 =? 187) && (nat_of_ascii c3 =? 191))%nat
            then trim_start r3 else s
        | _, _ => s
        end
  | EmptyString => s
  end.

(** The same on the reversed list of bytes, for the end of a string. *)
Fixpoint trim_start_rev (l : list ascii) : list ascii :=
  match l with
  | c :: r =>
      if is_ascii_space c then trim_start_rev r
      else
        match r with
        | c2 :: r2 =>
            if ((nat_of_ascii c2 =? 194) && (nat_of_ascii c =? 160))%nat
            then trim_start_rev r2
            else
              match r2 with
              | c1 :: r3 =>
                  let n1 := nat_of_ascii c1 in
                  let n2 := nat_of_ascii c2 in
                  let n3 := nat_of_ascii c in
                  if ((n1 =? 225) && (n2 =? 154) && (n3 =? 128))%nat
                     || ((n1 =? 226)%nat && (n2 =? 128)%nat && is_e2_80_space n3)
                     || ((n1 =? 226) && (n2 =? 129) && (n3 =? 159))%nat
                     || ((n1 =? 227) && (n2 =? 128) && (n3 =? 128))%nat
                     || ((n1 =? 239) && (n2 =? 187) && (n3 =? 191))%nat
                  then trim_start_rev r3 else l
              | [] => l
              end
        | [] => l
        end
  | [] => l
  end.

Definition trim_end (s : string) : string :=
  string_of_list_ascii (rev (trim_start_rev (rev (list_ascii_of_string s)))).

Definition trim (s : string) : string := trim_end (trim_start s).

(** ** Numeric strings (ECMAScript [StringToNumber] and [parseFloat]) *)

Fixpoint strip_prefix (p s : string) : option string :=
  match p, s with
  | EmptyString, _ => Some s
  | String a p', String b s' => if Ascii.eqb a b then strip_prefix p' s' else None
  | String _ _, EmptyString => None
  end.

(** An [ExponentPart] at the start of [s]: its value and what follows it.
    Without a well-formed exponent nothing is consumed. *)
Definition scan_exponent (s : string) : Z * string :=
  match s with
  | String c r =>
      if Ascii.eqb c "e" || Ascii.eqb c "E" then
        let '(neg, r1) :=
          match r with
          | String "+" r' => (false, r')
          | String "-" r' => (true, r')
          | _ => (false, r)
          end in
        match take_digits 10 r1 0 0 with
        | (O, _, _) => (0%Z, s)
        | (_, v, rest) => (if neg then (- v)%Z else v, rest)
        end
      else (0%Z, s)
  | EmptyString => (0%Z, s)
  end.

(** The longest prefix of [s] that is a [StrUnsignedDecimalLiteral]: its
    value with sign [neg], and the rest of [s]. *)
Definition scan_unsigned_decimal (neg : bool) (s : string) : option (spec_float * string) :=
  match strip_prefix "Infinity" s with
  | Some rest => Some (S754_infinity neg, rest)
  | None =>
      let '(n1, v1, r1) := take_digits 10 s 0 0 in
      let mantissa :=
        match r1 with
        | String "." r =>
            let '(n2, v2, r2) := take_digits 10 r 0 v1 in
            match n1, n2 with
            | O, O => None
            | _, _ => Some (v2, n2, r2)
            end
        | _ =>
            match n1 with
            | O => None
            | _ => Some (v1, O, r1)
            end
        end in
      match mantissa with
      | Some (m, frac, r) =>
          let '(ex, rest) := scan_exponent r in
          Some (Num.of_decimal neg m (ex - Z.of_nat frac), rest)
      | None => None
      end
  end.

(** The longest prefix of [s] that is a [StrDecimalLiteral]. *)
Definition scan_decimal (s : string) : option (spec_float * string) :=
  match s with
  | String "+" r => scan_unsigned_decimal false r
  | String "-" r => scan_unsigned_decimal true r
  | _ => scan_unsigned_decimal false s
  end.

(** A [NonDecimalIntegerLiteral]: [0x], [0o] or [0b] and digits. *)
Definition non_decimal_radix (s : string) : option (Z * string) :=
  match s with
  | String "0" (String c r) =>
      if Ascii.eqb c "x" || Ascii.eqb c "X" then Some (16%Z, r)
      else if Ascii.eqb c "o" || Ascii.eqb c "O" then Some (8%Z, r)
      else if Ascii.eqb c "b" || Ascii.eqb c "B" then Some (2%Z, r)
      else None
  | _ => None
  end.

(** [Number(s)] for a string [s]: white space is trimmed on both sides; the
    empty string is [+0]; the whole remainder must be a numeric literal. *)
Definition StringToNumber (s : string) : spec_float :=
  let t := trim s in
  match t with
  | EmptyString => Num.zero
  | _ =>
      match non_decimal_radix t with
      | Some (radix, r) =>
          match take_digits radix r 0 0 with
          | (S _, v, EmptyString) => Num.of_Z v
          | _ => Num.NaN
          end
      | None =>
          match scan_decimal t with
          | Some (v, EmptyString) => v
          | _ => Num.NaN
          end
      end
  end.

(** [parseFloat(s)]: leading white space is dropped and the longest prefix
    that is a decimal literal is converted; [NaN] when there is none. *)
Definition parseFloat (s : string) : spec_float :=
  match scan_decimal (trim_start s) with
  | Some (v, _) => v
  | None => Num.NaN
  end.

(** ** Printing numbers ([Number::toString], [toFixed], [Intl.NumberFormat]) *)

(** Does the decimal [s * 10^t] round to the positive float [m * 2^e]? *)
Definition rounds_to (m : positive) (e : Z) (s t : Z) : bool :=
  match Num.of_decimal false s t with
  | S754_finite false m' e' => Pos.eqb m m' && Z.eqb e e'
  | _ => false
  end.

(** [10^n <= num / den] *)
Definition pow10_le (num den : Z) (n : Z) : bool :=
  if (0 <=? n)%Z then (10 ^ n * den <=? num)%Z else (den <=? num * 10 ^ (- n))%Z.

Fixpoint raise_exponent (fuel : nat) (num den : Z) (n : Z) : Z :=
  match fuel with
  | O => n
  | S fuel' =>
      if pow10_le num den (n + 1) then raise_exponent fuel' num den (n + 1) else n
  end.

(** The [n] with [10^(n-1) <= num / den < 10^n], from the binary length. *)
Definition decimal_exponent (num den : Z) : Z :=
  let b := (Z.log2 num - Z.log2 den)%Z in
  let guess := ((b - 1) * 30103 / 100000 - 2)%Z in
  (raise_exponent 8 num den guess + 1)%Z.

(** The shortest digits: the least [k] and an [s] of [k] digits such that
    [s * 10^(n-k)] rounds to the float; among two such [s] the closer one.
    The result is [(s, k, n)]. *)
Fixpoint shortest_digits (fuel : nat) (m : positive) (e : Z) (num den n0 : Z) (k : Z) : Z * Z * Z :=
  let t := (n0 - k)%Z in
  let lo := Num.floor_scaled num den (- t) in
  let hi := (lo + 1)%Z in
  let pick (s : Z) := if (s =? 10 ^ k)%Z then (10 ^ (k - 1), k, n0 + 1)%Z else (s, k, n0) in
  match fuel with
  | O => pick lo
  | S fuel' =>
      match rounds_to m e lo t, rounds_to m e hi t with
      | true, false => pick lo
      | false, true => pick hi
      | true, true =>
          (* compare [v - lo*10^t] with [hi*10^t - v], that is [2v] with
             [(lo+hi)*10^t] *)
          let two_v_den := if (0 <=? t)%Z then (2 * num)%Z else (2 * num * 10 ^ (- t))%Z in
          let mid := if (0 <=? t)%Z then ((lo + hi) * 10 ^ t * den)%Z else ((lo + hi) * den)%Z in
          match (two_v_den ?= mid)%Z with
          | Lt => pick lo
          | Gt => pick hi
          | Eq => if Z.even lo then pick lo else pick hi
          end
      | false, false => shortest_digits fuel' m e num den n0 (k + 1)
      end
  end.

(** The digits [s] (a numeral of [k] digits) laid out with the decimal point
    after [n] digits, as [Number::toString] does. *)
Definition layout_digits (digits : string) (k n : Z) : string :=
  if ((k <=? n) && (n <=? 21))%Z then
    digits ++ repeat_string (Z.to_nat (n - k)) "0"
  else if ((0 <? n) && (n <=? 21))%Z then
    substring 0 (Z.to_nat n) digits ++ "." ++ substring (Z.to_nat n) (Z.to_nat (k - n)) digits
  else if ((-6 <? n) && (n <=? 0))%Z then
    "0." ++ repeat_string (Z.to_nat (- n)) "0" ++ digits
  else
    let ex := (n - 1)%Z in
    let ex_str := (if (ex <? 0)%Z then "-" else "+") ++ string_of_Z (Z.abs ex) in
    if (k =? 1)%Z then digits ++ "e" ++ ex_str
    else substring 0 1 digits ++ "." ++ substring 1 (Z.to_nat (k - 1)) digits ++ "e" ++ ex_str.

(** [Number::toString(x)] in radix 10. *)
Definition Number_toString (x : spec_float) : string :=
  match Num.normalize x with
  | S754_nan => "NaN"
  | S754_zero _ => "0"
  | S754_infinity s => if s then "-Infinity" else "Infinity"
  | S754_finite s m e =>
      let '(num, den) := Num.ratio_of m e in
      let n0 := decimal_exponent num den in
      let '(d, k, n) := shortest_digits 17 m e num den n0 1 in
      (if s then "-" else "") ++ layout_digits (string_of_Z d) k n
  end.

(** The digits of the integer [n] with a decimal point before the last [f]
    of them (padded with zeros on the left when there are too few). *)
Definition fixed_digits (n : Z) (f : nat) : string :=
  let m := string_of_Z n in
  match f with
  | O => m
  | _ =>
      let m' := repeat_string (S f - String.length m) "0" ++ m in
      let k := String.length m' in
      substring 0 (k - f) m' ++ "." ++ substring (k - f) f m'
  end.

(** [x.toFixed(f)] for [0 <= f <= 100]. *)
Definition toFixed_digits (x : spec_float) (f : nat) : string :=
  match x with
  | S754_nan => "NaN"
  | S754_infinity s => if s then "-Infinity" else "Infinity"
  | S754_zero _ => fixed_digits 0 f
  | S754_finite s m e =>
      let '(num, den) := Num.ratio_of m e in
      (if s then "-" else "") ++
      (if pow10_le num den 21 then Number_toString (S754_finite false m e)
       else fixed_digits (Num.round_half_up_scaled num den (Z.of_nat f)) f)
  end.

(** [Intl.NumberFormat('zh-TW', ...)]: digits are grouped by three with a
    comma, the decimal separator is a full stop, the currency symbol of TWD
    is a dollar sign put before the number and after the minus sign; the
    number is rounded to [f] fraction digits, ties away from zero. *)

Fixpoint group_rev (l : list ascii) (i : nat) : list ascii :=
  match l with
  | [] => []
  | c :: r =>
      if ((0 <? i) && (i mod 3 =? 0))%nat
      then ","%char :: c :: group_rev r (S i)
      else c :: group_rev r (S i)
  end.

Definition group_digits (digits : string) : string :=
  string_of_list_ascii (rev (group_rev (rev (list_ascii_of_string digits)) 0)).

Definition intl_digits (n : Z) (f : nat) : string :=
  let p := (10 ^ Z.of_nat f)%Z in
  let frac := string_of_Z (n mod p) in
  group_digits (string_of_Z (n / p)) ++
  match f with
  | O => ""
  | _ => "." ++ repeat_string (f - String.length frac) "0" ++ frac
  end.

Definition intl_nan : string := "非數值".
Definition intl_infinity : string := "∞".

Definition intl_unsigned (x : spec_float) (f : nat) : string :=
  match x with
  | S754_nan => intl_nan
  | S754_infinity _ => intl_infinity
  | S754_zero _ => intl_digits 0 f
  | S754_finite _ m e =>
      let '(num, den) := Num.ratio_of m e in
      intl_digits (Num.round_half_up_scaled num den (Z.of_nat f)) f
  end.

Definition intl_minus (x : spec_float) : string :=
  match x with
  | S754_zero true | S754_infinity true | S754_finite true _ _ => "-"
  | _ => ""
  end.

Variant NumberStyle := StyleDecimal | StyleCurrencyTWD.

(** [new Intl.NumberFormat('zh-TW', {style, minimumFractionDigits: f,
    maximumFractionDigits: f}).format(x)] *)
Definition intl_format (style : NumberStyle) (f : nat) (x : spec_float) : string :=
  intl_minus x ++
  match style with
  | StyleDecimal => ""
  | StyleCurrencyTWD => "$"
  end ++ intl_unsigned x f.

(** ** Values, errors and objects *)

Record Obj (V : Type) := mkObj {
  has_prototype : bool;          (* false once the prototype was set to null *)
  own : gmap string V            (* own properties *)
}.
Arguments mkObj {V} _ _.
Arguments has_prototype {V} _.
Arguments own {V} _.

Inductive JsValue :=
| JUndefined
| JNull
| JBool (b : bool)
| JNum (x : spec_float)
| JStr (s : string)
| JArr (l : list JsValue)
| JObj (o : Obj JsValue)
| JNative (name : string).     (* a built-in function or object *)

Abbreviation JsObject := (Obj JsValue).

Record JsError := mkError { err_name : string; message : string }.

Variant Res (A : Type) :=
| Ok (a : A)
| Throw (e : JsError).
Arguments Ok {A} _.
Arguments Throw {A} _.

Definition res_bind {A B : Type} (r : Res A) (k : A -> Res B) : Res B :=
  match r with
  | Ok a => k a
  | Throw e => Throw e
  end.

Definition Error (msg : string) : JsError := mkError "Error" msg.
Definition TypeError (msg : string) : JsError := mkError "TypeError" msg.
Definition RangeError (msg : string) : JsError := mkError "RangeError" msg.



(** [ToBoolean] *)
Definition truthy (v : JsValue) : bool :=
  match v with
  | JUndefined | JNull => false
  | JBool b => b
  | JNum x => negb (Num.is_nan x || Num.is_zero x)
  | JStr s => negb (String.eqb s "")
  | JArr _ | JObj _ | JNative _ => true
  end.

(** The names every ordinary object inherits from [Object.prototype]. *)
Definition object_prototype_names : list string :=
  [ "constructor"; "hasOwnProperty"; "isPrototypeOf"; "propertyIsEnumerable";
    "toLocaleString"; "toString"; "valueOf"; "__proto__";
    "__defineGetter__"; "__defineSetter__"; "__lookupGetter__";
    "__lookupSetter__" ].

(** [o[k]]: an own property, else an inherited one, else [undefined]. *)
Definition obj_get (o : JsObject) (k : string) : JsValue :=
  match own o !! k with
  | Some v => v
  | None =>
      if has_prototype o && bool_decide (k ∈ object_prototype_names)
      then JNative k else JUndefined
  end.

(** [o[k] = v] for a primitive [v].  Assigning to [__proto__] runs the
    inherited setter: [null] removes the prototype, another primitive is
    ignored, and no own property is created. *)
Definition obj_set (o : JsObject) (k : string) (v : JsValue) : JsObject :=
  if String.eqb k "__proto__" && has_prototype o
     && bool_decide (own o !! k = None)
  then match v with
       | JNull => mkObj false (own o)
       | _ => o
       end
  else mkObj (has_prototype o) (<[k := v]> (own o)).

Definition empty_object : JsObject := mkObj true ∅.

(** Number of UTF-16 code units of a string given by its UTF-8 bytes. *)
Fixpoint utf16_length (s : string) : nat :=
  match s with
  | EmptyString => 0
  | String c r =>
      let n := nat_of_ascii c in
      (if (n <? 128)%nat || (192 <=? n)%nat then 1 else 0)
      + (if (240 <=? n)%nat then 1 else 0) + utf16_length r
  end.

Definition cannot_convert : JsError :=
  TypeError "Cannot convert object to primitive value".

(** [ToString]; an array is joined with commas, a plain object prints as
    [[object Object]]; an object that shadows or lacks [toString] has no
    primitive value. *)
Fixpoint ToString (v : JsValue) : Res string :=
  match v with
  | JUndefined => Ok "undefined"
  | JNull => Ok "null"
  | JBool b => Ok (if b then "true" else "false")
  | JNum x => Ok (Number_toString x)
  | JStr s => Ok s
  | JArr l =>
      let element (e : JsValue) : Res string :=
        match e with
        | JUndefined | JNull => Ok ""
        | _ => ToString e
        end in
      (fix join (l : list JsValue) : Res string :=
         match l with
         | [] => Ok ""
         | [e] => element e
         | e :: r =>
             res_bind (element e) (fun s =>
             res_bind (join r) (fun t => Ok (s ++ "," ++ t)))
         end) l
  | JObj o =>
      if has_prototype o && bool_decide (own o !! "toString" = None)
      then Ok "[object Object]" else Throw cannot_convert
  | JNative name =>
      if String.eqb name "__proto__" then Ok "[object Object]"
      else Ok ("function " ++ name ++ "() { [native code] }")
  end.

(** [ToPrimitive] *)
Definition ToPrimitive (v : JsValue) : Res JsValue :=
  match v with
  | JArr _ | JObj _ | JNative _ => res_bind (ToString v) (fun s => Ok (JStr s))
  | _ => Ok v
  end.

(** [ToNumber] *)
Definition ToNumber (v : JsValue) : Res spec_float :=
  res_bind (ToPrimitive v) (fun p =>
    match p with
    | JUndefined => Ok Num.NaN
    | JNull => Ok Num.zero
    | JBool b => Ok (if b then Num.of_Z 1 else Num.zero)
    | JNum x => Ok x
    | JStr s => Ok (StringToNumber s)
    | _ => Ok Num.NaN
    end).

(** [a + b]: concatenation when either primitive is a string, else the sum
    of the numbers. *)
Definition js_add (a b : JsValue) : Res JsValue :=
  res_bind (ToPrimitive a) (fun pa =>
  res_bind (ToPrimitive b) (fun pb =>
    match pa, pb with
    | JStr _, _ | _, JStr _ =>
        res_bind (ToString pa) (fun sa =>
        res_bind (ToString pb) (fun sb => Ok (JStr (sa ++ sb))))
    | _, _ =>
        res_bind (ToNumber pa) (fun x =>
        res_bind (ToNumber pb) (fun y => Ok (JNum (Num.add x y))))
    end)).

(** [a - n], [a * n] and [a > n] for a number [n]. *)
Definition js_sub_number (a : JsValue) (n : spec_float) : Res spec_float :=
  res_bind (ToNumber a) (fun x => Ok (Num.sub x n)).

Definition js_mul_number (a : JsValue) (n : spec_float) : Res spec_float :=
  res_bind (ToNumber a) (fun x => Ok (Num.mul x n)).

Definition js_gt_number (a : JsValue) (n : spec_float) : Res bool :=
  res_bind (ToNumber a) (fun x => Ok (Num.gtb x n)).

(** [isNaN(value)] for a string: is [Number(value)] the value [NaN]? *)
Definition isNaN (value : string) : bool := Num.is_nan (StringToNumber value).

Definition cannot_read (base prop : string) : JsError :=
  TypeError ("Cannot read properties of " ++ base ++ " (reading '" ++ prop ++ "')").

Definition cannot_set (base prop : string) : JsError :=
  TypeError ("Cannot set properties of " ++ base ++ " (setting '" ++ prop ++ "')").

(** [v.k] for a data field [k]: reading a field of [undefined] or [null]
    throws; arrays and strings have a [length]; the other fields of a
    primitive or an array are [undefined].  ([k] is a field name of the
    application data, not the name of a built-in method.) *)
Definition get_field (v : JsValue) (k : string) : Res JsValue :=
  match v with
  | JUndefined => Throw (cannot_read "undefined" k)
  | JNull => Throw (cannot_read "null" k)
  | JObj o => Ok (obj_get o k)
  | JArr l =>
      if String.eqb k "length" then Ok (JNum (Num.of_Z (Z.of_nat (length l))))
      else Ok JUndefined
  | JStr s =>
      if String.eqb k "length" then Ok (JNum (Num.of_Z (Z.of_nat (utf16_length s))))
      else Ok JUndefined
  | _ => Ok JUndefined
  end.

(** [v?.k] *)
Definition get_field_optional (v : JsValue) (k : string) : Res JsValue :=
  match v with
  | JUndefined | JNull => Ok JUndefined
  | _ => get_field v k
  end.

(** ** The page, the console and the network *)

Record Element := mkElement {
  elem_id : option string;
  classList : gset string;
  innerHTML : string;
  dataset_tab : option string;       (* the [data-tab] attribute *)
  style_display : string
}.

(** The second argument of [fetch]. *)
Record Config := mkConfig {
  cfg_method : string;
  cfg_headers : list (string * string);
  cfg_body : option JsValue          (* the value given to [JSON.stringify] *)
}.

Record Request := mkRequest {
  req_url : string;
  req_config : Config
}.

Record Response := mkResponse {
  status : nat;
  statusText : string;
  json_body : Res JsValue            (* what [response.json()] settles to *)
}.

(** [response.ok]: the status is in the range 200 to 299. *)
Definition ok (r : Response) : bool :=
  ((200 <=? status r) && (status r <=? 299))%nat.

Variant FetchOutcome :=
| NetworkFailure (e : JsError)       (* [fetch] rejects *)
| Responded (r : Response).

(** A chart drawn by the charting library: its labels and two series. *)
Record Chart := mkChart {
  chart_labels : JsValue;
  chart_portfolio : JsValue;
  chart_investments : JsValue
}.

(** What the page gives the chart code: [canvas.getContext('2d')] on a node
    and [new Chart(ctx, config)] for the data of a chart.  Either call
    returns or throws (an element that is no canvas has no [getContext]; the
    library may be missing or may refuse the canvas or the data). *)
Record ChartLibrary := mkChartLibrary {
  getContext : nat -> Res unit;
  new_Chart : Chart -> Res unit
}.

Record State := mkState {
  document : list Element;                      (* in document order *)
  console : list (string * JsError);            (* [console.error] calls *)
  requests : list Request;                      (* requests sent so far *)
  network : list Request -> FetchOutcome;       (* answer to the last request *)
  currentTab : JsValue;                         (* [this.currentTab] *)
  charts_goal : option Chart;                   (* [this.charts.goal] *)
  destroyed : list Chart;                       (* [destroy()] calls, in order *)
  chart_library : ChartLibrary
}.

Definition set_document (d : list Element) (st : State) : State :=
  mkState d (console st) (requests st) (network st) (currentTab st)
          (charts_goal st) (destroyed st) (chart_library st).

Definition set_console (c : list (string * JsError)) (st : State) : State :=
  mkState (document st) c (requests st) (network st) (currentTab st)
          (charts_goal st) (destroyed st) (chart_library st).

Definition set_requests (r : list Request) (st : State) : State :=
  mkState (document st) (console st) r (network st) (currentTab st)
          (charts_goal st) (destroyed st) (chart_library st).

Definition set_currentTab (tab : JsValue) (st : State) : State :=
  mkState (document st) (console st) (requests st) (network st) tab
          (charts_goal st) (destroyed st) (chart_library st).

Definition set_charts (c : option Chart) (d : list Chart) (st : State) : State :=
  mkState (document st) (console st) (requests st) (network st) (currentTab st)
          c d (chart_library st).

(** Computations that read and change the state and may throw. *)
Definition M (A : Type) : Type := State -> Res A * State.

Definition ret {A : Type} (a : A) : M A := fun st => (Ok a, st).

Definition bind {A B : Type} (m : M A) (k : A -> M B) : M B :=
  fun st =>
    match m st with
    | (Ok a, st') => k a st'
    | (Throw e, st') => (Throw e, st')
    end.

Definition throw {A : Type} (e : JsError) : M A := fun st => (Throw e, st).

Definition lift {A : Type} (r : Res A) : M A := fun st => (r, st).

Definition get_state : M State := fun st => (Ok st, st).

Definition modify (f : State -> State) : M unit := fun st => (Ok tt, f st).

Notation "x <- m ;; k" := (bind m (fun x => k))
  (at level 100, m at next level, right associativity).
Notation "m ;;; k" := (bind m (fun _ => k))
  (at level 100, right associativity).

(** [try { body } catch (error) { handler }] *)
Definition try_catch {A : Type} (body : M A) (handler : JsError -> M A) : M A :=
  fun st =>
    match body st with
    | (Ok a, st') => (Ok a, st')
    | (Throw e, st') => handler e st'
    end.

(** [try { body } catch (error) { handler } finally { final }] *)
Definition try_catch_finally {A : Type} (body : M A) (handler : JsError -> M A)
    (final : M unit) : M A :=
  fun st =>
    let '(r, st') := try_catch body handler st in
    match final st' with
    | (Ok _, st'') => (r, st'')
    | (Throw e, st'') => (Throw e, st'')
    end.

(** *** Elements *)

Definition has_id (id : string) (el : Element) : bool :=
  match elem_id el with
  | Some i => String.eqb i id
  | None => false
  end.

Fixpoint find_index {A : Type} (p : A -> bool) (l : list A) : option nat :=
  match l with
  | [] => None
  | x :: r => if p x then Some 0 else option_map S (find_index p r)
  end.

(** [document.getElementById(id)]: the first element with that id, as its
    position in the document, or [null]. *)
Definition getElementById (id : string) : M (option nat) :=
  fun st => (Ok (find_index (has_id id) (document st)), st).

(** The element with a given id, if any. *)
Definition element_by_id (id : string) (st : State) : option Element :=
  match find_index (has_id id) (document st) with
  | Some n => document st !! n
  | None => None
  end.


Definition update_element (node : nat) (f : Element -> Element) : M unit :=
  modify (fun st => set_document (alter f node (document st)) st).

Definition with_classList (f : gset string -> gset string) (el : Element) : Element :=
  mkElement (elem_id el) (f (classList el)) (innerHTML el) (dataset_tab el)
            (style_display el).

Definition with_innerHTML (html : string) (el : Element) : Element :=
  mkElement (elem_id el) (classList el) html (dataset_tab el) (style_display el).

Definition with_display (d : string) (el : Element) : Element :=
  mkElement (elem_id el) (classList el) (innerHTML el) (dataset_tab el) d.

(** [node.classList.add(cls)] *)
Definition classList_add (node : option nat) (cls : string) : M unit :=
  match node with
  | Some n => update_element n (with_classList (fun c => c ∪ {[cls]}))
  | None => throw (cannot_read "null" "classList")
  end.

(** [node.classList.remove(cls)] *)
Definition classList_remove (node : option nat) (cls : string) : M unit :=
  match node with
  | Some n => update_element n (with_classList (fun c => c ∖ {[cls]}))
  | None => throw (cannot_read "null" "classList")
  end.

(** [node.innerHTML = html] *)
Definition set_innerHTML (node : option nat) (html : string) : M unit :=
  match node with
  | Some n => update_element n (with_innerHTML html)
  | None => throw (cannot_set "null" "innerHTML")
  end.

(** [nodes.forEach(f)] *)
Fixpoint forEach {A : Type} (l : list A) (f : A -> M unit) : M unit :=
  match l with
  | [] => ret tt
  | x :: r => f x ;;; forEach r f
  end.

(** *** Markup *)

Definition nl : string := String (ascii_of_nat 10) "".
Definition dq : string := String (ascii_of_nat 34) "".
Definition indent (n : nat) (s : string) : string := repeat_string n " " ++ s.

(** [<tag class="cls">] *)
Definition open_tag (tag cls : string) : string :=
  "<" ++ tag ++ " class=" ++ dq ++ cls ++ dq ++ ">".

Notation "'let?' x := r 'in' k" := (res_bind r (fun x => k))
  (at level 10, x name, r at level 100, k at level 200).

(** ** The API file *)

(** [const API_BASE = '/api/v1'] *)
Definition API_BASE : string := "/api/v1".

Module APIUtils.

(** [static formatCurrency(amount)] *)
Definition formatCurrency (amount : JsValue) : string :=
  match amount with
  | JNum x => intl_format StyleCurrencyTWD 0 x
  | _ => "N/A"
  end.

(** [value.toFixed(decimals)]: a [RangeError] outside 0..100. *)
Definition toFixed (x : spec_float) (decimals : nat) : Res string :=
  if (decimals <=? 100)%nat then Ok (toFixed_digits x decimals)
  else Throw (RangeError "toFixed() digits argument must be between 0 and 100").

(** [static formatPercentage(value, decimals = 2)] *)
Definition formatPercentage (value : JsValue) (decimals : nat) : Res string :=
  match value with
  | JNum x => let? s := toFixed x decimals in Ok (s ++ "%")
  | _ => Ok "N/A"
  end.

(** [static formatNumber(value, decimals = 0)]; the number format accepts
    0..100 fraction digits. *)
Definition formatNumber (value : JsValue) (decimals : nat) : Res string :=
  match value with
  | JNum x =>
      if (decimals <=? 100)%nat then Ok (intl_format StyleDecimal decimals x)
      else Throw (RangeError "minimumFractionDigits value is out of range.")
  | _ => Ok "N/A"
  end.

(** [static formDataToObject(formData)]; the entries of a form are pairs
    of strings. *)
Definition formDataToObject (formData : list (string * string)) : JsObject :=
  fold_left
    (fun obj '(key, value) =>
       if String.eqb value "" then obj_set obj key JNull
       else if negb (isNaN value) && negb (String.eqb value "")
       then obj_set obj key (JNum (parseFloat value))
       else if String.eqb value "true" then obj_set obj key (JBool true)
       else if String.eqb value "false" then obj_set obj key (JBool false)
       else obj_set obj key (JStr value))
    formData empty_object.

(** [data[field] === undefined || data[field] === null || data[field] === ''] *)
Definition is_blank (v : JsValue) : bool :=
  match v with
  | JUndefined | JNull => true
  | JStr s => String.eqb s ""
  | _ => false
  end.

(** [static validateFormData(data, requiredFields = [])] *)
Definition validateFormData (data : JsObject) (requiredFields : list string) : list string :=
  fold_left
    (fun errors field =>
       if is_blank (obj_get data field)
       then (errors ++ [(field ++ " 為必填欄位")%string])%list
       else errors)
    requiredFields [].

(** The markup [showError] puts in the container. *)
Definition error_markup (message : string) : string :=
  nl ++ indent 12 (open_tag "div" "error") ++ nl
     ++ indent 16 ("<strong>錯誤:</strong> " ++ message) ++ nl
     ++ indent 12 "</div>" ++ nl
     ++ indent 8 "".

(** [static showError(container, message)] *)
Definition showError (container : option nat) (message : string) : M unit :=
  set_innerHTML container (error_markup message) ;;;
  classList_add container "show".

(** The markup [showSuccess] puts in the container. *)
Definition success_markup (message : string) : string :=
  nl ++ indent 12 (open_tag "div" "success") ++ nl
     ++ indent 16 message ++ nl
     ++ indent 12 "</div>" ++ nl
     ++ indent 8 "".

(** [static showSuccess(container, message)] *)
Definition showSuccess (container : option nat) (message : string) : M unit :=
  set_innerHTML container (success_markup message) ;;;
  classList_add container "show".

(** [static showLoading()] *)
Definition showLoading : M unit :=
  loading <- getElementById "loading" ;;
  classList_add loading "show".

(** [static hideLoading()] *)
Definition hideLoading : M unit :=
  loading <- getElementById "loading" ;;
  classList_remove loading "show".

(** [static clearResult(containerId)] *)
Definition clearResult (containerId : string) : M unit :=
  container <- getElementById containerId ;;
  classList_remove container "show" ;;;
  set_innerHTML container "".

End APIUtils.

Module InvestmentAPI.

(** [this.baseURL = API_BASE] *)
Definition baseURL : string := API_BASE.

(** [fetch(url, config)]: the request is sent and the network answers. *)
Definition fetch (url : string) (config : Config) : M Response :=
  fun st =>
    let sent := (requests st ++ [mkRequest url config])%list in
    match network st sent with
    | NetworkFailure e => (Throw e, set_requests sent st)
    | Responded r => (Ok r, set_requests sent st)
    end.

(** [console.error(label, error)] *)
Definition console_error (label : string) (error : JsError) : M unit :=
  modify (fun st => set_console (console st ++ [(label, error)])%list st).

(** The [config] object of [call]: the method, the JSON content type, and
    a body when there is a payload and the method is not [GET]. *)
Definition config (data : JsValue) (method : string) : Config :=
  mkConfig method [("Content-Type", "application/json")]
    (if truthy data && negb (String.eqb method "GET") then Some data else None).

(** [`HTTP ${response.status}: ${response.statusText}`] *)
Definition http_message (response : Response) : string :=
  "HTTP " ++ string_of_Z (Z.of_nat (status response)) ++ ": " ++ statusText response.

(** [async call(endpoint, data = null, method = 'GET')] *)
Definition call (endpoint : string) (data : JsValue) (method : string) : M JsValue :=
  try_catch
    (response <- fetch (baseURL ++ endpoint) (config data method) ;;
     if negb (ok response) then
       let errorData :=
         match json_body response with
         | Ok v => v
         | Throw _ => JNull
         end in
       detail <- lift (get_field_optional errorData "detail") ;;
       msg <- lift (ToString (if truthy detail then detail
                              else JStr (http_message response))) ;;
       throw (Error msg)
     else lift (json_body response))
    (fun error =>
       console_error ("API 呼叫錯誤 (" ++ endpoint ++ "):") error ;;;
       throw error).

Definition calculateBondDeposit (data : JsValue) : M JsValue :=
  call "/bond-deposit" data "POST".

Definition calculateETFInvestment (data : JsValue) : M JsValue :=
  call "/etf-investment" data "POST".

Definition calculateHouseInvestment (data : JsValue) : M JsValue :=
  call "/house-investment" data "POST".

Definition calculateStockSimulation (data : JsValue) : M JsValue :=
  call "/stock-simulation" data "POST".

Definition calculateFinancialGoal (data : JsValue) : M JsValue :=
  call "/financial-goal" data "POST".

Definition getInvestmentTypes : M JsValue :=
  call "/investment-types" JNull "GET".

Definition healthCheck : M JsValue :=
  call "/health" JNull "GET".

(** [async batchCompare(bondData, etfData, stockData)] *)
Definition batchCompare (bondData etfData stockData : JsValue) : M JsValue :=
  call "/batch-compare"
    (JObj (mkObj true
       (<["bond_request" := bondData]>
          (<["etf_request" := etfData]>
             (<["stock_request" := stockData]> ∅)))))
    "POST".

End InvestmentAPI.

(** ** The application ([app.js]) *)

(** A submitted form: the entries [new FormData(form)] yields, and the state
    of the [is_compound] check box when the form has one. *)
Record Form := mkForm {
  form_entries : list (string * string);
  is_compound_checked : option bool
}.

(** The number literals of the source. *)
Definition number_100 : spec_float := Num.of_Z 100.
Definition number_0_01 : spec_float := Num.of_decimal false 1 (-2).

Module InvestmentApp.

(** *** Tabs *)


(** [btn.dataset.tab] *)
Definition dataset_tab_of (btn : nat) : M JsValue :=
  st <- get_state ;;
  ret (match document st !! btn with
       | Some el =>
           match dataset_tab el with
           | Some t => JStr t
           | None => JUndefined
           end
       | None => JUndefined
       end).

(** The click listener of the tab button [btn]. *)
Definition tab_click (tabBtns tabContents : list nat) (btn : nat) : M unit :=
  tabId <- dataset_tab_of btn ;;
  forEach tabBtns (fun b => classList_remove (Some b) "active") ;;;
  classList_add (Some btn) "active" ;;;
  forEach tabContents (fun content => classList_remove (Some content) "active") ;;;
  id <- lift (ToString tabId) ;;
  panel <- getElementById id ;;
  classList_add panel "active" ;;;
  modify (set_currentTab tabId) ;;;
  APIUtils.clearResult (id ++ "-result").

(** *** Result panels *)

(** The four lines of one result item, indented by [n]. *)
Definition result_item (n : nat) (label cls value : string) : string :=
  indent n (open_tag "div" "result-item") ++ nl
  ++ indent (n + 4) (open_tag "div" "label" ++ label ++ "</div>") ++ nl
  ++ indent (n + 4) (open_tag "div" cls ++ value ++ "</div>") ++ nl
  ++ indent n "</div>" ++ nl.

(** [`value ${v > 0 ? 'positive' : 'negative'}`] *)
Definition value_class (v : JsValue) : Res string :=
  let? b := js_gt_number v Num.zero in
  Ok (if b then "value positive" else "value negative").

Definition bond_markup (result : JsValue) : Res string :=
  let? final_value := get_field result "final_value" in
  let? real_value := get_field result "real_value" in
  let? nominal_return := get_field result "nominal_return" in
  let? nominal := APIUtils.formatPercentage nominal_return 2 in
  let? real_return := get_field result "real_return" in
  let? real_class := value_class real_return in
  let? real := APIUtils.formatPercentage real_return 2 in
  let? total_interest := get_field result "total_interest" in
  let? inflation_impact := get_field result "inflation_impact" in
  Ok (nl ++ indent 12 "<h3>計算結果</h3>" ++ nl
      ++ indent 12 (open_tag "div" "result-grid") ++ nl
      ++ result_item 16 "最終價值 (名目)" "value" (APIUtils.formatCurrency final_value)
      ++ result_item 16 "實質價值 (扣除通膨)" "value" (APIUtils.formatCurrency real_value)
      ++ result_item 16 "名目年化報酬率" "value positive" nominal
      ++ result_item 16 "實質年化報酬率" real_class real
      ++ result_item 16 "總利息收入" "value positive" (APIUtils.formatCurrency total_interest)
      ++ result_item 16 "通膨損失" "value negative" (APIUtils.formatCurrency inflation_impact)
      ++ indent 12 "</div>" ++ nl
      ++ indent 8 "").

(** [displayBondResult(result)] *)
Definition displayBondResult (result : JsValue) : M unit :=
  container <- getElementById "bond-result" ;;
  html <- lift (bond_markup result) ;;
  set_innerHTML container html ;;;
  classList_add container "show".

Definition goal_analysis_markup (analysis : JsValue) : Res string :=
  let? can_achieve := get_field analysis "can_achieve_goal" in
  let? probability := get_field analysis "probability" in
  let? percent := js_mul_number probability number_100 in
  let? chance := APIUtils.formatPercentage (JNum percent) 2 in
  let? shortfall := get_field analysis "shortfall_amount" in
  let? short := js_gt_number shortfall Num.zero in
  let? increase :=
    if short then get_field analysis "required_monthly_increase" else Ok JUndefined in
  Ok (nl ++ indent 16 "<h4>目標達成分析</h4>" ++ nl
      ++ indent 16 (open_tag "div" "result-grid") ++ nl
      ++ indent 20 (open_tag "div" "result-item") ++ nl
      ++ indent 24 (open_tag "div" "label" ++ "能否達成目標</div>") ++ nl
      ++ indent 24 (open_tag "div"
           ("value " ++ if truthy can_achieve then "positive" else "negative")) ++ nl
      ++ indent 28 (if truthy can_achieve then "✅ 可以達成" else "❌ 無法達成") ++ nl
      ++ indent 24 "</div>" ++ nl
      ++ indent 20 "</div>" ++ nl
      ++ result_item 20 "達成機率" "value" chance
      ++ indent 20
           (if short then
              nl ++ result_item 24 "不足金額" "value negative"
                      (APIUtils.formatCurrency shortfall)
                 ++ result_item 24 "需增加月投資" "value"
                      (APIUtils.formatCurrency increase)
                 ++ indent 20 ""
            else "") ++ nl
      ++ indent 16 "</div>" ++ nl
      ++ indent 12 "").

Definition recommendation_markup (rec : JsValue) : Res string :=
  let? type_ := get_field rec "type" in
  let? type_text := ToString type_ in
  let? description := get_field rec "description" in
  let? description_text := ToString description in
  let? impact := get_field rec "impact" in
  let? impact_text := ToString impact in
  Ok (nl ++ indent 24 (open_tag "div" "recommendation-item") ++ nl
      ++ indent 28 (open_tag "div" "type" ++ type_text ++ "</div>") ++ nl
      ++ indent 28 (open_tag "div" "description" ++ description_text ++ "</div>") ++ nl
      ++ indent 28 (open_tag "div" "impact" ++ "影響: " ++ impact_text ++ "</div>") ++ nl
      ++ indent 24 "</div>" ++ nl
      ++ indent 20 "").

(** [recs.map(f).join('')] *)
Fixpoint map_join (f : JsValue -> Res string) (recs : list JsValue) : Res string :=
  match recs with
  | [] => Ok ""
  | rec :: rest =>
      let? s := f rec in
      let? t := map_join f rest in
      Ok (s ++ t)
  end.

Definition recommendations_markup (recommendations : JsValue) : Res string :=
  let? items :=
    match recommendations with
    | JArr recs => map_join recommendation_markup recs
    | _ => Throw (TypeError "result.recommendations.map is not a function")
    end in
  Ok (nl ++ indent 16 (open_tag "div" "recommendations") ++ nl
      ++ indent 20 "<h4>投資建議</h4>" ++ nl
      ++ indent 20 items ++ nl
      ++ indent 16 "</div>" ++ nl
      ++ indent 12 "").

Definition goal_markup (result : JsValue) : Res string :=
  let? goal_analysis := get_field result "goal_analysis" in
  let? goalAnalysisHtml :=
    if truthy goal_analysis then goal_analysis_markup goal_analysis else Ok "" in
  let? recommendations := get_field result "recommendations" in
  let? many :=
    if truthy recommendations then
      let? len := get_field recommendations "length" in
      js_gt_number len Num.zero
    else Ok false in
  let? recommendationsHtml :=
    if many then recommendations_markup recommendations else Ok "" in
  let? goal_name := get_field result "goal_name" in
  let? goal_name_text := ToString goal_name in
  let? final_amount := get_field result "final_amount" in
  let? total_investment := get_field result "total_investment" in
  let? total_return := get_field result "total_return" in
  let? total_class := value_class total_return in
  let? average_annual_return := get_field result "average_annual_return" in
  let? average_class := value_class average_annual_return in
  let? average := APIUtils.formatPercentage average_annual_return 2 in
  let? portfolio_risk := get_field result "portfolio_risk" in
  let? risk := APIUtils.formatPercentage portfolio_risk 2 in
  let? sharpe_ratio := get_field result "sharpe_ratio" in
  let? sharpe :=
    if truthy sharpe_ratio then
      let? s := APIUtils.formatNumber sharpe_ratio 2 in
      Ok (nl ++ result_item 20 "夏普比率" "value" s ++ indent 16 "")
    else Ok "" in
  Ok (nl ++ indent 12 ("<h3>" ++ goal_name_text ++ " - 財務目標分析</h3>") ++ nl
      ++ indent 12 (open_tag "div" "result-grid") ++ nl
      ++ result_item 16 "預期最終資產" "value" (APIUtils.formatCurrency final_amount)
      ++ result_item 16 "總投資金額" "value" (APIUtils.formatCurrency total_investment)
      ++ result_item 16 "總報酬" total_class (APIUtils.formatCurrency total_return)
      ++ result_item 16 "平均年化報酬率" average_class average
      ++ result_item 16 "投資組合風險" "value" risk
      ++ indent 16 sharpe ++ nl
      ++ indent 12 "</div>" ++ nl
      ++ indent 12 goalAnalysisHtml ++ nl
      ++ indent 12 recommendationsHtml ++ nl
      ++ indent 8 "").

(** [if (this.charts.goal) { this.charts.goal.destroy(); }]: the chart
    stays in [this.charts.goal] after it is destroyed. *)
Definition destroy_goal_chart (st : State) : State :=
  match charts_goal st with
  | Some old => set_charts (Some old) (destroyed st ++ [old])%list st
  | None => st
  end.

(** [drawGoalChart(chartData)]: the canvas is shown and the previous chart
    is destroyed; then the drawing context is taken from the canvas and a
    new chart is created from the three series, each of which may throw;
    only then is the new chart stored in [this.charts.goal]. *)
Definition drawGoalChart (chartData : JsValue) : M unit :=
  canvas <- getElementById "goal-chart" ;;
  match canvas with
  | None => throw (cannot_read "null" "style")
  | Some n =>
      update_element n (with_display "block") ;;;
      modify destroy_goal_chart ;;;
      st <- get_state ;;
      lift (getContext (chart_library st) n) ;;;
      years <- lift (get_field chartData "years") ;;
      portfolio_values <- lift (get_field chartData "portfolio_values") ;;
      total_investments <- lift (get_field chartData "total_investments") ;;
      let chart := mkChart years portfolio_values total_investments in
      lift (new_Chart (chart_library st) chart) ;;;
      modify (fun st => set_charts (Some chart) (destroyed st) st)
  end.

(** [displayGoalResult(result)] *)
Definition displayGoalResult (result : JsValue) : M unit :=
  container <- getElementById "goal-result" ;;
  html <- lift (goal_markup result) ;;
  set_innerHTML container html ;;;
  classList_add container "show" ;;;
  chart_data <- lift (get_field result "chart_data") ;;
  if truthy chart_data then
    years <- lift (get_field chart_data "years") ;;
    if truthy years then drawGoalChart chart_data else ret tt
  else ret tt.

(** *** Form submissions *)

(** [form.querySelector('input[name="is_compound"]').checked] *)
Definition is_compound_of (form : Form) : Res bool :=
  match is_compound_checked form with
  | Some b => Ok b
  | None => Throw (cannot_read "null" "checked")
  end.

(** [async handleBondCalculation(form)] *)
Definition handleBondCalculation (form : Form) : M unit :=
  try_catch_finally
    (APIUtils.showLoading ;;;
     let formData := form_entries form in
     let data := APIUtils.formDataToObject formData in
     checked <- lift (is_compound_of form) ;;
     let data := obj_set data "is_compound" (JBool checked) in
     result <- InvestmentAPI.calculateBondDeposit (JObj data) ;;
     displayBondResult result)
    (fun error =>
       container <- getElementById "bond-result" ;;
       APIUtils.showError container (message error))
    APIUtils.hideLoading.

(** [data.stock_allocation + data.bond_allocation + data.etf_allocation
     + data.deposit_allocation] *)
Definition allocation_total (data : JsObject) : Res JsValue :=
  let? t1 := js_add (obj_get data "stock_allocation") (obj_get data "bond_allocation") in
  let? t2 := js_add t1 (obj_get data "etf_allocation") in
  js_add t2 (obj_get data "deposit_allocation").

(** [Math.abs(total - 100) > 0.01] *)
Definition allocation_off (total : JsValue) : Res bool :=
  let? diff := js_sub_number total number_100 in
  Ok (Num.gtb (Num.abs diff) number_0_01).

(** [`投資配置總和必須為100%，目前為${total}%`] *)
Definition allocation_message (total : JsValue) : Res string :=
  let? t := ToString total in
  Ok ("投資配置總和必須為100%，目前為" ++ t ++ "%").

(** [async handleGoalCalculation(form)] *)
Definition handleGoalCalculation (form : Form) : M unit :=
  try_catch_finally
    (APIUtils.showLoading ;;;
     let formData := form_entries form in
     let data := APIUtils.formDataToObject formData in
     total <- lift (allocation_total data) ;;
     off <- lift (allocation_off total) ;;
     (if off then
        msg <- lift (allocation_message total) ;;
        throw (Error msg)
      else ret tt) ;;;
     result <- InvestmentAPI.calculateFinancialGoal (JObj data) ;;
     displayGoalResult result)
    (fun error =>
       container <- getElementById "goal-result" ;;
       APIUtils.showError container (message error))
    APIUtils.hideLoading.

(** *** The other tabs *)

(** [`value ${v > n ? 'positive' : 'negative'}`] *)
Definition value_class_above (n : spec_float) (v : JsValue) : Res string :=
  let? b := js_gt_number v n in
  Ok (if b then "value positive" else "value negative").

Definition etf_markup (result : JsValue) : Res string :=
  let? final_value := get_field result "final_value" in
  let? total_investment := get_field result "total_investment" in
  let? profit := get_field result "profit" in
  let? profit_class := value_class profit in
  let? roi := get_field result "roi" in
  let? roi_class := value_class roi in
  let? roi_text := APIUtils.formatPercentage roi 2 in
  let? annualized_return := get_field result "annualized_return" in
  let? annualized_class := value_class annualized_return in
  let? annualized := APIUtils.formatPercentage annualized_return 2 in
  let? irr := get_field result "irr" in
  let? irr_class := value_class irr in
  let? irr_text := APIUtils.formatPercentage irr 2 in
  let? dividend_income := get_field result "dividend_income" in
  let? capital_gain := get_field result "capital_gain" in
  let? dividend_ratio := get_field result "dividend_ratio" in
  let? dividend_share := APIUtils.formatPercentage dividend_ratio 2 in
  let? capital_gain_ratio := get_field result "capital_gain_ratio" in
  let? capital_gain_share := APIUtils.formatPercentage capital_gain_ratio 2 in
  Ok (nl ++ indent 12 "<h3>ETF投資結果</h3>" ++ nl
      ++ indent 12 (open_tag "div" "result-grid") ++ nl
      ++ result_item 16 "最終價值" "value" (APIUtils.formatCurrency final_value)
      ++ result_item 16 "總投資金額" "value" (APIUtils.formatCurrency total_investment)
      ++ result_item 16 "總獲利" profit_class (APIUtils.formatCurrency profit)
      ++ result_item 16 "投資報酬率" roi_class roi_text
      ++ result_item 16 "年化報酬率" annualized_class annualized
      ++ result_item 16 "內部報酬率 (IRR)" irr_class irr_text
      ++ indent 12 "</div>" ++ nl
      ++ indent 12 "<h4>報酬來源分析</h4>" ++ nl
      ++ indent 12 (open_tag "div" "result-grid") ++ nl
      ++ result_item 16 "配息收入" "value positive" (APIUtils.formatCurrency dividend_income)
      ++ result_item 16 "資本利得" "value positive" (APIUtils.formatCurrency capital_gain)
      ++ result_item 16 "配息占比" "value" dividend_share
      ++ result_item 16 "資本利得占比" "value" capital_gain_share
      ++ indent 12 "</div>" ++ nl
      ++ indent 8 "").

(** [displayETFResult(result)] *)
Definition displayETFResult (result : JsValue) : M unit :=
  container <- getElementById "etf-result" ;;
  html <- lift (etf_markup result) ;;
  set_innerHTML container html ;;;
  classList_add container "show".

Definition house_markup (result : JsValue) : Res string :=
  let? scenario := get_field result "scenario" in
  let? scenario_text := ToString scenario in
  let? actual_cash_outflow := get_field result "actual_cash_outflow" in
  let? actual_sale_income := get_field result "actual_sale_income" in
  let? current_value := get_field result "current_value" in
  let? profit := get_field result "profit" in
  let? profit_class := value_class profit in
  let? roi := get_field result "roi" in
  let? roi_class := value_class roi in
  let? roi_text := APIUtils.formatPercentage roi 2 in
  let? annual_return := get_field result "annual_return" in
  let? annual_class := value_class annual_return in
  let? annual := APIUtils.formatPercentage annual_return 2 in
  let? loan_amount := get_field result "loan_amount" in
  let? monthly_payment := get_field result "monthly_payment" in
  let? interest_paid := get_field result "interest_paid" in
  let? remaining_principal := get_field result "remaining_principal" in
  let? holding_cost := get_field result "holding_cost" in
  let? leverage_ratio := get_field result "leverage_ratio" in
  let? leverage := APIUtils.formatNumber leverage_ratio 1 in
  Ok (nl ++ indent 12 "<h3>房屋投資分析結果</h3>" ++ nl
      ++ indent 12 ("<p><strong>" ++ scenario_text ++ "</strong></p>") ++ nl
      ++ indent 12 (open_tag "div" "result-grid") ++ nl
      ++ result_item 16 "實際現金支出" "value" (APIUtils.formatCurrency actual_cash_outflow)
      ++ result_item 16 "賣房實際收入" "value" (APIUtils.formatCurrency actual_sale_income)
      ++ result_item 16 "房屋現值" "value" (APIUtils.formatCurrency current_value)
      ++ result_item 16 "投資獲利" profit_class (APIUtils.formatCurrency profit)
      ++ result_item 16 "投資報酬率" roi_class roi_text
      ++ result_item 16 "年化報酬率" annual_class annual
      ++ indent 12 "</div>" ++ nl
      ++ indent 12 "<h4>貸款詳細資訊</h4>" ++ nl
      ++ indent 12 (open_tag "div" "result-grid") ++ nl
      ++ result_item 16 "貸款金額" "value" (APIUtils.formatCurrency loan_amount)
      ++ result_item 16 "每月還款" "value" (APIUtils.formatCurrency monthly_payment)
      ++ result_item 16 "利息支出" "value negative" (APIUtils.formatCurrency interest_paid)
      ++ result_item 16 "剩餘本金" "value" (APIUtils.formatCurrency remaining_principal)
      ++ result_item 16 "持有成本" "value negative" (APIUtils.formatCurrency holding_cost)
      ++ result_item 16 "槓桿比例" "value" (leverage ++ "倍")
      ++ indent 12 "</div>" ++ nl
      ++ indent 8 "").

(** [displayHouseResult(result)] *)
Definition displayHouseResult (result : JsValue) : M unit :=
  container <- getElementById "house-result" ;;
  html <- lift (house_markup result) ;;
  set_innerHTML container html ;;;
  classList_add container "show".

Definition stock_markup (result : JsValue) : Res string :=
  let? simulation_count := get_field result "simulation_count" in
  let? simulations := APIUtils.formatNumber simulation_count 0 in
  let? mean := get_field result "mean" in
  let? total_investment := get_field result "total_investment" in
  let? mean_return := get_field result "mean_return" in
  let? mean_class := value_class mean_return in
  let? mean_text := APIUtils.formatPercentage mean_return 2 in
  let? probability_positive := get_field result "probability_positive" in
  let? probability_class := value_class_above (Num.of_Z 50) probability_positive in
  let? probability := APIUtils.formatPercentage probability_positive 2 in
  let? percentile_95 := get_field result "percentile_95" in
  let? percentile_5 := get_field result "percentile_5" in
  let? best_case := get_field result "best_case" in
  let? best := APIUtils.formatPercentage best_case 2 in
  let? worst_case := get_field result "worst_case" in
  let? worst := APIUtils.formatPercentage worst_case 2 in
  let? value_at_risk := get_field result "value_at_risk" in
  let? volatility_realized := get_field result "volatility_realized" in
  let? volatility := APIUtils.formatPercentage volatility_realized 2 in
  Ok (nl ++ indent 12 "<h3>股票投資模擬結果</h3>" ++ nl
      ++ indent 12 ("<p>基於 " ++ simulations ++ " 次蒙地卡羅模擬</p>") ++ nl
      ++ indent 12 (open_tag "div" "result-grid") ++ nl
      ++ result_item 16 "預期最終價值" "value" (APIUtils.formatCurrency mean)
      ++ result_item 16 "總投資金額" "value" (APIUtils.formatCurrency total_investment)
      ++ result_item 16 "平均年化報酬率" mean_class mean_text
      ++ result_item 16 "獲利機率" probability_class probability
      ++ indent 12 "</div>" ++ nl
      ++ indent 12 "<h4>風險分析</h4>" ++ nl
      ++ indent 12 (open_tag "div" "result-grid") ++ nl
      ++ result_item 16 "最佳情況 (95%)" "value positive" (APIUtils.formatCurrency percentile_95)
      ++ result_item 16 "最差情況 (5%)" "value negative" (APIUtils.formatCurrency percentile_5)
      ++ result_item 16 "最佳年化報酬" "value positive" best
      ++ result_item 16 "最差年化報酬" "value negative" worst
      ++ result_item 16 "風險價值 (VaR)" "value" (APIUtils.formatCurrency value_at_risk)
      ++ result_item 16 "實現波動率" "value" volatility
      ++ indent 12 "</div>" ++ nl
      ++ indent 8 "").

(** [displayStockResult(result)] *)
Definition displayStockResult (result : JsValue) : M unit :=
  container <- getElementById "stock-result" ;;
  html <- lift (stock_markup result) ;;
  set_innerHTML container html ;;;
  classList_add container "show".

(** [async handleETFCalculation(form)] *)
Definition handleETFCalculation (form : Form) : M unit :=
  try_catch_finally
    (APIUtils.showLoading ;;;
     let formData := form_entries form in
     let data := APIUtils.formDataToObject formData in
     result <- InvestmentAPI.calculateETFInvestment (JObj data) ;;
     displayETFResult result)
    (fun error =>
       container <- getElementById "etf-result" ;;
       APIUtils.showError container (message error))
    APIUtils.hideLoading.

(** [async handleHouseCalculation(form)] *)
Definition handleHouseCalculation (form : Form) : M unit :=
  try_catch_finally
    (APIUtils.showLoading ;;;
     let formData := form_entries form in
     let data := APIUtils.formDataToObject formData in
     result <- InvestmentAPI.calculateHouseInvestment (JObj data) ;;
     displayHouseResult result)
    (fun error =>
       container <- getElementById "house-result" ;;
       APIUtils.showError container (message error))
    APIUtils.hideLoading.

(** [async handleStockCalculation(form)] *)
Definition handleStockCalculation (form : Form) : M unit :=
  try_catch_finally
    (APIUtils.showLoading ;;;
     let formData := form_entries form in
     let data := APIUtils.formDataToObject formData in
     result <- InvestmentAPI.calculateStockSimulation (JObj data) ;;
     displayStockResult result)
    (fun error =>
       container <- getElementById "stock-result" ;;
       APIUtils.showError container (message error))
    APIUtils.hideLoading.

End InvestmentApp.

(** * Vocabulary of the statements *)



(** The request [call] sends, and the state once it is sent. *)
Definition request_of (endpoint : string) (data : JsValue) (method : string) : Request :=
  mkRequest (InvestmentAPI.baseURL ++ endpoint) (InvestmentAPI.config data method).

Definition sent (endpoint : string) (data : JsValue) (method : string) (st : State) : State :=
  set_requests (requests st ++ [request_of endpoint data method])%list st.

(** The state after [call] logged a failure. *)
Definition logged (endpoint : string) (error : JsError) (st : State) : State :=
  set_console (console st ++ [(("API 呼叫錯誤 (" ++ endpoint ++ "):")%string, error)])%list st.

(** The answer of the network to the request of [call]. *)
Definition answer (endpoint : string) (data : JsValue) (method : string) (st : State) : FetchOutcome :=
  network st (requests st ++ [request_of endpoint data method])%list.

(** The value [errorData?.detail] read from the body of a failed response. *)
Definition detail_of (r : Response) : Res JsValue :=
  get_field_optional (match json_body r with Ok v => v | Throw _ => JNull end) "detail".

(** The states reached by the element updates. *)
Definition add_class (n : nat) (cls : string) (st : State) : State :=
  set_document (alter (with_classList (fun c => c ∪ {[cls]})) n (document st)) st.

Definition remove_class (n : nat) (cls : string) (st : State) : State :=
  set_document (alter (with_classList (fun c => c ∖ {[cls]})) n (document st)) st.

Definition put_html (n : nat) (html : string) (st : State) : State :=
  set_document (alter (with_innerHTML html) n (document st)) st.

(** What the [catch] and [finally] blocks of a handler do with an error
    thrown by its body: the message is put in the result panel, the panel is
    shown and the loading indicator is hidden. *)
Definition error_shown (i j : nat) (msg : string) (st : State) : State :=
  remove_class i "show" (add_class j "show" (put_html j (APIUtils.error_markup msg) st)).

(** A computation that sends no request. *)
Definition keeps_requests {A : Type} (m : M A) : Prop :=
  forall st, requests (snd (m st)) = requests st.

(** The request object of a bond submission. *)
Definition bond_data (form : Form) (checked : bool) : JsValue :=
  JObj (obj_set (APIUtils.formDataToObject (form_entries form)) "is_compound"
          (JBool checked)).

(** The text a browser shows for a piece of markup: the tags are dropped. *)
Fixpoint strip_tags (in_tag : bool) (s : string) : string :=
  match s with
  | EmptyString => ""
  | String c r =>
      if Ascii.eqb c "<" then strip_tags true r
      else if Ascii.eqb c ">" then strip_tags false r
      else if in_tag then strip_tags in_tag r
      else String c (strip_tags in_tag r)
  end.

Definition shown_text (html : string) : string := trim (strip_tags false html).

(** A canvas API and a charting library that accept every call. *)
Definition working_charts : ChartLibrary :=
  mkChartLibrary (fun _ => Ok tt) (fun _ => Ok tt).

(** A page with the loading indicator and the panels of two tabs, and a
    state on it whose network gives one fixed answer. *)
Definition plain_element (id : string) : Element :=
  mkElement (Some id) ∅ "" None "".

Definition sample_page : list Element :=
  [ plain_element "loading"; plain_element "bond-result";
    plain_element "goal-result"; plain_element "goal-chart" ].

Definition sample_state (reply : FetchOutcome) : State :=
  mkState sample_page [] [] (fun _ => reply) (JStr "bond") None [] working_charts.

Definition sample_bond_form : Form :=
  mkForm [("principal", "100000"); ("annual_rate", "1.5"); ("years", "10")] (Some true).

Definition goal_form (stock bond etf deposit : string) : Form :=
  mkForm [ ("goal_name", "house"); ("stock_allocation", stock);
           ("bond_allocation", bond); ("etf_allocation", etf);
           ("deposit_allocation", deposit) ] None.

Definition overloaded_500 : Response :=
  mkResponse 500 "Internal Server Error"
    (Ok (JObj (mkObj true {["detail" := JStr "overloaded"]}))).

(** The request object of a goal submission. *)
Definition goal_data (form : Form) : JsObject :=
  APIUtils.formDataToObject (form_entries form).

(** The handler without its allocation check. *)
Definition submit_goal (form : Form) : M unit :=
  try_catch_finally
    (APIUtils.showLoading ;;;
     result <- InvestmentAPI.calculateFinancialGoal (JObj (goal_data form)) ;;
     InvestmentApp.displayGoalResult result)
    (fun error =>
       container <- getElementById "goal-result" ;;
       APIUtils.showError container (message error))
    APIUtils.hideLoading.

(** The value [formDataToObject] stores for a field value. *)
Definition field_value (value : string) : JsValue :=
  if String.eqb value "" then JNull
  else if negb (isNaN value) && negb (String.eqb value "") then JNum (parseFloat value)
  else if String.eqb value "true" then JBool true
  else if String.eqb value "false" then JBool false
  else JStr value.

(** The values [formDataToObject] stores are primitive. *)
Definition is_primitive (v : JsValue) : bool :=
  match v with
  | JArr _ | JObj _ | JNative _ => false
  | _ => true
  end.

(** What an allocation field contributes to the total when it is empty
    ([null]) or a number. *)
Definition allocation_number (v : JsValue) : option spec_float :=
  match v with
  | JNull => Some Num.zero
  | JNum x => Some x
  | _ => None
  end.

(** Two documents with the same elements, ids and markup: they differ in
    classes at most. *)
Definition restyled (d d' : list Element) : Prop :=
  map elem_id d' = map elem_id d /\ map innerHTML d' = map innerHTML d.


(** [has_id] on the id attribute alone. *)
Definition id_is (id : string) (o : option string) : bool :=
  match o with
  | Some i => String.eqb i id
  | None => false
  end.

(** A page with two tabs, the bond tab active, and a result in each panel. *)
Definition tab_page : list Element :=
  [ mkElement None {["tab-btn"; "active"]} "債券/定存" (Some "bond") "";
    mkElement None {["tab-btn"]} "ETF" (Some "etf") "";
    mkElement (Some "bond") {["tab-content"; "active"]} "" None "";
    mkElement (Some "etf") {["tab-content"]} "" None "";
    mkElement (Some "bond-result") {["result"; "show"]} "<h3>計算結果</h3>" None "";
    mkElement (Some "etf-result") {["result"; "show"]} "<h3>ETF投資結果</h3>" None "" ].

Definition tab_state : State :=
  mkState tab_page [] [] (fun _ => NetworkFailure (TypeError "Failed to fetch"))
          (JStr "bond") None [] working_charts.

(** The value of the last entry of a form with a given key, if any. *)
Definition last_value (key : string) (entries : list (string * string)) : option string :=
  fold_left (fun found '(k, v) => if String.eqb k key then Some v else found)
            entries None.

(** Two documents with the same ids that differ at most in the elements
    found under the given ids. *)
Definition changes_only (ids : list string) (d d' : list Element) : Prop :=
  map elem_id d' = map elem_id d
  /\ forall n, (forall id, id ∈ ids -> find_index (has_id id) d <> Some n) ->
               d' !! n = d !! n.

(** A computation that changes the page only under the given ids. *)
Definition confined {A : Type} (ids : list string) (m : M A) : Prop :=
  forall st, changes_only ids (document st) (document (snd (m st))).

(** A computation that changes no element but the given node, and no id. *)
Definition touches {A : Type} (node : option nat) (m : M A) : Prop :=
  forall st,
    map elem_id (document (snd (m st))) = map elem_id (document st)
    /\ forall n, Some n <> node -> document (snd (m st)) !! n = document st !! n.

(** The shape the display functions of the bond, ETF, house and stock tabs
    share: the markup is put in the panel and the panel is shown. *)
Definition render (panel_id : string) (markup : Res string) : M unit :=
  container <- getElementById panel_id ;;
  html <- lift markup ;;
  set_innerHTML container html ;;;
  classList_add container "show".

(** The [catch] block the five form handlers share. *)
Definition show_error_in (panel_id : string) (error : JsError) : M unit :=
  container <- getElementById panel_id ;;
  APIUtils.showError container (message error).

(** The panel with the given id is shown with the given markup. *)
Definition panel_shows (panel_id html : string) (st : State) : Prop :=
  exists panel,
    element_by_id panel_id st = Some panel
    /\ innerHTML panel = html
    /\ "show" ∈ classList panel.

(** The loading indicator is there and hidden. *)
Definition loading_hidden (st : State) : Prop :=
  exists el, element_by_id "loading" st = Some el /\ "show" ∉ classList el.

(** The five form handlers, each with the id of its result panel, the
    endpoint it calls and the other ids it draws on. *)
Definition submissions : list (string * string * list string * (Form -> M unit)) :=
  [ ("bond-result", "/bond-deposit", [], InvestmentApp.handleBondCalculation);
    ("etf-result", "/etf-investment", [], InvestmentApp.handleETFCalculation);
    ("house-result", "/house-investment", [], InvestmentApp.handleHouseCalculation);
    ("stock-result", "/stock-simulation", [], InvestmentApp.handleStockCalculation);
    ("goal-result", "/financial-goal", ["goal-chart"],
     InvestmentApp.handleGoalCalculation) ].

(** The three handlers that send the form as it is, each with its panel,
    its endpoint and the markup of its result. *)
Definition plain_submissions
  : list (string * string * (Form -> M unit) * (JsValue -> Res string)) :=
  [ ("etf-result", "/etf-investment", InvestmentApp.handleETFCalculation,
     InvestmentApp.etf_markup);
    ("house-result", "/house-investment", InvestmentApp.handleHouseCalculation,
     InvestmentApp.house_markup);
    ("stock-result", "/stock-simulation", InvestmentApp.handleStockCalculation,
     InvestmentApp.stock_markup) ].

(** What a panel shows for the outcome of a call and the markup of its
    result: the markup, or the message of whichever error came first. *)
Definition outcome_markup (markup : JsValue -> Res string) (outcome : Res JsValue) : string :=
  match outcome with
  | Ok result =>
      match markup result with
      | Ok html => html
      | Throw e => APIUtils.error_markup (message e)
      end
  | Throw e => APIUtils.error_markup (message e)
  end.

(** A page with the loading indicator and the panel of every tab. *)
Definition full_page : list Element :=
  [ plain_element "loading"; plain_element "bond-result";
    plain_element "etf-result"; plain_element "house-result";
    plain_element "stock-result"; plain_element "goal-result";
    plain_element "goal-chart" ].

Definition full_state (reply : FetchOutcome) : State :=
  mkState full_page [] [] (fun _ => reply) (JStr "bond") None [] working_charts.

Definition sample_etf_form : Form :=
  mkForm [("monthly_investment", "10000"); ("years", "10")] None.

(** A class removed from each of the given nodes in turn. *)
Definition remove_class_all (nodes : list nat) (cls : string) (d : list Element)
  : list Element :=
  fold_left (fun d n => alter (with_classList (fun c => c ∖ {[cls]})) n d) nodes d.

(** The element at a position carries the class [active]. *)
Definition active_in (d : list Element) (n : nat) : Prop :=
  exists el, d !! n = Some el /\ "active" ∈ classList el.

(** [btn.dataset.tab] of a button, and the string it is used as. *)
Definition tab_id (button : Element) : JsValue :=
  match dataset_tab button with
  | Some t => JStr t
  | None => JUndefined
  end.

Definition tab_name (button : Element) : string :=
  match dataset_tab button with
  | Some t => t
  | None => "undefined"
  end.

(** A goal result with no field but a chart whose list of years is empty. *)
Definition empty_chart_result : JsObject :=
  mkObj true {["chart_data" := JObj (mkObj true {["years" := JArr []]})]}.

(** [result.chart_data && result.chart_data.years]: is the chart drawn? *)
Definition draws_chart (result : JsValue) : bool :=
  match get_field result "chart_data" with
  | Ok chart_data =>
      truthy chart_data
      && match get_field chart_data "years" with
         | Ok years => truthy years
         | Throw _ => false
         end
  | Throw _ => false
  end.

(** [v.k], with [undefined] where the read would throw. *)
Definition field_of (v : JsValue) (k : string) : JsValue :=
  match get_field v k with
  | Ok x => x
  | Throw _ => JUndefined
  end.

(** The chart [drawGoalChart] creates from the [chart_data] of a result. *)
Definition goal_chart (result : JsValue) : Chart :=
  mkChart (field_of (field_of result "chart_data") "years")
          (field_of (field_of result "chart_data") "portfolio_values")
          (field_of (field_of result "chart_data") "total_investments").

(** The error of drawing the chart of a result on a page, if there is one:
    the canvas is missing, or its drawing context or the chart cannot be
    created. *)
Definition draw_failure (st : State) (result : JsValue) : option JsError :=
  match find_index (has_id "goal-chart") (document st) with
  | None => Some (cannot_read "null" "style")
  | Some canvas =>
      match getContext (chart_library st) canvas with
      | Throw e => Some e
      | Ok _ =>
          match new_Chart (chart_library st) (goal_chart result) with
          | Throw e => Some e
          | Ok _ => None
          end
      end
  end.

(** What the goal panel shows for the outcome of the call: like
    [outcome_markup], except that a chart that is to be drawn and cannot be
    is an error too. *)
Definition goal_outcome_markup (st : State) (outcome : Res JsValue) : string :=
  match outcome with
  | Ok result =>
      match InvestmentApp.goal_markup result with
      | Ok html =>
          if draws_chart result then
            match draw_failure st result with
            | Some e => APIUtils.error_markup (message e)
            | None => html
            end
          else html
      | Throw e => APIUtils.error_markup (message e)
      end
  | Throw e => APIUtils.error_markup (message e)
  end.

(** A charting library that refuses every chart. *)
Definition failing_charts : ChartLibrary :=
  mkChartLibrary (fun _ => Ok tt) (fun _ => Throw (mkError "Error" "Canvas is already in use.")).

(** A computation that leaves a component of the state as it is. *)
Definition preserves {A T : Type} (proj : State -> T) (m : M A) : Prop :=
  forall st, proj (snd (m st)) = proj st.

(** The chart and the charts torn down so far. *)
Definition charts (st : State) : option Chart * list Chart :=
  (charts_goal st, destroyed st).

(** An entry of a form whose name is not [__proto__]. *)
Definition not_proto (entry : string * string) : bool :=
  negb (String.eqb (fst entry) "__proto__").

(** * Properties *)

(** ** Strings *)














(** ** The formatters *)









(** ** Required fields *)

Lemma validateFormData_fold (data : JsObject) (fields : list string) (acc : list string) :
  fold_left
    (fun errors field =>
       if APIUtils.is_blank (obj_get data field)
       then (errors ++ [(field ++ " 為必填欄位")%string])%list
       else errors)
    fields acc
  = (acc ++ map (fun field => (field ++ " 為必填欄位")%string)
             (List.filter (fun field => APIUtils.is_blank (obj_get data field)) fields))%list.
Proof.
  revert acc. induction fields as [|f fields IH]; intros acc; simpl.
  - now rewrite app_nil_r.
  - rewrite IH. destruct (APIUtils.is_blank (obj_get data f)); simpl.
    + now rewrite <- app_assoc.
    + reflexivity.
Qed.

(** C8. [validateFormData(data, requiredFields)] returns one message per
    required field whose value is [undefined], [null] or the empty string;
    the message is the field's name followed by a fixed text, and the
    messages come in the order of [requiredFields].  For the data
    [{name: ""}] and the field [name] there is exactly one message, which
    starts with [name]; for [{name: "x"}] there is none. *)
Theorem validateFormData_messages :
  (forall v, APIUtils.is_blank v = true <-> v = JUndefined \/ v = JNull \/ v = JStr "")
  /\ (forall (data : JsObject) (requiredFields : list string),
        APIUtils.validateFormData data requiredFields
        = map (fun field => field ++ " 為必填欄位")
            (List.filter (fun field => APIUtils.is_blank (obj_get data field))
               requiredFields))
  /\ APIUtils.validateFormData (mkObj true {["name" := JStr ""]}) ["name"]
     = ["name" ++ " 為必填欄位"]
  /\ APIUtils.validateFormData (mkObj true {["name" := JStr "x"]}) ["name"] = [].
Proof.
  split; [| split; [| split]].
  - intros v; split.
    + destruct v; simpl; try discriminate; auto.
      intros H. apply String.eqb_eq in H. subst. auto.
    + intros [-> | [-> | ->]]; reflexivity.
  - intros data requiredFields. unfold APIUtils.validateFormData.
    now rewrite validateFormData_fold.
  - vm_compute. reflexivity.
  - vm_compute. reflexivity.
Qed.

(** ** Form data *)

Lemma trim_start_spaces (n : nat) : trim_start (repeat_string n " ") = "".
Proof.
  induction n as [|n IH]; simpl; [reflexivity | exact IH].
Qed.

Lemma formDataToObject_example :
  APIUtils.formDataToObject [("a", ""); ("b", "3.5"); ("c", "true"); ("d", "hello")]
  = mkObj true
      (<["a" := JNull]>
         (<["b" := JNum (Num.of_decimal false 35 (-1))]>
            (<["c" := JBool true]> (<["d" := JStr "hello"]> ∅)))).
Proof. vm_compute. reflexivity. Qed.

(** C3. The field value [0x10] is stored as the number 0: neither the
    number 16 the string denotes nor the string itself, although the rule
    leaves only these two outcomes for a non-empty string; and a field value
    of one space is stored as [NaN].  (On the sample fields of the rule the
    function returns the expected object, see [formDataToObject_example].) *)
Theorem formDataToObject_hex_field :
  obj_get (APIUtils.formDataToObject [("rate", "0x10")]) "rate" = JNum Num.zero
  /\ StringToNumber "0x10" = Num.of_Z 16
  /\ JNum Num.zero <> JNum (Num.of_Z 16)
  /\ JNum Num.zero <> JStr "0x10"
  /\ obj_get (APIUtils.formDataToObject [("rate", " ")]) "rate" = JNum Num.NaN.
Proof.
  repeat split; try (vm_compute; reflexivity); discriminate.
Qed.

(** C9. The numeric test of [formDataToObject] ([isNaN], that is, the
    conversion [Number]) and its conversion ([parseFloat]) disagree: a value
    made of spaces only passes the test and is stored as [NaN], and [0x10]
    passes the test (as a number it is 16) and is stored as 0. *)
Theorem formDataToObject_test_and_conversion_disagree :
  (forall (key : string) (n : nat),
      isNaN (repeat_string (S n) " ") = false
      /\ APIUtils.formDataToObject [(key, repeat_string (S n) " ")]
         = obj_set empty_object key (JNum Num.NaN))
  /\ obj_get (APIUtils.formDataToObject [("amount", " ")]) "amount" = JNum Num.NaN
  /\ isNaN "0x10" = false
  /\ StringToNumber "0x10" = Num.of_Z 16
  /\ parseFloat "0x10" = Num.zero
  /\ obj_get (APIUtils.formDataToObject [("amount", "0x10")]) "amount" = JNum Num.zero
  /\ Num.zero <> Num.of_Z 16.
Proof.
  split; [| repeat split; try (vm_compute; reflexivity); discriminate].
  intros key n.
  assert (Hnum : StringToNumber (repeat_string (S n) " ") = Num.zero).
  { unfold StringToNumber, trim. now rewrite trim_start_spaces. }
  assert (Hnan : isNaN (repeat_string (S n) " ") = false).
  { unfold isNaN. now rewrite Hnum. }
  split; [exact Hnan |].
  unfold APIUtils.formDataToObject. cbn [fold_left].
  rewrite Hnan. unfold parseFloat. rewrite trim_start_spaces. reflexivity.
Qed.

(** ** The API call *)

Lemma call_network_failure endpoint data method st e :
  answer endpoint data method st = NetworkFailure e ->
  InvestmentAPI.call endpoint data method st
  = (Throw e, logged endpoint e (sent endpoint data method st)).
Proof.
  unfold answer, request_of. intros H.
  unfold InvestmentAPI.call, try_catch, bind, InvestmentAPI.fetch.
  rewrite H. reflexivity.
Qed.

Lemma call_success endpoint data method st r v :
  answer endpoint data method st = Responded r ->
  ok r = true ->
  json_body r = Ok v ->
  InvestmentAPI.call endpoint data method st = (Ok v, sent endpoint data method st).
Proof.
  unfold answer, request_of. intros H Hok Hbody.
  unfold InvestmentAPI.call, try_catch, bind, InvestmentAPI.fetch.
  rewrite H, Hok. simpl. unfold lift. rewrite Hbody. reflexivity.
Qed.

Lemma call_success_unparsable endpoint data method st r e :
  answer endpoint data method st = Responded r ->
  ok r = true ->
  json_body r = Throw e ->
  InvestmentAPI.call endpoint data method st
  = (Throw e, logged endpoint e (sent endpoint data method st)).
Proof.
  unfold answer, request_of. intros H Hok Hbody.
  unfold InvestmentAPI.call, try_catch, bind, InvestmentAPI.fetch.
  rewrite H, Hok. simpl. unfold lift. rewrite Hbody. reflexivity.
Qed.

Lemma call_failure_status endpoint data method st r detail :
  answer endpoint data method st = Responded r ->
  ok r = false ->
  detail_of r = Ok detail ->
  InvestmentAPI.call endpoint data method st
  = match ToString (if truthy detail then detail
                    else JStr (InvestmentAPI.http_message r)) with
    | Ok msg => (Throw (Error msg),
                 logged endpoint (Error msg) (sent endpoint data method st))
    | Throw e => (Throw e, logged endpoint e (sent endpoint data method st))
    end.
Proof.
  unfold answer, request_of, detail_of. intros H Hok Hdetail.
  unfold InvestmentAPI.call, try_catch, bind, InvestmentAPI.fetch.
  rewrite H, Hok. simpl. rewrite Hdetail.
  destruct (ToString _); reflexivity.
Qed.

Lemma detail_of_ok (r : Response) : exists detail, detail_of r = Ok detail.
Proof.
  unfold detail_of.
  destruct (json_body r) as [v | e]; [| eexists; reflexivity].
  destruct v; simpl; eexists; reflexivity.
Qed.

Lemma call_failure_truthy_detail endpoint data method st r detail text :
  answer endpoint data method st = Responded r ->
  ok r = false ->
  detail_of r = Ok detail ->
  truthy detail = true ->
  ToString detail = Ok text ->
  InvestmentAPI.call endpoint data method st
  = (Throw (Error text), logged endpoint (Error text) (sent endpoint data method st)).
Proof.
  intros Hnet Hok Hd Ht Hs.
  rewrite (call_failure_status _ _ _ _ _ _ Hnet Hok Hd), Ht, Hs. reflexivity.
Qed.

Lemma call_failure_falsy_detail endpoint data method st r detail :
  answer endpoint data method st = Responded r ->
  ok r = false ->
  detail_of r = Ok detail ->
  truthy detail = false ->
  InvestmentAPI.call endpoint data method st
  = (Throw (Error (InvestmentAPI.http_message r)),
     logged endpoint (Error (InvestmentAPI.http_message r))
       (sent endpoint data method st)).
Proof.
  intros Hnet Hok Hd Hf.
  rewrite (call_failure_status _ _ _ _ _ _ Hnet Hok Hd), Hf. reflexivity.
Qed.

Lemma call_failure_detail_string endpoint data method st r o d :
  answer endpoint data method st = Responded r ->
  ok r = false ->
  json_body r = Ok (JObj o) ->
  own o !! "detail" = Some (JStr d) ->
  d <> "" ->
  InvestmentAPI.call endpoint data method st
  = (Throw (Error d), logged endpoint (Error d) (sent endpoint data method st)).
Proof.
  intros Hnet Hok Hbody Hown Hne.
  apply (call_failure_truthy_detail _ _ _ _ r (JStr d)); auto.
  - unfold detail_of. rewrite Hbody. simpl. unfold obj_get. now rewrite Hown.
  - simpl. destruct (String.eqb_spec d ""); [contradiction | reflexivity].
Qed.

Lemma call_failure_unparsable endpoint data method st r e :
  answer endpoint data method st = Responded r ->
  ok r = false ->
  json_body r = Throw e ->
  InvestmentAPI.call endpoint data method st
  = (Throw (Error (InvestmentAPI.http_message r)),
     logged endpoint (Error (InvestmentAPI.http_message r))
       (sent endpoint data method st)).
Proof.
  intros Hnet Hok Hbody.
  apply (call_failure_falsy_detail _ _ _ _ r JUndefined); auto.
  unfold detail_of. now rewrite Hbody.
Qed.

(** The only error of a string conversion is the one of an object without
    a primitive value. *)
Lemma ToString_error : forall (v : JsValue) (e : JsError),
  ToString v = Throw e -> e = cannot_convert.
Proof.
  fix IH 1. intros v e.
  destruct v as [| | b | x | s | l | o | name]; simpl; try discriminate.
  - induction l as [|a l IHl]; [discriminate |].
    assert (Ha : forall e0,
              match a with
              | JUndefined | JNull => Ok ""%string
              | _ => ToString a
              end = Throw e0 -> e0 = cannot_convert).
    { intros e0 H. apply (IH a). destruct a; try discriminate H; exact H. }
    destruct l as [|a' l']; [apply Ha |].
    destruct (match a with
              | JUndefined | JNull => Ok ""%string
              | _ => ToString a
              end) as [sa | ea] eqn:Ea.
    + simpl. intros H. apply IHl.
      destruct ((fix join (l : list JsValue) : Res string :=
                   match l with
                   | [] => Ok ""%string
                   | [e] => match e with
                            | JUndefined | JNull => Ok ""%string
                            | _ => ToString e
                            end
                   | e :: (_ :: _) as r =>
                       res_bind (match e with
                                 | JUndefined | JNull => Ok ""%string
                                 | _ => ToString e
                                 end) (fun s =>
                       res_bind (join r) (fun t => Ok (s ++ "," ++ t)))
                   end) (a' :: l')) as [t | et] eqn:Et.
      * simpl in H. discriminate H.
      * simpl in H. injection H as <-. reflexivity.
    + simpl. intros [= <-]. now apply Ha.
  - destruct (has_prototype o && bool_decide (own o !! "toString" = None));
      [discriminate | now intros [= <-]].
  - destruct (String.eqb name "__proto__"); discriminate.
Qed.

Lemma call_failure_unconvertible endpoint data method st r detail e :
  answer endpoint data method st = Responded r ->
  ok r = false ->
  detail_of r = Ok detail ->
  truthy detail = true ->
  ToString detail = Throw e ->
  InvestmentAPI.call endpoint data method st
  = (Throw e, logged endpoint e (sent endpoint data method st)).
Proof.
  intros Hnet Hok Hd Ht Hs.
  rewrite (call_failure_status _ _ _ _ _ _ Hnet Hok Hd), Ht, Hs. reflexivity.
Qed.

Lemma call_failure_no_detail endpoint data method st r o :
  answer endpoint data method st = Responded r ->
  ok r = false ->
  json_body r = Ok (JObj o) ->
  own o !! "detail" = None ->
  InvestmentAPI.call endpoint data method st
  = (Throw (Error (InvestmentAPI.http_message r)),
     logged endpoint (Error (InvestmentAPI.http_message r))
       (sent endpoint data method st)).
Proof.
  intros Hnet Hok Hbody Hown.
  apply (call_failure_falsy_detail _ _ _ _ r JUndefined); auto.
  unfold detail_of. rewrite Hbody. simpl. unfold obj_get. rewrite Hown.
  replace (bool_decide ("detail" ∈ object_prototype_names)) with false
    by (vm_compute; reflexivity).
  now rewrite andb_false_r.
Qed.

(** C4 (as amended). A call whose response has a failure status fails with
    one error, which is logged with the endpoint.  When the JSON body has a
    truthy [detail], the error is [new Error(detail)]: its message is the
    [detail] itself when that is a non-empty string and the string
    conversion of the [detail] otherwise; when that conversion fails (a
    [detail] object with an own [toString] field, say) the call fails with
    the [TypeError] of the conversion, [Cannot convert object to primitive
    value], instead.  When the body is not JSON, has no [detail], or has a
    falsy one such as the empty string, the message is
    [HTTP <status>: <statusText>].  These are all the cases.  A transport
    failure is logged and thrown on unchanged. *)
Theorem call_failure_message :
  forall (endpoint : string) (data : JsValue) (method : string) (st : State),
    (forall r, answer endpoint data method st = Responded r -> ok r = false ->
       (forall o d, json_body r = Ok (JObj o) -> own o !! "detail" = Some (JStr d) ->
          d <> "" ->
          InvestmentAPI.call endpoint data method st
          = (Throw (Error d), logged endpoint (Error d) (sent endpoint data method st)))
       /\ (forall e, json_body r = Throw e ->
             InvestmentAPI.call endpoint data method st
             = (Throw (Error (InvestmentAPI.http_message r)),
                logged endpoint (Error (InvestmentAPI.http_message r))
                  (sent endpoint data method st)))
       /\ (forall detail, detail_of r = Ok detail -> truthy detail = false ->
             InvestmentAPI.call endpoint data method st
             = (Throw (Error (InvestmentAPI.http_message r)),
                logged endpoint (Error (InvestmentAPI.http_message r))
                  (sent endpoint data method st)))
       /\ (forall detail text, detail_of r = Ok detail -> truthy detail = true ->
             ToString detail = Ok text ->
             InvestmentAPI.call endpoint data method st
             = (Throw (Error text),
                logged endpoint (Error text) (sent endpoint data method st)))
       /\ (forall detail e, detail_of r = Ok detail -> truthy detail = true ->
             ToString detail = Throw e ->
             e = cannot_convert
             /\ InvestmentAPI.call endpoint data method st
                = (Throw cannot_convert,
                   logged endpoint cannot_convert (sent endpoint data method st)))
       /\ (forall o, json_body r = Ok (JObj o) -> own o !! "detail" = None ->
             InvestmentAPI.call endpoint data method st
             = (Throw (Error (InvestmentAPI.http_message r)),
                logged endpoint (Error (InvestmentAPI.http_message r))
                  (sent endpoint data method st)))
       /\ (exists detail,
             detail_of r = Ok detail
             /\ (truthy detail = false
                 \/ (truthy detail = true /\ exists text, ToString detail = Ok text)
                 \/ (truthy detail = true /\ ToString detail = Throw cannot_convert))))
    /\ (forall e, answer endpoint data method st = NetworkFailure e ->
          InvestmentAPI.call endpoint data method st
          = (Throw e, logged endpoint e (sent endpoint data method st))).
Proof.
  intros endpoint data method st. split.
  - intros r Hnet Hok.
    split; [intros o d; now apply call_failure_detail_string |].
    split; [intros e; now apply call_failure_unparsable |].
    split; [intros detail; now apply call_failure_falsy_detail |].
    split; [intros detail text; now apply call_failure_truthy_detail |].
    split.
    { intros detail e Hd Ht Hs.
      pose proof (ToString_error _ _ Hs) as ->.
      split; [reflexivity |].
      now apply (call_failure_unconvertible _ _ _ _ r detail). }
    split; [intros o; now apply call_failure_no_detail |].
    destruct (detail_of_ok r) as [detail Hd].
    exists detail. split; [exact Hd |].
    destruct (truthy detail); [right | now left].
    destruct (ToString detail) as [text | e] eqn:Hs.
    + left. split; [reflexivity | now exists text].
    + right. split; [reflexivity |].
      now rewrite (ToString_error _ _ Hs).
  - intros e Hnet. now apply call_network_failure.
Qed.

Lemma call_failure_message_witness :
  let r := mkResponse 500 "Internal Server Error"
             (Ok (JObj (mkObj true {["detail" := JStr "overloaded"]}))) in
  let st := mkState [] [] [] (fun _ => Responded r) (JStr "bond") None [] working_charts in
  let shadowed := JObj (mkObj true {["toString" := JNum (Num.of_Z 1)]}) in
  let r' := mkResponse 422 "Unprocessable Entity"
              (Ok (JObj (mkObj true {["detail" := shadowed]}))) in
  let st' := mkState [] [] [] (fun _ => Responded r') (JStr "bond") None [] working_charts in
  InvestmentAPI.call "/bond-deposit" JNull "POST" st
  = (Throw (Error "overloaded"),
     logged "/bond-deposit" (Error "overloaded") (sent "/bond-deposit" JNull "POST" st))
  /\ InvestmentAPI.call "/bond-deposit" JNull "POST" st'
     = (Throw (TypeError "Cannot convert object to primitive value"),
        logged "/bond-deposit" (TypeError "Cannot convert object to primitive value")
          (sent "/bond-deposit" JNull "POST" st')).
Proof.
  intros r st shadowed r' st'. split.
  - apply (proj1 (proj1 (call_failure_message "/bond-deposit" JNull "POST" st)
                    r eq_refl eq_refl)
             (mkObj true {["detail" := JStr "overloaded"]}) "overloaded");
      [reflexivity | vm_compute; reflexivity | discriminate].
  - apply (proj1 (proj2 (proj2 (proj2 (proj2
             (proj1 (call_failure_message "/bond-deposit" JNull "POST" st')
                      r' eq_refl eq_refl)))))
             shadowed cannot_convert);
      [vm_compute; reflexivity | reflexivity | vm_compute; reflexivity].
Defined.

(** C4 (as stated) fails: a failure response whose JSON body has the detail
    field [""] does not yield an error with that detail string as its
    message, it yields the message made of the status code and text. *)
Lemma call_empty_detail_counterexample :
  let r := mkResponse 400 "Bad Request"
             (Ok (JObj (mkObj true {["detail" := JStr ""]}))) in
  let st := mkState [] [] [] (fun _ => Responded r) (JStr "bond") None [] working_charts in
  fst (InvestmentAPI.call "/bond-deposit" JNull "POST" st)
  = Throw (Error "HTTP 400: Bad Request")
  /\ ~ (forall endpoint data method st r o d,
          answer endpoint data method st = Responded r -> ok r = false ->
          json_body r = Ok (JObj o) -> own o !! "detail" = Some (JStr d) ->
          fst (InvestmentAPI.call endpoint data method st) = Throw (Error d)).
Proof.
  intros r st. split; [vm_compute; reflexivity |].
  intros H.
  specialize (H "/bond-deposit" JNull "POST" st r
                (mkObj true {["detail" := JStr ""]}) "" eq_refl eq_refl eq_refl).
  assert (Hown : own (mkObj true ({["detail" := JStr ""]} : gmap string JsValue))
                   !! "detail" = Some (JStr "")) by (vm_compute; reflexivity).
  specialize (H Hown). vm_compute in H. discriminate.
Qed.

(** C7 (as amended). A call whose response has a status from 200 to 299
    (the statuses for which [response.ok] holds) and a body that is JSON
    returns the parsed body; the request was sent and nothing is logged. *)
Theorem call_success_returns_json :
  forall (endpoint : string) (data : JsValue) (method : string) (st : State)
         (r : Response) (v : JsValue),
    answer endpoint data method st = Responded r ->
    (200 <= status r <= 299)%nat ->
    json_body r = Ok v ->
    InvestmentAPI.call endpoint data method st = (Ok v, sent endpoint data method st).
Proof.
  intros endpoint data method st r v Hnet [Hlo Hhi] Hbody.
  apply (call_success _ _ _ _ r); [exact Hnet | | exact Hbody].
  unfold ok. apply andb_true_intro; split; apply Nat.leb_le; assumption.
Qed.

Lemma call_success_returns_json_witness :
  let r := mkResponse 200 "OK" (Ok (JObj (mkObj true {["status" := JStr "healthy"]}))) in
  let st := mkState [] [] [] (fun _ => Responded r) (JStr "bond") None [] working_charts in
  InvestmentAPI.call "/health" JNull "GET" st
  = (Ok (JObj (mkObj true {["status" := JStr "healthy"]})),
     sent "/health" JNull "GET" st).
Proof.
  intros r st.
  apply (call_success_returns_json "/health" JNull "GET" st r); simpl;
    [reflexivity | lia | reflexivity].
Defined.

(** C7 (as stated) fails: a response of the 3xx class with a JSON body is
    not returned, the call fails with the status message. *)
Lemma call_3xx_counterexample :
  let r := mkResponse 300 "Multiple Choices" (Ok (JArr [JStr "/a"; JStr "/b"])) in
  let st := mkState [] [] [] (fun _ => Responded r) (JStr "bond") None [] working_charts in
  fst (InvestmentAPI.call "/investment-types" JNull "GET" st)
  = Throw (Error "HTTP 300: Multiple Choices")
  /\ ~ (forall endpoint data method st r v,
          answer endpoint data method st = Responded r ->
          (200 <= status r <= 399)%nat ->
          json_body r = Ok v ->
          fst (InvestmentAPI.call endpoint data method st) = Ok v).
Proof.
  intros r st. split; [vm_compute; reflexivity |].
  intros H.
  specialize (H "/investment-types" JNull "GET" st r (JArr [JStr "/a"; JStr "/b"])
                eq_refl).
  assert (Hstatus : (200 <= status r <= 399)%nat) by (simpl; lia).
  specialize (H Hstatus eq_refl). vm_compute in H. discriminate.
Qed.

(** ** Running computations step by step *)

Lemma bind_ok {A B : Type} (m : M A) (k : A -> M B) (st st' : State) (a : A) :
  m st = (Ok a, st') -> bind m k st = k a st'.
Proof. unfold bind. now intros ->. Qed.

Lemma bind_throw {A B : Type} (m : M A) (k : A -> M B) (st st' : State) (e : JsError) :
  m st = (Throw e, st') -> bind m k st = (Throw e, st').
Proof. unfold bind. now intros ->. Qed.

Lemma try_catch_finally_caught {A : Type} (body : M A) (handler : JsError -> M A)
    (final : M unit) (st st1 st2 st3 : State) (e : JsError) (r : Res A) :
  body st = (Throw e, st1) ->
  handler e st1 = (r, st2) ->
  final st2 = (Ok tt, st3) ->
  try_catch_finally body handler final st = (r, st3).
Proof.
  intros Hbody Hhandler Hfinal. unfold try_catch_finally, try_catch.
  now rewrite Hbody, Hhandler, Hfinal.
Qed.

(** ** The page *)

Lemma find_index_alter {A : Type} (p : A -> bool) (f : A -> A) (n : nat) (l : list A) :
  (forall x, p (f x) = p x) ->
  find_index p (alter f n l) = find_index p l.
Proof.
  intros Hp. revert n. induction l as [|x l IH]; intros n; [reflexivity |].
  destruct n as [|n]; simpl.
  - now rewrite Hp.
  - rewrite <- (IH n). reflexivity.
Qed.

Lemma find_index_lookup {A : Type} (p : A -> bool) (l : list A) (n : nat) :
  find_index p l = Some n -> exists x, l !! n = Some x /\ p x = true.
Proof.
  revert n. induction l as [|x l IH]; intros n; simpl; [discriminate |].
  destruct (p x) eqn:Hx.
  - intros [= <-]. exists x. split; [reflexivity | exact Hx].
  - destruct (find_index p l) as [m|]; simpl; [| discriminate].
    intros [= <-]. destruct (IH m eq_refl) as [y [Hy Hpy]].
    exists y. split; assumption.
Qed.

Lemma has_id_inj (a b : string) (el : Element) :
  has_id a el = true -> has_id b el = true -> a = b.
Proof.
  unfold has_id. destruct (elem_id el) as [i|]; [| discriminate].
  intros Ha Hb. apply String.eqb_eq in Ha, Hb. congruence.
Qed.

Lemma distinct_ids_distinct_nodes (a b : string) (l : list Element) (i j : nat) :
  find_index (has_id a) l = Some i ->
  find_index (has_id b) l = Some j ->
  a <> b -> i <> j.
Proof.
  intros Ha Hb Hne ->.
  destruct (find_index_lookup _ _ _ Ha) as [x [Hx Hpx]].
  destruct (find_index_lookup _ _ _ Hb) as [y [Hy Hpy]].
  rewrite Hx in Hy. injection Hy as <-.
  apply Hne. now apply (has_id_inj a b x).
Qed.

Lemma find_id_add_class (id : string) (n : nat) (cls : string) (st : State) :
  find_index (has_id id) (document (add_class n cls st))
  = find_index (has_id id) (document st).
Proof. simpl. now apply find_index_alter. Qed.

Lemma find_id_remove_class (id : string) (n : nat) (cls : string) (st : State) :
  find_index (has_id id) (document (remove_class n cls st))
  = find_index (has_id id) (document st).
Proof. simpl. now apply find_index_alter. Qed.

Lemma find_id_put_html (id : string) (n : nat) (html : string) (st : State) :
  find_index (has_id id) (document (put_html n html st))
  = find_index (has_id id) (document st).
Proof. simpl. now apply find_index_alter. Qed.

Lemma showLoading_run (st : State) (i : nat) :
  find_index (has_id "loading") (document st) = Some i ->
  APIUtils.showLoading st = (Ok tt, add_class i "show" st).
Proof.
  intros H. unfold APIUtils.showLoading, bind, getElementById. now rewrite H.
Qed.

Lemma hideLoading_run (st : State) (i : nat) :
  find_index (has_id "loading") (document st) = Some i ->
  APIUtils.hideLoading st = (Ok tt, remove_class i "show" st).
Proof.
  intros H. unfold APIUtils.hideLoading, bind, getElementById. now rewrite H.
Qed.

Lemma showError_run (st : State) (j : nat) (msg : string) :
  APIUtils.showError (Some j) msg st
  = (Ok tt, add_class j "show" (put_html j (APIUtils.error_markup msg) st)).
Proof. reflexivity. Qed.

Lemma handler_catches (body : M unit) (panel_id : string) (st st1 : State)
    (i j : nat) (e : JsError) :
  body st = (Throw e, st1) ->
  find_index (has_id "loading") (document st1) = Some i ->
  find_index (has_id panel_id) (document st1) = Some j ->
  try_catch_finally body
    (fun error =>
       container <- getElementById panel_id ;;
       APIUtils.showError container (message error))
    APIUtils.hideLoading st
  = (Ok tt, error_shown i j (message e) st1).
Proof.
  intros Hbody Hi Hj.
  apply (try_catch_finally_caught _ _ _ _ st1
           (add_class j "show" (put_html j (APIUtils.error_markup (message e)) st1)) _ e).
  - exact Hbody.
  - unfold bind, getElementById. rewrite Hj. apply showError_run.
  - apply hideLoading_run.
    now rewrite find_id_add_class, find_id_put_html.
Qed.

Lemma error_shown_panel (i j : nat) (msg : string) (st : State) (panel_id : string) :
  find_index (has_id "loading") (document st) = Some i ->
  find_index (has_id panel_id) (document st) = Some j ->
  panel_id <> "loading" ->
  exists panel,
    element_by_id panel_id (error_shown i j msg st) = Some panel
    /\ innerHTML panel = APIUtils.error_markup msg
    /\ "show" ∈ classList panel.
Proof.
  intros Hi Hj Hne.
  assert (Hij : i <> j).
  { apply (distinct_ids_distinct_nodes "loading" panel_id (document st)); auto. }
  destruct (find_index_lookup _ _ _ Hj) as [el [Hel _]].
  unfold element_by_id, error_shown.
  rewrite find_id_remove_class, find_id_add_class, find_id_put_html, Hj.
  simpl.
  rewrite list_lookup_alter_ne by exact Hij.
  rewrite !list_lookup_alter_eq, Hel. simpl.
  eexists. split; [reflexivity |]. simpl. split; [reflexivity | set_solver].
Qed.

(** ** Computations that send no request *)

Lemma keeps_ret {A : Type} (a : A) : keeps_requests (ret a).
Proof. intros st. reflexivity. Qed.

Lemma keeps_throw {A : Type} (e : JsError) : keeps_requests (@throw A e).
Proof. intros st. reflexivity. Qed.

Lemma keeps_lift {A : Type} (r : Res A) : keeps_requests (lift r).
Proof. intros st. reflexivity. Qed.

Lemma keeps_bind {A B : Type} (m : M A) (k : A -> M B) :
  keeps_requests m -> (forall a, keeps_requests (k a)) -> keeps_requests (bind m k).
Proof.
  intros Hm Hk st. unfold bind. specialize (Hm st).
  destruct (m st) as [[a | e] st']; simpl in *.
  - now rewrite Hk.
  - exact Hm.
Qed.

Lemma keeps_modify (f : State -> State) :
  (forall st, requests (f st) = requests st) -> keeps_requests (modify f).
Proof. intros Hf st. apply Hf. Qed.

Lemma keeps_get_state : keeps_requests get_state.
Proof. intros st. reflexivity. Qed.

Lemma keeps_getElementById (id : string) : keeps_requests (getElementById id).
Proof. intros st. reflexivity. Qed.

Lemma keeps_update_element (n : nat) (f : Element -> Element) :
  keeps_requests (update_element n f).
Proof. intros st. reflexivity. Qed.

Lemma keeps_classList_add (node : option nat) (cls : string) :
  keeps_requests (classList_add node cls).
Proof. destruct node; intros st; reflexivity. Qed.

Lemma keeps_classList_remove (node : option nat) (cls : string) :
  keeps_requests (classList_remove node cls).
Proof. destruct node; intros st; reflexivity. Qed.

Lemma keeps_set_innerHTML (node : option nat) (html : string) :
  keeps_requests (set_innerHTML node html).
Proof. destruct node; intros st; reflexivity. Qed.

Create HintDb keeps.
#[local] Hint Resolve keeps_ret keeps_throw keeps_lift keeps_get_state
  keeps_getElementById keeps_update_element keeps_classList_add
  keeps_classList_remove keeps_set_innerHTML : keeps.

Ltac keeps :=
  repeat first
    [ apply keeps_bind; [| intros ?]
    | solve [auto with keeps]
    | apply keeps_modify; intros ?; reflexivity
    | match goal with
      | |- keeps_requests (if ?b then _ else _) => destruct b
      | |- keeps_requests (match ?x with _ => _ end) => destruct x
      end ].

Lemma keeps_hideLoading : keeps_requests APIUtils.hideLoading.
Proof. unfold APIUtils.hideLoading. keeps. Qed.

Lemma keeps_drawGoalChart (chartData : JsValue) :
  keeps_requests (InvestmentApp.drawGoalChart chartData).
Proof.
  unfold InvestmentApp.drawGoalChart.
  apply keeps_bind; [apply keeps_getElementById | intros [n |]];
    [| apply keeps_throw].
  apply keeps_bind; [apply keeps_update_element | intros _].
  apply keeps_bind.
  { apply keeps_modify. intros st. unfold InvestmentApp.destroy_goal_chart.
    now destruct (charts_goal st). }
  intros _. keeps.
Qed.

Lemma keeps_displayGoalResult (result : JsValue) :
  keeps_requests (InvestmentApp.displayGoalResult result).
Proof.
  unfold InvestmentApp.displayGoalResult.
  apply keeps_bind; [apply keeps_getElementById | intros container].
  apply keeps_bind; [apply keeps_lift | intros html].
  apply keeps_bind; [apply keeps_set_innerHTML | intros _].
  apply keeps_bind; [apply keeps_classList_add | intros _].
  apply keeps_bind; [apply keeps_lift | intros chart_data].
  destruct (truthy chart_data); [| apply keeps_ret].
  apply keeps_bind; [apply keeps_lift | intros years].
  destruct (truthy years); [apply keeps_drawGoalChart | apply keeps_ret].
Qed.

Lemma keeps_show_error_in (panel_id : string) (e : JsError) :
  keeps_requests
    (container <- getElementById panel_id ;;
     APIUtils.showError container (message e)).
Proof. keeps. Qed.

Lemma requests_try_catch_finally {A : Type} (body : M A) (handler : JsError -> M A)
    (final : M unit) (st : State) :
  (forall e, keeps_requests (handler e)) ->
  keeps_requests final ->
  requests (snd (try_catch_finally body handler final st)) = requests (snd (body st)).
Proof.
  intros Hh Hf. unfold try_catch_finally, try_catch.
  destruct (body st) as [[a | e] st1]; simpl.
  - specialize (Hf st1). destruct (final st1) as [[u | e'] st2]; exact Hf.
  - specialize (Hh e st1). destruct (handler e st1) as [r st2]. simpl in Hh.
    specialize (Hf st2). destruct (final st2) as [[u | e'] st3]; simpl in *; congruence.
Qed.

Lemma requests_bind_keeps {A B : Type} (m : M A) (k : A -> M B) (st : State) :
  (forall a, keeps_requests (k a)) ->
  requests (snd (bind m k st)) = requests (snd (m st)).
Proof.
  intros Hk. unfold bind. destruct (m st) as [[a | e] st']; simpl; [apply Hk | reflexivity].
Qed.

Lemma call_requests (endpoint : string) (data : JsValue) (method : string) (st : State) :
  requests (snd (InvestmentAPI.call endpoint data method st))
  = (requests st ++ [request_of endpoint data method])%list.
Proof.
  destruct (answer endpoint data method st) as [e | r] eqn:Hnet.
  - now rewrite (call_network_failure _ _ _ _ _ Hnet).
  - destruct (ok r) eqn:Hok.
    + destruct (json_body r) as [v | e] eqn:Hbody.
      * now rewrite (call_success _ _ _ _ _ _ Hnet Hok Hbody).
      * now rewrite (call_success_unparsable _ _ _ _ _ _ Hnet Hok Hbody).
    + destruct (detail_of_ok r) as [detail Hdetail].
      rewrite (call_failure_status _ _ _ _ _ _ Hnet Hok Hdetail).
      destruct (ToString _); reflexivity.
Qed.

(** ** The bond form *)

Lemma handleBond_call_fails (form : Form) (checked : bool) (st st2 : State)
    (i j : nat) (e : JsError) :
  is_compound_checked form = Some checked ->
  find_index (has_id "loading") (document st) = Some i ->
  find_index (has_id "bond-result") (document st) = Some j ->
  InvestmentAPI.call "/bond-deposit" (bond_data form checked) "POST"
    (add_class i "show" st) = (Throw e, st2) ->
  document st2 = document (add_class i "show" st) ->
  InvestmentApp.handleBondCalculation form st
  = (Ok tt, error_shown i j (message e) st2).
Proof.
  intros Hchecked Hi Hj Hcall Hdoc.
  unfold InvestmentApp.handleBondCalculation.
  apply handler_catches.
  - rewrite (bind_ok _ _ _ _ _ (showLoading_run st i Hi)).
    unfold InvestmentApp.is_compound_of. rewrite Hchecked.
    unfold bind at 1. unfold lift at 1.
    apply bind_throw. exact Hcall.
  - now rewrite Hdoc, find_id_add_class.
  - now rewrite Hdoc, find_id_add_class.
Qed.

(** C5 (as amended). When the API call of a bond submission fails with a
    status 500 whose body is [{"detail": "overloaded"}], the result panel of
    the bond tab is shown with the error block, whose text is the label
    followed by exactly the message [overloaded]; when the body of the 500 is
    not JSON, the label is followed by exactly
    [HTTP 500: Internal Server Error]. *)
Theorem bond_error_shown :
  forall (form : Form) (checked : bool) (st : State) (i j : nat) (r : Response),
    is_compound_checked form = Some checked ->
    find_index (has_id "loading") (document st) = Some i ->
    find_index (has_id "bond-result") (document st) = Some j ->
    answer "/bond-deposit" (bond_data form checked) "POST" st = Responded r ->
    status r = 500%nat ->
    statusText r = "Internal Server Error" ->
    (forall o, json_body r = Ok (JObj o) ->
       own o !! "detail" = Some (JStr "overloaded") ->
       exists panel,
         element_by_id "bond-result" (snd (InvestmentApp.handleBondCalculation form st))
         = Some panel
         /\ innerHTML panel = APIUtils.error_markup "overloaded"
         /\ shown_text (innerHTML panel) = "錯誤: overloaded"
         /\ "show" ∈ classList panel)
    /\ (forall e, json_body r = Throw e ->
          exists panel,
            element_by_id "bond-result" (snd (InvestmentApp.handleBondCalculation form st))
            = Some panel
            /\ innerHTML panel = APIUtils.error_markup "HTTP 500: Internal Server Error"
            /\ shown_text (innerHTML panel) = "錯誤: HTTP 500: Internal Server Error"
            /\ "show" ∈ classList panel).
Proof.
  intros form checked st i j r Hchecked Hi Hj Hnet Hstatus Htext.
  assert (Hok : ok r = false) by (unfold ok; now rewrite Hstatus).
  pose proof (fun o d => call_failure_detail_string "/bond-deposit"
                (bond_data form checked) "POST" (add_class i "show" st) r o d Hnet Hok)
    as Hdetail.
  pose proof (fun e => call_failure_unparsable "/bond-deposit"
                (bond_data form checked) "POST" (add_class i "show" st) r e Hnet Hok)
    as Hunparsable.
  assert (Hshown : forall msg st2,
            InvestmentAPI.call "/bond-deposit" (bond_data form checked) "POST"
              (add_class i "show" st) = (Throw (Error msg), st2) ->
            document st2 = document (add_class i "show" st) ->
            exists panel,
              element_by_id "bond-result" (snd (InvestmentApp.handleBondCalculation form st))
              = Some panel
              /\ innerHTML panel = APIUtils.error_markup msg
              /\ "show" ∈ classList panel).
  { intros msg st2 Hcall Hdoc.
    rewrite (handleBond_call_fails form checked st st2 i j _ Hchecked Hi Hj Hcall Hdoc).
    simpl. apply error_shown_panel; [| | discriminate].
    - now rewrite Hdoc, find_id_add_class.
    - now rewrite Hdoc, find_id_add_class. }
  split.
  - intros o Hbody Hown.
    destruct (Hshown _ _ (Hdetail o "overloaded" Hbody Hown ltac:(discriminate)) eq_refl)
      as [panel [Hpanel [Hhtml Hshow]]].
    exists panel. repeat split; try assumption.
    rewrite Hhtml. vm_compute. reflexivity.
  - intros e Hbody.
    assert (Hmsg : InvestmentAPI.http_message r = "HTTP 500: Internal Server Error").
    { unfold InvestmentAPI.http_message. now rewrite Hstatus, Htext. }
    specialize (Hunparsable e Hbody). rewrite Hmsg in Hunparsable.
    destruct (Hshown _ _ Hunparsable eq_refl) as [panel [Hpanel [Hhtml Hshow]]].
    exists panel. repeat split; try assumption.
    rewrite Hhtml. vm_compute. reflexivity.
Qed.

Lemma bond_error_shown_witness :
  exists panel,
    element_by_id "bond-result"
      (snd (InvestmentApp.handleBondCalculation sample_bond_form
              (sample_state (Responded overloaded_500))))
    = Some panel
    /\ innerHTML panel = APIUtils.error_markup "overloaded"
    /\ shown_text (innerHTML panel) = "錯誤: overloaded"
    /\ "show" ∈ classList panel.
Proof.
  apply (proj1 (bond_error_shown sample_bond_form true
                  (sample_state (Responded overloaded_500)) 0 1 overloaded_500
                  eq_refl eq_refl eq_refl eq_refl eq_refl eq_refl)
           (mkObj true {["detail" := JStr "overloaded"]}) eq_refl).
  vm_compute. reflexivity.
Defined.

(** C5 (as stated) fails: the panel does not show the message alone, its
    text starts with the label of the error block. *)
Lemma bond_error_label_counterexample :
  exists panel,
    element_by_id "bond-result"
      (snd (InvestmentApp.handleBondCalculation sample_bond_form
              (sample_state (Responded overloaded_500))))
    = Some panel
    /\ shown_text (innerHTML panel) = "錯誤: overloaded"
    /\ shown_text (innerHTML panel) <> "overloaded"
    /\ innerHTML panel <> "overloaded".
Proof.
  eexists. split; [vm_compute; reflexivity |].
  split; [vm_compute; reflexivity |].
  split; vm_compute; discriminate.
Qed.

(** ** The goal form *)

Lemma leb_finite_not_gtb (x : spec_float) (m0 : positive) (e0 : Z) :
  SFleb (SFabs x) (S754_finite false m0 e0) = true ->
  SFltb (S754_finite false m0 e0) (SFabs x) = false.
Proof.
  unfold SFleb, SFltb.
  destruct x as [s | s | | s m e]; simpl; try reflexivity; try discriminate.
  rewrite (Z.compare_antisym e e0).
  change (Pos.compare_cont Eq m0 m) with (Pos.compare m0 m).
  change (Pos.compare_cont Eq m m0) with (Pos.compare m m0).
  rewrite (Pos.compare_antisym m m0).
  destruct (e ?= e0)%Z; simpl; try reflexivity; try discriminate.
  destruct (m ?= m0)%positive; simpl; try reflexivity; discriminate.
Qed.

Lemma within_tolerance_not_off (d : spec_float) :
  Num.leb (Num.abs d) number_0_01 = true ->
  Num.gtb (Num.abs d) number_0_01 = false.
Proof.
  change number_0_01 with (S754_finite false 5764607523034235 (-59)).
  apply leb_finite_not_gtb.
Qed.

Lemma handleGoal_rejects (form : Form) (st : State) (i j : nat) (total : JsValue)
    (msg : string) :
  find_index (has_id "loading") (document st) = Some i ->
  find_index (has_id "goal-result") (document st) = Some j ->
  InvestmentApp.allocation_total (goal_data form) = Ok total ->
  InvestmentApp.allocation_off total = Ok true ->
  InvestmentApp.allocation_message total = Ok msg ->
  InvestmentApp.handleGoalCalculation form st
  = (Ok tt, error_shown i j msg (add_class i "show" st)).
Proof.
  intros Hi Hj Htotal Hoff Hmsg.
  unfold InvestmentApp.handleGoalCalculation.
  change msg with (message (Error msg)).
  apply handler_catches.
  - rewrite (bind_ok _ _ _ _ _ (showLoading_run st i Hi)).
    fold (goal_data form). rewrite Htotal.
    unfold bind at 1. unfold lift at 1.
    rewrite Hoff. unfold bind at 1. unfold lift at 1.
    rewrite Hmsg. reflexivity.
  - now rewrite find_id_add_class.
  - now rewrite find_id_add_class.
Qed.

Lemma handleGoal_proceeds (form : Form) (st : State) (i : nat) (total : JsValue) :
  find_index (has_id "loading") (document st) = Some i ->
  InvestmentApp.allocation_total (goal_data form) = Ok total ->
  InvestmentApp.allocation_off total = Ok false ->
  InvestmentApp.handleGoalCalculation form st = submit_goal form st
  /\ requests (snd (InvestmentApp.handleGoalCalculation form st))
     = (requests st ++ [request_of "/financial-goal" (JObj (goal_data form)) "POST"])%list.
Proof.
  intros Hi Htotal Hoff.
  assert (Heq : InvestmentApp.handleGoalCalculation form st = submit_goal form st).
  { unfold InvestmentApp.handleGoalCalculation, submit_goal, try_catch_finally, try_catch.
    rewrite !(bind_ok _ _ _ _ _ (showLoading_run st i Hi)).
    fold (goal_data form). rewrite Htotal.
    unfold bind at 1. unfold lift at 1.
    rewrite Hoff. reflexivity. }
  split; [exact Heq |].
  rewrite Heq. unfold submit_goal.
  rewrite requests_try_catch_finally;
    [| intros e; apply keeps_show_error_in | apply keeps_hideLoading].
  rewrite (bind_ok _ _ _ _ _ (showLoading_run st i Hi)).
  rewrite requests_bind_keeps by (intros a; apply keeps_displayGoalResult).
  unfold InvestmentAPI.calculateFinancialGoal. rewrite call_requests. reflexivity.
Qed.

Lemma js_add_primitive (a b v : JsValue) :
  js_add a b = Ok v -> (exists x, v = JNum x) \/ (exists s, v = JStr s).
Proof.
  unfold js_add.
  destruct (ToPrimitive a) as [pa | e]; simpl; [| discriminate].
  destruct (ToPrimitive b) as [pb | e]; simpl; [| discriminate].
  assert (Hcat : forall r : Res JsValue,
            r = (let? sa := ToString pa in let? sb := ToString pb in Ok (JStr (sa ++ sb))) ->
            r = Ok v -> exists s, v = JStr s).
  { intros r -> H.
    destruct (ToString pa) as [sa | e]; simpl in H; [| discriminate].
    destruct (ToString pb) as [sb | e]; simpl in H; [| discriminate].
    injection H as <-. eexists; reflexivity. }
  assert (Hsum : forall r : Res JsValue,
            r = (let? x := ToNumber pa in let? y := ToNumber pb in Ok (JNum (Num.add x y))) ->
            r = Ok v -> exists x, v = JNum x).
  { intros r -> H.
    destruct (ToNumber pa) as [x | e]; simpl in H; [| discriminate].
    destruct (ToNumber pb) as [y | e]; simpl in H; [| discriminate].
    injection H as <-. eexists; reflexivity. }
  destruct pa, pb; intros H;
    first [ left; apply (Hsum _ eq_refl H) | right; apply (Hcat _ eq_refl H) ].
Qed.

Lemma allocation_message_defined (data : JsObject) (total : JsValue) :
  InvestmentApp.allocation_total data = Ok total ->
  exists text,
    ToString total = Ok text
    /\ InvestmentApp.allocation_message total
       = Ok ("投資配置總和必須為100%，目前為" ++ text ++ "%").
Proof.
  unfold InvestmentApp.allocation_total, InvestmentApp.allocation_message.
  destruct (js_add (obj_get data "stock_allocation") (obj_get data "bond_allocation"))
    as [t1 | e]; simpl; [| discriminate].
  destruct (js_add t1 (obj_get data "etf_allocation")) as [t2 | e]; simpl; [| discriminate].
  intros H. destruct (js_add_primitive _ _ _ H) as [[x ->] | [s ->]];
    eexists; split; reflexivity.
Qed.

Lemma formDataToObject_snoc (entries : list (string * string)) (key value : string) :
  APIUtils.formDataToObject (entries ++ [(key, value)])
  = obj_set (APIUtils.formDataToObject entries) key (field_value value).
Proof.
  unfold APIUtils.formDataToObject, field_value. rewrite fold_left_app. simpl.
  destruct (String.eqb value ""); [reflexivity |].
  destruct (negb (isNaN value) && negb false); [reflexivity |].
  destruct (String.eqb value "true"); [reflexivity |].
  destruct (String.eqb value "false"); reflexivity.
Qed.

Lemma obj_get_set (o : JsObject) (key : string) (v : JsValue) :
  key <> "__proto__" -> obj_get (obj_set o key v) key = v.
Proof.
  intros Hkey. unfold obj_set.
  destruct (String.eqb_spec key "__proto__") as [-> | _]; [contradiction |].
  simpl. unfold obj_get. simpl. now rewrite lookup_insert_eq.
Qed.

(** The last entry of a form decides the value of its field. *)
Lemma formDataToObject_last_field (entries : list (string * string)) (key value : string) :
  key <> "__proto__" ->
  obj_get (APIUtils.formDataToObject (entries ++ [(key, value)])) key = field_value value.
Proof.
  intros Hkey. rewrite formDataToObject_snoc. now apply obj_get_set.
Qed.

Lemma field_value_primitive (value : string) : is_primitive (field_value value) = true.
Proof.
  unfold field_value.
  destruct (String.eqb value ""); [reflexivity |].
  destruct (negb (isNaN value) && negb false); [reflexivity |].
  destruct (String.eqb value "true"); [reflexivity |].
  destruct (String.eqb value "false"); reflexivity.
Qed.

Lemma obj_set_primitive (o : JsObject) (key : string) (v : JsValue) :
  is_primitive v = true ->
  (forall k w, own o !! k = Some w -> is_primitive w = true) ->
  forall k w, own (obj_set o key v) !! k = Some w -> is_primitive w = true.
Proof.
  intros Hv Ho k w. unfold obj_set.
  destruct (String.eqb key "__proto__" && has_prototype o
            && bool_decide (own o !! key = None)).
  - destruct v; apply Ho.
  - simpl. rewrite lookup_insert. destruct (decide (key = k)).
    + intros [= <-]. exact Hv.
    + apply Ho.
Qed.

Lemma formDataToObject_snoc_primitive (entries : list (string * string)) :
  forall k w, own (APIUtils.formDataToObject entries) !! k = Some w ->
              is_primitive w = true.
Proof.
  induction entries as [|[key value] entries IH] using rev_ind.
  - intros k w. unfold APIUtils.formDataToObject. simpl.
    rewrite lookup_empty. discriminate.
  - rewrite formDataToObject_snoc.
    apply obj_set_primitive; [apply field_value_primitive | exact IH].
Qed.

Lemma js_add_defined (a b : JsValue) :
  is_primitive a = true -> is_primitive b = true ->
  exists v, js_add a b = Ok v /\ is_primitive v = true.
Proof.
  destruct a, b; simpl; try discriminate; intros _ _; eexists; split; reflexivity.
Qed.

Lemma allocation_field_primitive (form : Form) (key : string) :
  bool_decide (key ∈ object_prototype_names) = false ->
  is_primitive (obj_get (goal_data form) key) = true.
Proof.
  intros Hkey. unfold obj_get. rewrite Hkey, andb_false_r.
  destruct (own (goal_data form) !! key) as [w|] eqn:Hw; [| reflexivity].
  apply (formDataToObject_snoc_primitive _ _ _ Hw).
Qed.

Lemma allocation_total_defined (form : Form) :
  exists total diff,
    InvestmentApp.allocation_total (goal_data form) = Ok total
    /\ js_sub_number total number_100 = Ok diff.
Proof.
  unfold InvestmentApp.allocation_total.
  destruct (js_add_defined _ _
              (allocation_field_primitive form "stock_allocation" eq_refl)
              (allocation_field_primitive form "bond_allocation" eq_refl))
    as [t1 [H1 P1]].
  rewrite H1. simpl.
  destruct (js_add_defined _ _ P1
              (allocation_field_primitive form "etf_allocation" eq_refl))
    as [t2 [H2 P2]].
  rewrite H2. simpl.
  destruct (js_add_defined _ _ P2
              (allocation_field_primitive form "deposit_allocation" eq_refl))
    as [t3 [H3 P3]].
  exists t3. rewrite H3.
  destruct t3; try discriminate; eexists; split; reflexivity.
Qed.

(** C2. In a goal submission, let [total] be the sum of the four coerced
    allocation fields.  If it differs from 100 by more than 0.01, the
    handler raises the validation error: its message, which quotes the
    total, is shown in the result panel of the goal tab, and no request is
    sent and nothing is logged.  If the total is within 0.01 of 100, no
    validation error is raised: the handler runs as it does without the
    check, and the request to [/financial-goal] is sent. *)
Theorem goal_allocation_check :
  forall (form : Form) (st : State) (i j : nat),
    find_index (has_id "loading") (document st) = Some i ->
    find_index (has_id "goal-result") (document st) = Some j ->
    exists (total : JsValue) (diff : spec_float),
      InvestmentApp.allocation_total (goal_data form) = Ok total
      /\ js_sub_number total number_100 = Ok diff
      /\ (Num.gtb (Num.abs diff) number_0_01 = true ->
          exists text panel,
            ToString total = Ok text
            /\ fst (InvestmentApp.handleGoalCalculation form st) = Ok tt
            /\ requests (snd (InvestmentApp.handleGoalCalculation form st)) = requests st
            /\ console (snd (InvestmentApp.handleGoalCalculation form st)) = console st
            /\ element_by_id "goal-result"
                 (snd (InvestmentApp.handleGoalCalculation form st))
               = Some panel
            /\ innerHTML panel
               = APIUtils.error_markup ("投資配置總和必須為100%，目前為" ++ text ++ "%")
            /\ "show" ∈ classList panel)
      /\ (Num.leb (Num.abs diff) number_0_01 = true ->
          InvestmentApp.handleGoalCalculation form st = submit_goal form st
          /\ requests (snd (InvestmentApp.handleGoalCalculation form st))
             = (requests st
                ++ [request_of "/financial-goal" (JObj (goal_data form)) "POST"])%list).
Proof.
  intros form st i j Hi Hj.
  destruct (allocation_total_defined form) as [total [diff [Htotal Hdiff]]].
  exists total, diff. split; [exact Htotal | split; [exact Hdiff | split]].
  - intros Hoff.
    destruct (allocation_message_defined _ _ Htotal) as [text [Htext Hmsg]].
    assert (Hcheck : InvestmentApp.allocation_off total = Ok true).
    { unfold InvestmentApp.allocation_off. rewrite Hdiff. simpl. now rewrite Hoff. }
    rewrite (handleGoal_rejects form st i j total _ Hi Hj Htotal Hcheck Hmsg).
    destruct (error_shown_panel i j
                ("投資配置總和必須為100%，目前為" ++ text ++ "%")
                (add_class i "show" st) "goal-result") as [panel [Hp [Hhtml Hshow]]];
      [now rewrite find_id_add_class | now rewrite find_id_add_class | discriminate |].
    exists text, panel. repeat split; assumption.
  - intros Hwithin.
    apply (handleGoal_proceeds form st i total Hi Htotal).
    unfold InvestmentApp.allocation_off. rewrite Hdiff. simpl.
    now rewrite (within_tolerance_not_off diff Hwithin).
Qed.

Lemma goal_allocation_check_witness :
  let st := sample_state (Responded overloaded_500) in
  (requests (snd (InvestmentApp.handleGoalCalculation (goal_form "40" "30" "20" "9") st))
   = requests st
   /\ shown_text <$> (innerHTML <$> element_by_id "goal-result"
        (snd (InvestmentApp.handleGoalCalculation (goal_form "40" "30" "20" "9") st)))
      = Some "錯誤: 投資配置總和必須為100%，目前為99%")
  /\ requests
       (snd (InvestmentApp.handleGoalCalculation (goal_form "40" "30" "20" "10.005") st))
     = (requests st
        ++ [request_of "/financial-goal"
              (JObj (goal_data (goal_form "40" "30" "20" "10.005"))) "POST"])%list.
Proof.
  intros st. split.
  - destruct (goal_allocation_check (goal_form "40" "30" "20" "9") st 0 2 eq_refl eq_refl)
      as [total [diff [Htotal [Hdiff [Hoff _]]]]].
    vm_compute in Htotal. injection Htotal as <-.
    vm_compute in Hdiff. injection Hdiff as <-.
    destruct (Hoff eq_refl) as [text [panel [Htext [_ [Hreq [_ [Hpanel [Hhtml _]]]]]]]].
    vm_compute in Htext. injection Htext as <-.
    split; [exact Hreq |].
    rewrite Hpanel. simpl. rewrite Hhtml. vm_compute. reflexivity.
  - destruct (goal_allocation_check (goal_form "40" "30" "20" "10.005") st 0 2
                eq_refl eq_refl)
      as [total [diff [Htotal [Hdiff [_ Hwithin]]]]].
    vm_compute in Htotal. injection Htotal as <-.
    vm_compute in Hdiff. injection Hdiff as <-.
    apply (Hwithin eq_refl).
Defined.

Lemma js_add_numbers (a b : JsValue) (x y : spec_float) :
  allocation_number a = Some x ->
  allocation_number b = Some y ->
  js_add a b = Ok (JNum (Num.add x y)).
Proof.
  destruct a, b; simpl; intros Ha Hb; try discriminate;
    injection Ha as <-; injection Hb as <-; reflexivity.
Qed.

Lemma allocation_total_numbers (data : JsObject) (x1 x2 x3 x4 : spec_float) :
  allocation_number (obj_get data "stock_allocation") = Some x1 ->
  allocation_number (obj_get data "bond_allocation") = Some x2 ->
  allocation_number (obj_get data "etf_allocation") = Some x3 ->
  allocation_number (obj_get data "deposit_allocation") = Some x4 ->
  InvestmentApp.allocation_total data
  = Ok (JNum (Num.add (Num.add (Num.add x1 x2) x3) x4)).
Proof.
  intros H1 H2 H3 H4. unfold InvestmentApp.allocation_total.
  rewrite (js_add_numbers _ _ _ _ H1 H2). simpl.
  rewrite (js_add_numbers (JNum (Num.add x1 x2)) _ _ _ eq_refl H3). simpl.
  apply (js_add_numbers (JNum (Num.add (Num.add x1 x2) x3)) _ _ _ eq_refl H4).
Qed.

Lemma not_gtb_finite (x : spec_float) (m0 : positive) (e0 : Z) :
  SFltb (S754_finite false m0 e0) (SFabs x) = false ->
  x = S754_nan \/ SFleb (SFabs x) (S754_finite false m0 e0) = true.
Proof.
  unfold SFleb, SFltb.
  destruct x as [s | s | | s m e]; simpl; intros H;
    try (now left); try (now right); try discriminate.
  right. revert H.
  rewrite (Z.compare_antisym e e0).
  change (Pos.compare_cont Eq m0 m) with (Pos.compare m0 m).
  change (Pos.compare_cont Eq m m0) with (Pos.compare m m0).
  rewrite (Pos.compare_antisym m m0).
  destruct (e ?= e0)%Z; simpl; try reflexivity; try discriminate.
  destruct (m ?= m0)%positive; simpl; try reflexivity; discriminate.
Qed.

(** The comparison [Math.abs(d) > 0.01] is false for a [NaN] and for a
    difference of at most 0.01, and for nothing else. *)
Lemma not_off_cases (d : spec_float) :
  Num.gtb (Num.abs d) number_0_01 = false
  <-> Num.is_nan d = true \/ Num.leb (Num.abs d) number_0_01 = true.
Proof.
  split.
  - change number_0_01 with (S754_finite false 5764607523034235 (-59)).
    intros H. destruct (not_gtb_finite d _ _ H) as [-> | Hle];
      [now left | now right].
  - intros [Hnan | Hle]; [| now apply within_tolerance_not_off].
    destruct d; try discriminate Hnan. reflexivity.
Qed.

Lemma is_nan_add_l (x y : spec_float) :
  Num.is_nan x = true -> Num.is_nan (Num.add x y) = true.
Proof. destruct x; try discriminate. reflexivity. Qed.

Lemma is_nan_add_r (x y : spec_float) :
  Num.is_nan y = true -> Num.is_nan (Num.add x y) = true.
Proof. destruct y; try discriminate. now destruct x. Qed.

Lemma is_nan_sub_l (x y : spec_float) :
  Num.is_nan x = true -> Num.is_nan (Num.sub x y) = true.
Proof. destruct x; try discriminate. reflexivity. Qed.

(** C10 (as amended). In a submission of the goal form, on a page that has
    the loading indicator and the goal panel, an allocation field that is
    empty is stored as [null] and counts as 0 in the total: when each of the
    four fields is empty or holds a number, the total is the sum of the four
    values with 0 for every empty field, so an empty field does not make the
    total [NaN].  The validation error is raised, quoting the total and
    sending no request, exactly when the comparison
    [Math.abs(total - 100) > 0.01] is true.  When it is false the request to
    [/financial-goal] is sent, and it is false in two cases only: the total
    is within 0.01 of 100, or [total - 100] is [NaN].  The latter is the
    case whenever one of the fields holds [NaN], as a field of white space
    only does. *)
Theorem empty_allocation_counts_as_zero :
  forall (form : Form) (st : State) (i j : nat) (x1 x2 x3 x4 : spec_float),
    find_index (has_id "loading") (document st) = Some i ->
    find_index (has_id "goal-result") (document st) = Some j ->
    allocation_number (obj_get (goal_data form) "stock_allocation") = Some x1 ->
    allocation_number (obj_get (goal_data form) "bond_allocation") = Some x2 ->
    allocation_number (obj_get (goal_data form) "etf_allocation") = Some x3 ->
    allocation_number (obj_get (goal_data form) "deposit_allocation") = Some x4 ->
    let total := Num.add (Num.add (Num.add x1 x2) x3) x4 in
    field_value "" = JNull
    /\ allocation_number JNull = Some Num.zero
    /\ InvestmentApp.allocation_total (goal_data form) = Ok (JNum total)
    /\ (Num.gtb (Num.abs (Num.sub total number_100)) number_0_01 = true ->
        requests (snd (InvestmentApp.handleGoalCalculation form st)) = requests st
        /\ exists panel,
             element_by_id "goal-result" (snd (InvestmentApp.handleGoalCalculation form st))
             = Some panel
             /\ innerHTML panel
                = APIUtils.error_markup
                    ("投資配置總和必須為100%，目前為" ++ Number_toString total ++ "%"))
    /\ (Num.gtb (Num.abs (Num.sub total number_100)) number_0_01 = false ->
        InvestmentApp.handleGoalCalculation form st = submit_goal form st
        /\ requests (snd (InvestmentApp.handleGoalCalculation form st))
           = (requests st
              ++ [request_of "/financial-goal" (JObj (goal_data form)) "POST"])%list)
    /\ (Num.gtb (Num.abs (Num.sub total number_100)) number_0_01 = false
        <-> Num.is_nan (Num.sub total number_100) = true
            \/ Num.leb (Num.abs (Num.sub total number_100)) number_0_01 = true)
    /\ (Num.is_nan x1 = true \/ Num.is_nan x2 = true
        \/ Num.is_nan x3 = true \/ Num.is_nan x4 = true ->
        Num.is_nan total = true
        /\ Num.is_nan (Num.sub total number_100) = true
        /\ requests (snd (InvestmentApp.handleGoalCalculation form st))
           = (requests st
              ++ [request_of "/financial-goal" (JObj (goal_data form)) "POST"])%list)
    /\ field_value " " = JNum Num.NaN.
Proof.
  intros form st i j x1 x2 x3 x4 Hi Hj H1 H2 H3 H4 total.
  pose proof (allocation_total_numbers _ _ _ _ _ H1 H2 H3 H4) as Htotal.
  fold total in Htotal.
  assert (Hproceeds :
    Num.gtb (Num.abs (Num.sub total number_100)) number_0_01 = false ->
    InvestmentApp.handleGoalCalculation form st = submit_goal form st
    /\ requests (snd (InvestmentApp.handleGoalCalculation form st))
       = (requests st
          ++ [request_of "/financial-goal" (JObj (goal_data form)) "POST"])%list).
  { intros Hpass.
    apply (handleGoal_proceeds form st i (JNum total) Hi Htotal).
    unfold InvestmentApp.allocation_off. simpl. now rewrite Hpass. }
  split; [reflexivity | split; [reflexivity | split; [exact Htotal | split]]].
  { intros Hoff.
    assert (Hcheck : InvestmentApp.allocation_off (JNum total) = Ok true).
    { unfold InvestmentApp.allocation_off. simpl. now rewrite Hoff. }
    rewrite (handleGoal_rejects form st i j (JNum total) _ Hi Hj Htotal Hcheck eq_refl).
    split; [reflexivity |].
    destruct (error_shown_panel i j
                ("投資配置總和必須為100%，目前為" ++ Number_toString total ++ "%")
                (add_class i "show" st) "goal-result") as [panel [Hp [Hhtml _]]];
      [now rewrite find_id_add_class | now rewrite find_id_add_class | discriminate |].
    exists panel. split; assumption. }
  split; [exact Hproceeds |].
  split; [apply not_off_cases |].
  split; [| vm_compute; reflexivity].
  intros Hnan.
  assert (Htot : Num.is_nan total = true).
  { subst total. destruct Hnan as [H | [H | [H | H]]].
    - now apply is_nan_add_l, is_nan_add_l, is_nan_add_l.
    - now apply is_nan_add_l, is_nan_add_l, is_nan_add_r.
    - now apply is_nan_add_l, is_nan_add_r.
    - now apply is_nan_add_r. }
  assert (Hdiff : Num.is_nan (Num.sub total number_100) = true)
    by now apply is_nan_sub_l.
  split; [exact Htot | split; [exact Hdiff |]].
  apply Hproceeds. apply not_off_cases. now left.
Qed.

Lemma empty_allocation_counts_as_zero_witness :
  let st := sample_state (Responded overloaded_500) in
  let form := goal_form "" "30" "20" "50" in
  let blank := goal_form "" " " "20" "9" in
  (InvestmentApp.allocation_total (goal_data form) = Ok (JNum (Num.of_Z 100))
   /\ requests (snd (InvestmentApp.handleGoalCalculation form st))
      = (requests st ++ [request_of "/financial-goal" (JObj (goal_data form)) "POST"])%list)
  /\ (InvestmentApp.allocation_total (goal_data blank) = Ok (JNum Num.NaN)
      /\ requests (snd (InvestmentApp.handleGoalCalculation blank st))
         = (requests st
            ++ [request_of "/financial-goal" (JObj (goal_data blank)) "POST"])%list).
Proof.
  intros st form blank. split.
  - assert (H1 : allocation_number (obj_get (goal_data form) "stock_allocation")
                 = Some Num.zero) by (vm_compute; reflexivity).
    assert (H2 : allocation_number (obj_get (goal_data form) "bond_allocation")
                 = Some (Num.of_Z 30)) by (vm_compute; reflexivity).
    assert (H3 : allocation_number (obj_get (goal_data form) "etf_allocation")
                 = Some (Num.of_Z 20)) by (vm_compute; reflexivity).
    assert (H4 : allocation_number (obj_get (goal_data form) "deposit_allocation")
                 = Some (Num.of_Z 50)) by (vm_compute; reflexivity).
    destruct (empty_allocation_counts_as_zero form st 0 2 _ _ _ _ eq_refl eq_refl
                H1 H2 H3 H4) as [_ [_ [Htotal [_ [Hpass _]]]]].
    split.
    + rewrite Htotal. vm_compute. reflexivity.
    + apply Hpass. vm_compute. reflexivity.
  - assert (H1 : allocation_number (obj_get (goal_data blank) "stock_allocation")
                 = Some Num.zero) by (vm_compute; reflexivity).
    assert (H2 : allocation_number (obj_get (goal_data blank) "bond_allocation")
                 = Some Num.NaN) by (vm_compute; reflexivity).
    assert (H3 : allocation_number (obj_get (goal_data blank) "etf_allocation")
                 = Some (Num.of_Z 20)) by (vm_compute; reflexivity).
    assert (H4 : allocation_number (obj_get (goal_data blank) "deposit_allocation")
                 = Some (Num.of_Z 9)) by (vm_compute; reflexivity).
    destruct (empty_allocation_counts_as_zero blank st 0 2 _ _ _ _ eq_refl eq_refl
                H1 H2 H3 H4) as [_ [_ [Htotal [_ [_ [_ [Hnan _]]]]]]].
    split.
    + rewrite Htotal. vm_compute. reflexivity.
    + apply Hnan. right. left. reflexivity.
Defined.

(** C10 (as stated) fails: with the stock allocation left empty and the
    other fields 30, 20 and 9, the total is 59 and not [NaN], the check
    holds, the validation error is shown and no request is sent. *)
Lemma empty_allocation_counterexample :
  let st := sample_state (Responded overloaded_500) in
  let form := goal_form "" "30" "20" "9" in
  obj_get (goal_data form) "stock_allocation" = JNull
  /\ InvestmentApp.allocation_total (goal_data form) = Ok (JNum (Num.of_Z 59))
  /\ Num.is_nan (Num.of_Z 59) = false
  /\ InvestmentApp.allocation_off (JNum (Num.of_Z 59)) = Ok true
  /\ requests (snd (InvestmentApp.handleGoalCalculation form st)) = []
  /\ (shown_text <$> (innerHTML <$> element_by_id "goal-result"
                        (snd (InvestmentApp.handleGoalCalculation form st))))
     = Some "錯誤: 投資配置總和必須為100%，目前為59%"
  /\ ~ (forall (form : Form) (total : JsValue),
          obj_get (goal_data form) "stock_allocation" = JNull ->
          InvestmentApp.allocation_total (goal_data form) = Ok total ->
          total = JNum Num.NaN /\ InvestmentApp.allocation_off total = Ok false).
Proof.
  intros st form.
  assert (Hnull : obj_get (goal_data form) "stock_allocation" = JNull)
    by (vm_compute; reflexivity).
  assert (Htotal : InvestmentApp.allocation_total (goal_data form)
                   = Ok (JNum (Num.of_Z 59))) by (vm_compute; reflexivity).
  split; [exact Hnull |].
  split; [exact Htotal |].
  split; [vm_compute; reflexivity |].
  split; [vm_compute; reflexivity |].
  split; [vm_compute; reflexivity |].
  split; [vm_compute; reflexivity |].
  intros H. destruct (H form _ Hnull Htotal) as [Hnan _].
  vm_compute in Hnan. discriminate.
Qed.

(** ** Tabs *)

Lemma map_alter_same {A B : Type} (g : A -> B) (f : A -> A) (n : nat) (l : list A) :
  (forall x, g (f x) = g x) -> map g (alter f n l) = map g l.
Proof.
  intros Hg. revert n. induction l as [|x l IH]; intros n; [reflexivity |].
  destruct n as [|n]; simpl.
  - now rewrite Hg.
  - f_equal. apply IH.
Qed.

Lemma restyled_refl (d : list Element) : restyled d d.
Proof. split; reflexivity. Qed.

Lemma restyled_trans (a b c : list Element) :
  restyled a b -> restyled b c -> restyled a c.
Proof. intros [A1 A2] [B1 B2]. split; congruence. Qed.


Lemma find_index_map {A B : Type} (p : B -> bool) (g : A -> B) (l : list A) :
  find_index (fun x => p (g x)) l = find_index p (map g l).
Proof.
  induction l as [|x l IH]; simpl; [reflexivity | now rewrite IH].
Qed.



Lemma classList_add_run (n : nat) (cls : string) (st : State) :
  classList_add (Some n) cls st = (Ok tt, add_class n cls st).
Proof. reflexivity. Qed.



Lemma getElementById_run (id : string) (st : State) (node : option nat) :
  find_index (has_id id) (document st) = node ->
  getElementById id st = (Ok node, st).
Proof. intros <-. reflexivity. Qed.

Lemma lift_run {A : Type} (a : A) (st : State) : lift (Ok a) st = (Ok a, st).
Proof. reflexivity. Qed.

Lemma modify_run (f : State -> State) (st : State) : modify f st = (Ok tt, f st).
Proof. reflexivity. Qed.

Lemma forEach_remove_run (nodes : list nat) (cls : string) (st : State) :
  forEach nodes (fun node => classList_remove (Some node) cls) st
  = (Ok tt, set_document (remove_class_all nodes cls (document st)) st).
Proof.
  revert st. induction nodes as [|n nodes IH]; intros st.
  - now destruct st.
  - simpl. unfold bind at 1. simpl. rewrite IH. reflexivity.
Qed.

Lemma remove_class_all_ids (nodes : list nat) (cls : string) (d : list Element) :
  map elem_id (remove_class_all nodes cls d) = map elem_id d.
Proof.
  revert d. induction nodes as [|n nodes IH]; intros d; [reflexivity |].
  simpl. rewrite IH. now apply map_alter_same.
Qed.

Lemma remove_class_all_html (nodes : list nat) (cls : string) (d : list Element) :
  map innerHTML (remove_class_all nodes cls d) = map innerHTML d.
Proof.
  revert d. induction nodes as [|n nodes IH]; intros d; [reflexivity |].
  simpl. rewrite IH. now apply map_alter_same.
Qed.

(** A click first moves the class [active] among the buttons and off the
    panels; what follows runs on that page. *)
Lemma tab_click_switch (tabBtns tabContents : list nat) (btn : nat) (st : State)
    (button : Element) :
  document st !! btn = Some button ->
  InvestmentApp.tab_click tabBtns tabContents btn st
  = (panel <- getElementById (tab_name button) ;;
     classList_add panel "active" ;;;
     modify (set_currentTab (tab_id button)) ;;;
     APIUtils.clearResult (tab_name button ++ "-result"))
      (set_document
         (remove_class_all tabContents "active"
            (alter (with_classList (fun c => c ∪ {["active"]})) btn
               (remove_class_all tabBtns "active" (document st)))) st).
Proof.
  intros Hbtn. unfold InvestmentApp.tab_click.
  assert (Hid : InvestmentApp.dataset_tab_of btn st = (Ok (tab_id button), st)).
  { unfold InvestmentApp.dataset_tab_of, bind, get_state, ret. now rewrite Hbtn. }
  rewrite (bind_ok _ _ _ _ _ Hid).
  rewrite (bind_ok _ _ _ _ _ (forEach_remove_run tabBtns "active" st)).
  rewrite (bind_ok _ _ _ _ _ (classList_add_run btn "active" _)).
  rewrite (bind_ok _ _ _ _ _ (forEach_remove_run tabContents "active" _)).
  assert (Hname : ToString (tab_id button) = Ok (tab_name button)).
  { unfold tab_id, tab_name. now destruct (dataset_tab button). }
  rewrite Hname.
  rewrite (bind_ok _ _ _ _ _ (lift_run (tab_name button) _)).
  reflexivity.
Qed.












(** * Further properties *)

(** ** One attempt per call *)

Lemma call_outcome (endpoint : string) (data : JsValue) (method : string) (st : State) :
  (exists v, InvestmentAPI.call endpoint data method st
             = (Ok v, sent endpoint data method st))
  \/ (exists e, InvestmentAPI.call endpoint data method st
                = (Throw e, logged endpoint e (sent endpoint data method st))).
Proof.
  destruct (answer endpoint data method st) as [e | r] eqn:Hnet.
  - right. exists e. now apply call_network_failure.
  - destruct (ok r) eqn:Hok.
    + destruct (json_body r) as [v | e] eqn:Hbody.
      * left. exists v. now apply (call_success _ _ _ _ r).
      * right. exists e. now apply (call_success_unparsable _ _ _ _ r).
    + destruct (detail_of_ok r) as [detail Hdetail].
      right. rewrite (call_failure_status _ _ _ _ _ _ Hnet Hok Hdetail).
      destruct (ToString _) as [msg | e]; eexists; reflexivity.
Qed.

(** X1. Whatever the outcome, [call] sends exactly one request: to the base
    path followed by the endpoint, with the given method, the JSON content
    type, and the data as body only when the data is truthy and the method
    is not GET.  It leaves the page, the current tab and the chart alone. *)
Theorem call_sends_one_request :
  forall (endpoint : string) (data : JsValue) (method : string) (st : State),
    requests (snd (InvestmentAPI.call endpoint data method st))
    = (requests st
       ++ [mkRequest ("/api/v1" ++ endpoint)
             (mkConfig method [("Content-Type", "application/json")]
                (if truthy data && negb (String.eqb method "GET")
                 then Some data else None))])%list
    /\ document (snd (InvestmentAPI.call endpoint data method st)) = document st
    /\ currentTab (snd (InvestmentAPI.call endpoint data method st)) = currentTab st
    /\ charts_goal (snd (InvestmentAPI.call endpoint data method st)) = charts_goal st.
Proof.
  intros endpoint data method st.
  destruct (call_outcome endpoint data method st) as [[v ->] | [e ->]];
    repeat split; reflexivity.
Qed.

(** X2. [call] writes to the console exactly when it fails: a call that
    returns logs nothing, a call that throws has logged that very error
    once, labelled with the endpoint, before throwing it. *)
Theorem call_logs_exactly_failures :
  forall (endpoint : string) (data : JsValue) (method : string) (st : State),
    console (snd (InvestmentAPI.call endpoint data method st))
    = match fst (InvestmentAPI.call endpoint data method st) with
      | Ok _ => console st
      | Throw e =>
          (console st ++ [(("API 呼叫錯誤 (" ++ endpoint ++ "):")%string, e)])%list
      end.
Proof.
  intros endpoint data method st.
  destruct (call_outcome endpoint data method st) as [[v ->] | [e ->]]; reflexivity.
Qed.

(** X3. A response with a success status whose body is not JSON (an empty
    204, say) makes [call] fail with the error of the JSON parser, which is
    logged like any other failure. *)
Theorem call_success_without_json :
  forall (endpoint : string) (data : JsValue) (method : string) (st : State)
         (r : Response) (e : JsError),
    answer endpoint data method st = Responded r ->
    (200 <= status r <= 299)%nat ->
    json_body r = Throw e ->
    InvestmentAPI.call endpoint data method st
    = (Throw e, logged endpoint e (sent endpoint data method st)).
Proof.
  intros endpoint data method st r e Hnet [Hlo Hhi] Hbody.
  apply (call_success_unparsable _ _ _ _ r); [exact Hnet | | exact Hbody].
  unfold ok. apply andb_true_intro; split; apply Nat.leb_le; assumption.
Qed.

Lemma call_success_without_json_witness :
  let e := mkError "SyntaxError" "Unexpected end of JSON input" in
  let st := sample_state (Responded (mkResponse 204 "No Content" (Throw e))) in
  InvestmentAPI.call "/health" JNull "GET" st
  = (Throw e, logged "/health" e (sent "/health" JNull "GET" st)).
Proof.
  intros e st.
  apply (call_success_without_json "/health" JNull "GET" st
           (mkResponse 204 "No Content" (Throw e)) e); simpl;
    [reflexivity | lia | reflexivity].
Defined.

(** X4. Each wrapper of [call] sends one request to its own endpoint: the
    five calculations and the batch comparison by POST, with the data as
    body when it is truthy (the batch object always is), the two reads by
    GET without a body. *)
Theorem wrappers_send_one_request :
  forall (data bondData etfData stockData : JsValue) (st : State),
    let json := [("Content-Type", "application/json")] in
    let post (path : string) :=
      (requests st
       ++ [mkRequest path (mkConfig "POST" json (if truthy data then Some data else None))])%list in
    let get (path : string) :=
      (requests st ++ [mkRequest path (mkConfig "GET" json None)])%list in
    requests (snd (InvestmentAPI.calculateBondDeposit data st))
    = post "/api/v1/bond-deposit"
    /\ requests (snd (InvestmentAPI.calculateETFInvestment data st))
       = post "/api/v1/etf-investment"
    /\ requests (snd (InvestmentAPI.calculateHouseInvestment data st))
       = post "/api/v1/house-investment"
    /\ requests (snd (InvestmentAPI.calculateStockSimulation data st))
       = post "/api/v1/stock-simulation"
    /\ requests (snd (InvestmentAPI.calculateFinancialGoal data st))
       = post "/api/v1/financial-goal"
    /\ requests (snd (InvestmentAPI.getInvestmentTypes st))
       = get "/api/v1/investment-types"
    /\ requests (snd (InvestmentAPI.healthCheck st)) = get "/api/v1/health"
    /\ requests (snd (InvestmentAPI.batchCompare bondData etfData stockData st))
       = (requests st
          ++ [mkRequest "/api/v1/batch-compare"
                (mkConfig "POST" json
                   (Some (JObj (mkObj true
                      (<["bond_request" := bondData]>
                         (<["etf_request" := etfData]>
                            (<["stock_request" := stockData]> ∅)))))))])%list.
Proof.
  intros data bondData etfData stockData st json post get.
  unfold InvestmentAPI.calculateBondDeposit, InvestmentAPI.calculateETFInvestment,
    InvestmentAPI.calculateHouseInvestment, InvestmentAPI.calculateStockSimulation,
    InvestmentAPI.calculateFinancialGoal, InvestmentAPI.getInvestmentTypes,
    InvestmentAPI.healthCheck, InvestmentAPI.batchCompare.
  rewrite !call_requests.
  unfold request_of, InvestmentAPI.config, post, get, json. simpl.
  rewrite andb_true_r. repeat split; reflexivity.
Qed.

(** ** Required fields, continued *)

Lemma validateFormData_filter (data : JsObject) (fields : list string) :
  APIUtils.validateFormData data fields
  = map (fun field => field ++ " 為必填欄位")
      (List.filter (fun field => APIUtils.is_blank (obj_get data field)) fields).
Proof.
  unfold APIUtils.validateFormData. now rewrite validateFormData_fold.
Qed.

(** X5. Validating two lists of required fields one after the other gives
    the messages of the first list followed by those of the second; with no
    required field there is no message. *)
Theorem validateFormData_app :
  forall (data : JsObject) (fields more : list string),
    APIUtils.validateFormData data (fields ++ more)%list
    = (APIUtils.validateFormData data fields
       ++ APIUtils.validateFormData data more)%list
    /\ APIUtils.validateFormData data [] = [].
Proof.
  intros data fields more. split; [| reflexivity].
  rewrite !validateFormData_filter, List.filter_app. apply map_app.
Qed.

(** X6. [validateFormData] returns no message exactly when every required
    field has a value other than [undefined], [null] and the empty string;
    and it never returns more messages than there are required fields. *)
Theorem validateFormData_none_iff :
  forall (data : JsObject) (requiredFields : list string),
    (APIUtils.validateFormData data requiredFields = []
     <-> Forall (fun field => APIUtils.is_blank (obj_get data field) = false)
           requiredFields)
    /\ (length (APIUtils.validateFormData data requiredFields)
        <= length requiredFields)%nat.
Proof.
  intros data requiredFields. rewrite validateFormData_filter. split.
  - induction requiredFields as [|f fields IH]; simpl.
    + split; [constructor | reflexivity].
    + destruct (APIUtils.is_blank (obj_get data f)) eqn:Hf; simpl.
      * split; [discriminate |]. intros H. inversion H; congruence.
      * rewrite IH. split.
        -- intros H. constructor; assumption.
        -- intros H. now inversion H.
  - rewrite length_map. apply List.filter_length_le.
Qed.

(** X7. A name every object inherits, such as [toString] or [constructor],
    is never reported as missing for an ordinary object, even when the data
    has no field of that name: the inherited value is what [data[field]]
    reads. *)
Theorem validateFormData_inherited_name :
  forall (o : gmap string JsValue) (field : string),
    field ∈ object_prototype_names ->
    o !! field = None ->
    obj_get (mkObj true o) field = JNative field
    /\ APIUtils.validateFormData (mkObj true o) [field] = [].
Proof.
  intros o field Hin Hnone.
  assert (Hget : obj_get (mkObj true o) field = JNative field).
  { unfold obj_get. simpl. rewrite Hnone.
    now rewrite (bool_decide_eq_true_2 _ Hin). }
  split; [exact Hget |].
  rewrite validateFormData_filter. simpl. now rewrite Hget.
Qed.

Lemma validateFormData_inherited_name_witness :
  obj_get (mkObj true ({["name" := JStr "x"]} : gmap string JsValue)) "toString"
  = JNative "toString"
  /\ APIUtils.validateFormData (mkObj true {["name" := JStr "x"]}) ["toString"] = [].
Proof.
  apply (validateFormData_inherited_name {["name" := JStr "x"]} "toString").
  - apply (bool_decide_unpack _). vm_compute. exact I.
  - vm_compute. reflexivity.
Defined.

(** ** Form data, continued *)

Lemma last_value_snoc (key k v : string) (entries : list (string * string)) :
  last_value key (entries ++ [(k, v)])
  = if String.eqb k key then Some v else last_value key entries.
Proof. unfold last_value. now rewrite fold_left_app. Qed.

Lemma formDataToObject_ordinary (entries : list (string * string)) :
  "__proto__" ∉ map fst entries ->
  has_prototype (APIUtils.formDataToObject entries) = true
  /\ forall key, own (APIUtils.formDataToObject entries) !! key
                 = field_value <$> last_value key entries.
Proof.
  induction entries as [|[k v] entries IH] using rev_ind; intros Hproto.
  - split; [reflexivity |]. intros key. apply lookup_empty.
  - rewrite map_app in Hproto. simpl in Hproto.
    apply not_elem_of_app in Hproto as [Hentries Hk].
    apply not_elem_of_cons in Hk as [Hk _].
    destruct (IH Hentries) as [Hp Hown].
    rewrite formDataToObject_snoc. unfold obj_set.
    destruct (String.eqb_spec k "__proto__") as [-> | _]; [congruence |].
    simpl. split; [exact Hp |].
    intros key. rewrite last_value_snoc, lookup_insert.
    destruct (String.eqb_spec k key) as [-> | Hne].
    + now rewrite decide_True.
    + rewrite decide_False by exact Hne. apply Hown.
Qed.

Lemma field_value_blank (value : string) :
  APIUtils.is_blank (field_value value) = String.eqb value "".
Proof.
  unfold field_value.
  destruct (String.eqb value "") eqn:E; [reflexivity |].
  destruct (negb (isNaN value) && negb false); [reflexivity |].
  destruct (String.eqb value "true"); [reflexivity |].
  destruct (String.eqb value "false"); [reflexivity |].
  simpl. exact E.
Qed.

(** X8. For a form without a field named [__proto__], the object built by
    [formDataToObject] is an ordinary object with exactly the fields of the
    form: each field holds the coerced value of the last entry with its
    name (a repeated field keeps only its last value), and a name the form
    does not have is not a property.  A stored value is [null] exactly when
    the submitted string was empty, and is never an object or
    [undefined]. *)
Theorem formDataToObject_fields :
  forall (entries : list (string * string)),
    "__proto__" ∉ map fst entries ->
    has_prototype (APIUtils.formDataToObject entries) = true
    /\ (forall key, own (APIUtils.formDataToObject entries) !! key
                    = field_value <$> last_value key entries)
    /\ (forall key, is_Some (own (APIUtils.formDataToObject entries) !! key)
                    <-> key ∈ map fst entries)
    /\ (forall value, is_primitive (field_value value) = true
                      /\ field_value value <> JUndefined
                      /\ (field_value value = JNull <-> value = "")).
Proof.
  intros entries Hproto.
  destruct (formDataToObject_ordinary entries Hproto) as [Hp Hown].
  split; [exact Hp | split; [exact Hown | split]].
  - intros key. rewrite Hown. clear Hproto Hp Hown.
    induction entries as [|[k v] entries IH] using rev_ind.
    + simpl. split; [intros [x Hx]; discriminate | intros H; inversion H].
    + rewrite last_value_snoc, map_app, elem_of_app. simpl.
      destruct (String.eqb_spec k key) as [-> | Hne].
      * split; [intros _; right; apply list_elem_of_singleton; reflexivity | intros _; eexists; reflexivity].
      * rewrite IH. split; [tauto |].
        intros [H | H]; [exact H |].
        apply list_elem_of_singleton in H. congruence.
  - intros value. split; [apply field_value_primitive |].
    pose proof (field_value_primitive value) as Hprim.
    pose proof (field_value_blank value) as Hblank.
    split.
    + intros H. unfold field_value in H.
      destruct (String.eqb value ""); [discriminate |].
      destruct (negb (isNaN value) && negb false); [discriminate |].
      destruct (String.eqb value "true"); [discriminate |].
      destruct (String.eqb value "false"); discriminate.
    + split.
      * intros H. rewrite H in Hblank. simpl in Hblank.
        symmetry in Hblank. now apply String.eqb_eq in Hblank.
      * intros ->. reflexivity.
Qed.

Lemma formDataToObject_fields_witness :
  own (APIUtils.formDataToObject [("years", "5"); ("name", "a"); ("years", "")])
    !! "years"
  = field_value <$> last_value "years" [("years", "5"); ("name", "a"); ("years", "")].
Proof.
  apply (formDataToObject_fields [("years", "5"); ("name", "a"); ("years", "")]).
  apply (bool_decide_unpack _). vm_compute. exact I.
Defined.

Lemma last_value_app (key : string) (l1 l2 : list (string * string)) :
  last_value key (l1 ++ l2)
  = match last_value key l2 with
    | Some v => Some v
    | None => last_value key l1
    end.
Proof.
  induction l2 as [|[k v] l2 IH] using rev_ind.
  - now rewrite app_nil_r.
  - rewrite app_assoc, !last_value_snoc, IH.
    destruct (String.eqb k key); reflexivity.
Qed.

Lemma field_value_not_null (value : string) :
  value <> "" -> field_value value <> JNull.
Proof.
  intros Hne Hnull. pose proof (field_value_blank value) as Hblank.
  rewrite Hnull in Hblank. simpl in Hblank. symmetry in Hblank.
  now apply String.eqb_eq in Hblank.
Qed.

Lemma filter_not_proto_keys (entries : list (string * string)) :
  "__proto__" ∉ map fst (List.filter not_proto entries).
Proof.
  induction entries as [|[k v] entries IH]; [apply not_elem_of_nil |].
  simpl. unfold not_proto at 1. simpl.
  destruct (String.eqb_spec k "__proto__") as [-> | Hne]; simpl; [exact IH |].
  apply not_elem_of_cons. split; [now intros Heq; apply Hne | exact IH].
Qed.

(** As long as no [__proto__] entry is empty, the [__proto__] entries
    leave no trace. *)
Lemma formDataToObject_proto_ignored (entries : list (string * string)) :
  ("__proto__", "") ∉ entries ->
  APIUtils.formDataToObject entries
  = APIUtils.formDataToObject (List.filter not_proto entries)
  /\ has_prototype (APIUtils.formDataToObject entries) = true
  /\ own (APIUtils.formDataToObject entries) !! "__proto__" = None.
Proof.
  induction entries as [|[k v] entries IH] using rev_ind; intros Hno.
  - split; [reflexivity | split; [reflexivity | apply lookup_empty]].
  - apply not_elem_of_app in Hno as [Hentries Hlast].
    apply not_elem_of_cons in Hlast as [Hlast _].
    destruct (IH Hentries) as [Heq [Hp Hnone]].
    rewrite List.filter_app, formDataToObject_snoc. cbn [List.filter].
    unfold not_proto at 2. cbn [fst].
    destruct (String.eqb_spec k "__proto__") as [-> | Hne]; cbn [negb].
    + rewrite app_nil_r.
      assert (Hv : v <> "") by (intros ->; now apply Hlast).
      pose proof (field_value_not_null v Hv) as Hnn.
      unfold obj_set. rewrite Hp, Hnone, (bool_decide_eq_true_2 _ eq_refl).
      cbn [String.eqb andb].
      assert (Hsame : match field_value v with
                      | JNull => mkObj false (own (APIUtils.formDataToObject entries))
                      | _ => APIUtils.formDataToObject entries
                      end = APIUtils.formDataToObject entries)
        by (destruct (field_value v); try reflexivity; now destruct Hnn).
      change (String.eqb "__proto__" "__proto__") with true. cbn [andb].
      rewrite Hsame. auto.
    + rewrite formDataToObject_snoc, <- Heq.
      unfold obj_set.
      destruct (String.eqb_spec k "__proto__") as [-> | _]; [now destruct Hne |].
      cbn [andb has_prototype own].
      split; [reflexivity | split; [exact Hp |]].
      rewrite lookup_insert_ne by exact Hne. exact Hnone.
Qed.

(** Once the prototype is gone, every entry is stored. *)
Lemma formDataToObject_without_prototype (pre after : list (string * string)) :
  has_prototype (APIUtils.formDataToObject pre) = false ->
  has_prototype (APIUtils.formDataToObject (pre ++ after)) = false
  /\ forall key,
       own (APIUtils.formDataToObject (pre ++ after)) !! key
       = match last_value key after with
         | Some v => Some (field_value v)
         | None => own (APIUtils.formDataToObject pre) !! key
         end.
Proof.
  intros Hpre. induction after as [|[k v] after IH] using rev_ind.
  - rewrite app_nil_r. split; [exact Hpre | reflexivity].
  - destruct IH as [Hp Hown].
    rewrite app_assoc, formDataToObject_snoc. unfold obj_set. rewrite Hp.
    rewrite andb_false_r. cbn [andb has_prototype own].
    split; [reflexivity |].
    intros key. rewrite last_value_snoc, lookup_insert.
    destruct (String.eqb_spec k key) as [-> | Hne].
    + now rewrite decide_True.
    + rewrite decide_False by exact Hne. apply Hown.
Qed.

(** X9. What a form field named [__proto__] does to the object
    [formDataToObject] builds.  While the object still has its prototype,
    such a field is not stored: a non-empty value is ignored, so that the
    object is the one built from the other entries, and the first empty
    value removes the prototype instead.  From then on every entry,
    [__proto__] included, is stored like any other field, the last entry of
    a name deciding its value. *)
Theorem formDataToObject_proto_field :
  forall (before after : list (string * string)),
    ("__proto__", "") ∉ before ->
    (APIUtils.formDataToObject before
     = APIUtils.formDataToObject (List.filter not_proto before)
     /\ has_prototype (APIUtils.formDataToObject before) = true
     /\ own (APIUtils.formDataToObject before) !! "__proto__" = None)
    /\ (has_prototype
          (APIUtils.formDataToObject (before ++ ("__proto__", "") :: after)) = false
        /\ forall key,
             own (APIUtils.formDataToObject (before ++ ("__proto__", "") :: after))
               !! key
             = field_value <$> last_value key (List.filter not_proto before ++ after)).
Proof.
  intros before after Hno.
  destruct (formDataToObject_proto_ignored before Hno) as [Heq [Hp Hnone]].
  split; [split; [exact Heq | split; [exact Hp | exact Hnone]] |].
  assert (Hpre : APIUtils.formDataToObject (before ++ [("__proto__", "")])
                 = mkObj false (own (APIUtils.formDataToObject before))).
  { rewrite formDataToObject_snoc. unfold obj_set.
    rewrite Hp, Hnone, (bool_decide_eq_true_2 _ eq_refl). reflexivity. }
  assert (Hsplit : (before ++ ("__proto__", "") :: after
                    = (before ++ [("__proto__", "")]) ++ after)%list)
    by (now rewrite <- app_assoc).
  rewrite Hsplit.
  destruct (formDataToObject_without_prototype (before ++ [("__proto__", "")]) after)
    as [Hp' Hown]; [now rewrite Hpre |].
  split; [exact Hp' |].
  intros key. rewrite Hown, Hpre, last_value_app. cbn [own].
  destruct (last_value key after) as [v |]; [reflexivity |].
  rewrite Heq.
  destruct (formDataToObject_ordinary (List.filter not_proto before)
              (filter_not_proto_keys before)) as [_ Hfields].
  apply Hfields.
Qed.

Lemma formDataToObject_proto_field_witness :
  (has_prototype
     (APIUtils.formDataToObject
        ([("amount", "10"); ("__proto__", "x")]
           ++ ("__proto__", "") :: [("__proto__", "y")])) = false
   /\ own (APIUtils.formDataToObject
             ([("amount", "10"); ("__proto__", "x")]
                ++ ("__proto__", "") :: [("__proto__", "y")])) !! "__proto__"
      = Some (JStr "y"))
  /\ APIUtils.formDataToObject [("amount", "10"); ("__proto__", "x")]
     = APIUtils.formDataToObject [("amount", "10")].
Proof.
  assert (Hno : ("__proto__", "") ∉ [("amount", "10"); ("__proto__", "x")])
    by (apply (bool_decide_unpack _); vm_compute; exact I).
  destruct (formDataToObject_proto_field
              [("amount", "10"); ("__proto__", "x")] [("__proto__", "y")] Hno)
    as [[Heq _] [Hp Hown]].
  split; [split; [exact Hp | exact (Hown "__proto__")] | exact Heq].
Defined.

(** X10. The required-field check on the object built from a form reports a
    field exactly when the form has no entry of that name or its last entry
    is empty (for a field name that no object inherits, and a form without a
    [__proto__] field). *)
Theorem validateFormData_on_form :
  forall (entries : list (string * string)) (field : string),
    "__proto__" ∉ map fst entries ->
    field ∉ object_prototype_names ->
    APIUtils.validateFormData (APIUtils.formDataToObject entries) [field]
    = match last_value field entries with
      | Some value => if String.eqb value "" then [field ++ " 為必填欄位"] else []
      | None => [field ++ " 為必填欄位"]
      end.
Proof.
  intros entries field Hproto Hfield.
  destruct (formDataToObject_ordinary entries Hproto) as [Hp Hown].
  rewrite validateFormData_filter. simpl.
  unfold obj_get. rewrite Hown, Hp.
  rewrite (bool_decide_eq_false_2 _ Hfield). simpl.
  destruct (last_value field entries) as [value|]; simpl; [| reflexivity].
  rewrite field_value_blank. destruct (String.eqb value ""); reflexivity.
Qed.

Lemma validateFormData_on_form_witness :
  APIUtils.validateFormData
    (APIUtils.formDataToObject [("principal", "1000"); ("years", "")]) ["years"]
  = match last_value "years" [("principal", "1000"); ("years", "")] with
    | Some value => if String.eqb value "" then ["years" ++ " 為必填欄位"] else []
    | None => ["years" ++ " 為必填欄位"]
    end.
Proof.
  apply (validateFormData_on_form [("principal", "1000"); ("years", "")] "years").
  - apply (bool_decide_unpack _). vm_compute. exact I.
  - apply (bool_decide_unpack _). vm_compute. exact I.
Defined.

(** ** What a computation leaves alone *)

Lemma same_ids_find (d d' : list Element) (id : string) :
  map elem_id d' = map elem_id d ->
  find_index (has_id id) d' = find_index (has_id id) d.
Proof.
  intros Hid.
  change (has_id id) with (fun el => id_is id (elem_id el)).
  rewrite (find_index_map (id_is id) elem_id d').
  rewrite (find_index_map (id_is id) elem_id d).
  now rewrite Hid.
Qed.

Lemma changes_only_refl (ids : list string) (d : list Element) : changes_only ids d d.
Proof. split; [reflexivity | intros; reflexivity]. Qed.

Lemma changes_only_trans (ids : list string) (a b c : list Element) :
  changes_only ids a b -> changes_only ids b c -> changes_only ids a c.
Proof.
  intros [A1 A2] [B1 B2]. split; [congruence |].
  intros n Hn. rewrite B2, A2; auto.
  intros id Hid. rewrite (same_ids_find a b id A1). auto.
Qed.

Lemma confined_pure {A : Type} (ids : list string) (m : M A) :
  (forall st, document (snd (m st)) = document st) -> confined ids m.
Proof. intros H st. rewrite H. apply changes_only_refl. Qed.

Lemma confined_bind {A B : Type} (ids : list string) (m : M A) (k : A -> M B) :
  confined ids m -> (forall a, confined ids (k a)) -> confined ids (bind m k).
Proof.
  intros Hm Hk st. unfold bind. specialize (Hm st).
  destruct (m st) as [[a | e] st1]; simpl in *; [| exact Hm].
  exact (changes_only_trans _ _ _ _ Hm (Hk a st1)).
Qed.

Lemma confined_try_catch_finally {A : Type} (ids : list string) (body : M A)
    (handler : JsError -> M A) (final : M unit) :
  confined ids body -> (forall e, confined ids (handler e)) -> confined ids final ->
  confined ids (try_catch_finally body handler final).
Proof.
  intros Hb Hh Hf st. unfold try_catch_finally, try_catch. specialize (Hb st).
  destruct (body st) as [[a | e] st1]; simpl in *.
  - specialize (Hf st1).
    destruct (final st1) as [[u | e'] st2]; simpl in *;
      exact (changes_only_trans _ _ _ _ Hb Hf).
  - specialize (Hh e st1). destruct (handler e st1) as [r st2]. simpl in *.
    specialize (Hf st2).
    destruct (final st2) as [[u | e'] st3]; simpl in *;
      exact (changes_only_trans _ _ _ _ Hb (changes_only_trans _ _ _ _ Hh Hf)).
Qed.

Lemma touches_pure {A : Type} (node : option nat) (m : M A) :
  (forall st, document (snd (m st)) = document st) -> touches node m.
Proof. intros H st. rewrite H. split; [reflexivity | intros; reflexivity]. Qed.

Lemma touches_update (n : nat) (f : Element -> Element) :
  (forall el, elem_id (f el) = elem_id el) -> touches (Some n) (update_element n f).
Proof.
  intros Hf st. unfold update_element, modify, set_document. cbn [snd document]. split.
  - now apply map_alter_same.
  - intros m Hm. apply list_lookup_alter_ne. congruence.
Qed.

Lemma touches_bind {A B : Type} (node : option nat) (m : M A) (k : A -> M B) :
  touches node m -> (forall a, touches node (k a)) -> touches node (bind m k).
Proof.
  intros Hm Hk st. unfold bind. specialize (Hm st).
  destruct (m st) as [[a | e] st1]; simpl in *; [| exact Hm].
  destruct Hm as [M1 M2]. destruct (Hk a st1) as [K1 K2].
  split; [congruence |]. intros n Hn. rewrite K2, M2; auto.
Qed.

Lemma touches_classList_add (node : option nat) (cls : string) :
  touches node (classList_add node cls).
Proof.
  destruct node; [now apply touches_update | now apply touches_pure].
Qed.

Lemma touches_classList_remove (node : option nat) (cls : string) :
  touches node (classList_remove node cls).
Proof.
  destruct node; [now apply touches_update | now apply touches_pure].
Qed.

Lemma touches_set_innerHTML (node : option nat) (html : string) :
  touches node (set_innerHTML node html).
Proof.
  destruct node; [now apply touches_update | now apply touches_pure].
Qed.

Lemma touches_showError (node : option nat) (msg : string) :
  touches node (APIUtils.showError node msg).
Proof.
  apply touches_bind; [apply touches_set_innerHTML | intros _; apply touches_classList_add].
Qed.

Lemma confined_by_id {A : Type} (ids : list string) (id : string) (k : option nat -> M A) :
  id ∈ ids -> (forall node, touches node (k node)) ->
  confined ids (bind (getElementById id) k).
Proof.
  intros Hin Hk st. unfold bind, getElementById.
  destruct (Hk (find_index (has_id id) (document st)) st) as [K1 K2].
  split; [exact K1 |]. intros n Hn. apply K2.
  intros Heq. apply (Hn id Hin). now symmetry.
Qed.

Lemma confined_showLoading (ids : list string) :
  "loading" ∈ ids -> confined ids APIUtils.showLoading.
Proof.
  intros Hin. apply confined_by_id; [exact Hin |].
  intros node. apply touches_classList_add.
Qed.

Lemma confined_hideLoading (ids : list string) :
  "loading" ∈ ids -> confined ids APIUtils.hideLoading.
Proof.
  intros Hin. apply confined_by_id; [exact Hin |].
  intros node. apply touches_classList_remove.
Qed.

Lemma confined_show_error_in (ids : list string) (panel_id : string) (e : JsError) :
  panel_id ∈ ids -> confined ids (show_error_in panel_id e).
Proof.
  intros Hin. apply confined_by_id; [exact Hin |].
  intros node. apply touches_showError.
Qed.

Lemma confined_render (ids : list string) (panel_id : string) (markup : Res string) :
  panel_id ∈ ids -> confined ids (render panel_id markup).
Proof.
  intros Hin. apply confined_by_id; [exact Hin |].
  intros node. apply touches_bind; [now apply touches_pure | intros html].
  apply touches_bind; [apply touches_set_innerHTML | intros _; apply touches_classList_add].
Qed.

Lemma call_document (endpoint : string) (data : JsValue) (method : string) (st : State) :
  document (snd (InvestmentAPI.call endpoint data method st)) = document st.
Proof.
  destruct (call_outcome endpoint data method st) as [[v ->] | [e ->]]; reflexivity.
Qed.

Lemma confined_call (ids : list string) (endpoint : string) (data : JsValue)
    (method : string) :
  confined ids (InvestmentAPI.call endpoint data method).
Proof. apply confined_pure. apply call_document. Qed.

Lemma destroy_goal_chart_document (st : State) :
  document (InvestmentApp.destroy_goal_chart st) = document st.
Proof.
  unfold InvestmentApp.destroy_goal_chart. now destruct (charts_goal st).
Qed.

Lemma confined_drawGoalChart (ids : list string) (chartData : JsValue) :
  "goal-chart" ∈ ids -> confined ids (InvestmentApp.drawGoalChart chartData).
Proof.
  intros Hin. apply confined_by_id; [exact Hin |].
  intros [n |]; [| now apply touches_pure].
  apply touches_bind; [now apply touches_update | intros _].
  apply touches_bind.
  { apply touches_pure. intros st. apply destroy_goal_chart_document. }
  intros _. apply touches_bind; [now apply touches_pure | intros st].
  apply touches_bind; [now apply touches_pure | intros _].
  apply touches_bind; [now apply touches_pure | intros years].
  apply touches_bind; [now apply touches_pure | intros portfolio].
  apply touches_bind; [now apply touches_pure | intros investments].
  apply touches_bind; [now apply touches_pure | intros _].
  now apply touches_pure.
Qed.

(** The goal panel is rendered like the others, and then the chart is
    considered. *)
Lemma displayGoalResult_split (result : JsValue) (st : State) :
  InvestmentApp.displayGoalResult result st
  = (render "goal-result" (InvestmentApp.goal_markup result) ;;;
     chart_data <- lift (get_field result "chart_data") ;;
     if truthy chart_data then
       years <- lift (get_field chart_data "years") ;;
       if truthy years then InvestmentApp.drawGoalChart chart_data else ret tt
     else ret tt) st.
Proof.
  unfold InvestmentApp.displayGoalResult, render, bind, getElementById, lift.
  destruct (find_index (has_id "goal-result") (document st));
    destruct (InvestmentApp.goal_markup result); reflexivity.
Qed.

Lemma confined_displayGoalResult (ids : list string) (result : JsValue) :
  "goal-result" ∈ ids -> "goal-chart" ∈ ids ->
  confined ids (InvestmentApp.displayGoalResult result).
Proof.
  intros Hpanel Hchart st. rewrite displayGoalResult_split. revert st.
  apply confined_bind; [now apply confined_render | intros _].
  apply confined_bind; [now apply confined_pure | intros chart_data].
  destruct (truthy chart_data); [| now apply confined_pure].
  apply confined_bind; [now apply confined_pure | intros years].
  destruct (truthy years); [now apply confined_drawGoalChart | now apply confined_pure].
Qed.

(** ** The form handlers *)

Lemma keeps_showLoading : keeps_requests APIUtils.showLoading.
Proof. unfold APIUtils.showLoading. keeps. Qed.

Lemma keeps_render (panel_id : string) (markup : Res string) :
  keeps_requests (render panel_id markup).
Proof. unfold render. keeps. Qed.

Lemma requests_call_then {B : Type} (endpoint : string) (data : JsValue)
    (k : JsValue -> M B) (st : State) :
  (forall a, keeps_requests (k a)) ->
  requests (snd (bind (InvestmentAPI.call endpoint data "POST") k st))
  = (requests st ++ [request_of endpoint data "POST"])%list.
Proof.
  intros Hk. rewrite requests_bind_keeps by exact Hk. apply call_requests.
Qed.

(** Each handler is one [try]/[catch]/[finally] around the loading
    indicator and a body that stays in its panel and sends at most one
    request, to its own endpoint. *)
Lemma submissions_shape (panel endpoint : string) (also : list string)
    (handler : Form -> M unit) :
  (panel, endpoint, also, handler) ∈ submissions ->
  panel <> "loading"
  /\ exists body : Form -> M unit,
      (forall form,
         handler form
         = try_catch_finally (APIUtils.showLoading ;;; body form)
             (show_error_in panel) APIUtils.hideLoading)
      /\ (forall form, confined ("loading" :: panel :: also) (body form))
      /\ (forall form st,
            requests (snd (body form st)) = requests st
            \/ exists data,
                requests (snd (body form st))
                = (requests st ++ [request_of endpoint data "POST"])%list).
Proof.
  intros H. unfold submissions in H.
  repeat (apply elem_of_cons in H as [H | H]);
    try (apply elem_of_nil in H; contradiction);
    injection H as -> -> -> ->; (split; [discriminate |]).
  - exists (fun form =>
              checked <- lift (InvestmentApp.is_compound_of form) ;;
              result <- InvestmentAPI.calculateBondDeposit (bond_data form checked) ;;
              InvestmentApp.displayBondResult result).
    split; [reflexivity | split].
    + intros form. apply confined_bind; [now apply confined_pure | intros checked].
      apply confined_bind; [apply confined_call | intros result].
      apply (confined_render _ "bond-result"). apply list_elem_of_In. simpl. auto.
    + intros form st. destruct (InvestmentApp.is_compound_of form) as [checked | e].
      * right. exists (bond_data form checked).
        exact (requests_call_then "/bond-deposit" (bond_data form checked)
                 InvestmentApp.displayBondResult st
                 (fun a => keeps_render "bond-result" (InvestmentApp.bond_markup a))).
      * left. reflexivity.
  - exists (fun form =>
              result <- InvestmentAPI.calculateETFInvestment
                          (JObj (APIUtils.formDataToObject (form_entries form))) ;;
              InvestmentApp.displayETFResult result).
    split; [reflexivity | split].
    + intros form. apply confined_bind; [apply confined_call | intros result].
      apply (confined_render _ "etf-result"). apply list_elem_of_In. simpl. auto.
    + intros form st. right. eexists.
      exact (requests_call_then "/etf-investment" _
               InvestmentApp.displayETFResult st
               (fun a => keeps_render "etf-result" (InvestmentApp.etf_markup a))).
  - exists (fun form =>
              result <- InvestmentAPI.calculateHouseInvestment
                          (JObj (APIUtils.formDataToObject (form_entries form))) ;;
              InvestmentApp.displayHouseResult result).
    split; [reflexivity | split].
    + intros form. apply confined_bind; [apply confined_call | intros result].
      apply (confined_render _ "house-result"). apply list_elem_of_In. simpl. auto.
    + intros form st. right. eexists.
      exact (requests_call_then "/house-investment" _
               InvestmentApp.displayHouseResult st
               (fun a => keeps_render "house-result" (InvestmentApp.house_markup a))).
  - exists (fun form =>
              result <- InvestmentAPI.calculateStockSimulation
                          (JObj (APIUtils.formDataToObject (form_entries form))) ;;
              InvestmentApp.displayStockResult result).
    split; [reflexivity | split].
    + intros form. apply confined_bind; [apply confined_call | intros result].
      apply (confined_render _ "stock-result"). apply list_elem_of_In. simpl. auto.
    + intros form st. right. eexists.
      exact (requests_call_then "/stock-simulation" _
               InvestmentApp.displayStockResult st
               (fun a => keeps_render "stock-result" (InvestmentApp.stock_markup a))).
  - exists (fun form =>
              total <- lift (InvestmentApp.allocation_total (goal_data form)) ;;
              off <- lift (InvestmentApp.allocation_off total) ;;
              (if off then
                 msg <- lift (InvestmentApp.allocation_message total) ;;
                 throw (Error msg)
               else ret tt) ;;;
              result <- InvestmentAPI.calculateFinancialGoal (JObj (goal_data form)) ;;
              InvestmentApp.displayGoalResult result).
    split; [reflexivity | split].
    + intros form. apply confined_bind; [now apply confined_pure | intros total].
      apply confined_bind; [now apply confined_pure | intros off].
      apply confined_bind.
      { apply confined_pure. intros st.
        destruct off; [destruct (InvestmentApp.allocation_message total) |];
          reflexivity. }
      intros _. apply confined_bind; [apply confined_call | intros result].
      apply confined_displayGoalResult; apply list_elem_of_In; simpl; auto.
    + intros form st.
      destruct (InvestmentApp.allocation_total (goal_data form)) as [total | e];
        [| left; reflexivity].
      destruct (InvestmentApp.allocation_off total) as [[|] | e] eqn:Hoff.
      * left. unfold bind at 1. unfold lift at 1.
        unfold bind at 1. unfold lift at 1. rewrite Hoff.
        unfold bind at 1 2. unfold lift at 1.
        destruct (InvestmentApp.allocation_message total); reflexivity.
      * right. exists (JObj (goal_data form)).
        unfold bind at 1. unfold lift at 1.
        unfold bind at 1. unfold lift at 1. rewrite Hoff.
        unfold bind at 1. unfold ret at 1.
        apply requests_call_then. intros a. apply keeps_displayGoalResult.
      * left. unfold bind at 1. unfold lift at 1.
        unfold bind at 1. unfold lift at 1. now rewrite Hoff.
Qed.

Lemma hideLoading_missing (st : State) :
  find_index (has_id "loading") (document st) = None ->
  APIUtils.hideLoading st = (Throw (cannot_read "null" "classList"), st).
Proof.
  intros H. unfold APIUtils.hideLoading, bind, getElementById. now rewrite H.
Qed.

Lemma showLoading_missing (st : State) :
  find_index (has_id "loading") (document st) = None ->
  APIUtils.showLoading st = (Throw (cannot_read "null" "classList"), st).
Proof.
  intros H. unfold APIUtils.showLoading, bind, getElementById. now rewrite H.
Qed.

Lemma loading_hidden_remove (st : State) (i : nat) :
  find_index (has_id "loading") (document st) = Some i ->
  loading_hidden (remove_class i "show" st).
Proof.
  intros Hi. destruct (find_index_lookup _ _ _ Hi) as [el [Hel _]].
  unfold loading_hidden, element_by_id. rewrite find_id_remove_class, Hi.
  simpl. rewrite list_lookup_alter_eq, Hel. simpl.
  eexists. split; [reflexivity |]. simpl.
  intros Hin. apply elem_of_difference in Hin as [_ Hn].
  apply Hn. now apply elem_of_singleton.
Qed.

Lemma show_error_in_run (panel_id : string) (e : JsError) (st : State) :
  show_error_in panel_id e st
  = match find_index (has_id panel_id) (document st) with
    | Some j => (Ok tt, add_class j "show"
                          (put_html j (APIUtils.error_markup (message e)) st))
    | None => (Throw (cannot_set "null" "innerHTML"), st)
    end.
Proof.
  unfold show_error_in, bind, getElementById.
  destruct (find_index (has_id panel_id) (document st)); reflexivity.
Qed.

(** The [finally] block runs on the page the body and the [catch] block
    leave, where the loading indicator is where it was. *)
Lemma submission_settles (body : M unit) (panel : string) (ids : list string)
    (st : State) (i : nat) :
  find_index (has_id "loading") (document st) = Some i ->
  confined ids body ->
  loading_hidden (snd (try_catch_finally body (show_error_in panel)
                         APIUtils.hideLoading st))
  /\ (forall j, find_index (has_id panel) (document st) = Some j ->
                fst (try_catch_finally body (show_error_in panel)
                       APIUtils.hideLoading st) = Ok tt).
Proof.
  intros Hi Hbody. unfold try_catch_finally, try_catch.
  destruct (Hbody st) as [Hids _].
  destruct (body st) as [[[] | e] st1]; simpl in *.
  - assert (Hi1 : find_index (has_id "loading") (document st1) = Some i)
      by (now rewrite (same_ids_find _ _ _ Hids)).
    rewrite (hideLoading_run st1 i Hi1). simpl.
    split; [now apply loading_hidden_remove | reflexivity].
  - rewrite show_error_in_run, (same_ids_find _ _ panel Hids).
    assert (Hi1 : find_index (has_id "loading") (document st1) = Some i)
      by (now rewrite (same_ids_find _ _ _ Hids)).
    destruct (find_index (has_id panel) (document st)) as [j |].
    + rewrite (hideLoading_run _ i)
        by (now rewrite find_id_add_class, find_id_put_html).
      simpl. split; [| reflexivity].
      apply loading_hidden_remove.
      now rewrite find_id_add_class, find_id_put_html.
    + rewrite (hideLoading_run st1 i Hi1). simpl.
      split; [now apply loading_hidden_remove | discriminate].
Qed.

(** X11. Whatever a submission runs into, the loading indicator is hidden
    when the handler is done (given that the page has the indicator): this
    holds for each of the five form handlers. *)
Theorem loading_hidden_after_submission :
  forall (panel endpoint : string) (also : list string) (handler : Form -> M unit),
    (panel, endpoint, also, handler) ∈ submissions ->
    forall (form : Form) (st : State) (i : nat),
      find_index (has_id "loading") (document st) = Some i ->
      loading_hidden (snd (handler form st)).
Proof.
  intros panel endpoint also handler Hin form st i Hi.
  destruct (submissions_shape _ _ _ _ Hin) as [_ [body [Hshape [Hconf _]]]].
  rewrite Hshape.
  apply (submission_settles _ panel ("loading" :: panel :: also) st i Hi).
  apply confined_bind; [| intros _; apply Hconf].
  apply confined_showLoading. apply list_elem_of_here.
Qed.

Lemma loading_hidden_after_submission_witness :
  loading_hidden
    (snd (InvestmentApp.handleStockCalculation sample_etf_form
            (full_state (NetworkFailure (TypeError "Failed to fetch"))))).
Proof.
  apply (loading_hidden_after_submission "stock-result" "/stock-simulation" []
           InvestmentApp.handleStockCalculation) with (i := 0%nat).
  - apply list_elem_of_In. simpl. auto.
  - reflexivity.
Defined.

(** X12. On a page that has the loading indicator and the handler's result
    panel, each of the five form handlers completes normally: every error of
    its body is caught and none escapes. *)
Theorem submission_completes :
  forall (panel endpoint : string) (also : list string) (handler : Form -> M unit),
    (panel, endpoint, also, handler) ∈ submissions ->
    forall (form : Form) (st : State) (i j : nat),
      find_index (has_id "loading") (document st) = Some i ->
      find_index (has_id panel) (document st) = Some j ->
      fst (handler form st) = Ok tt.
Proof.
  intros panel endpoint also handler Hin form st i j Hi Hj.
  destruct (submissions_shape _ _ _ _ Hin) as [_ [body [Hshape [Hconf _]]]].
  rewrite Hshape.
  apply (submission_settles _ panel ("loading" :: panel :: also) st i Hi) with (j := j).
  - apply confined_bind; [| intros _; apply Hconf].
    apply confined_showLoading. apply list_elem_of_here.
  - exact Hj.
Qed.

Lemma submission_completes_witness :
  fst (InvestmentApp.handleGoalCalculation (goal_form "x" "" "" "")
         (full_state (NetworkFailure (TypeError "Failed to fetch"))))
  = Ok tt.
Proof.
  apply (submission_completes "goal-result" "/financial-goal" ["goal-chart"]
           InvestmentApp.handleGoalCalculation) with (i := 0%nat) (j := 5%nat).
  - apply list_elem_of_In. simpl. auto 10.
  - reflexivity.
  - reflexivity.
Defined.

(** X13. On a page without the loading indicator no form is ever sent: each
    of the five handlers fails before it calls the API, its [finally] block
    fails again on the missing indicator, and the handler ends with that
    [TypeError]; nothing is logged to the console. *)
Theorem submission_without_loading_indicator :
  forall (panel endpoint : string) (also : list string) (handler : Form -> M unit),
    (panel, endpoint, also, handler) ∈ submissions ->
    forall (form : Form) (st : State),
      find_index (has_id "loading") (document st) = None ->
      fst (handler form st) = Throw (cannot_read "null" "classList")
      /\ requests (snd (handler form st)) = requests st
      /\ console (snd (handler form st)) = console st.
Proof.
  intros panel endpoint also handler Hin form st Hnone.
  destruct (submissions_shape _ _ _ _ Hin) as [_ [body [Hshape _]]].
  rewrite Hshape. unfold try_catch_finally, try_catch.
  rewrite (bind_throw _ _ _ _ _ (showLoading_missing st Hnone)).
  rewrite show_error_in_run.
  destruct (find_index (has_id panel) (document st)) as [j |].
  - rewrite hideLoading_missing
      by (now rewrite find_id_add_class, find_id_put_html).
    repeat split.
  - rewrite (hideLoading_missing st Hnone). repeat split.
Qed.

Lemma submission_without_loading_indicator_witness :
  fst (InvestmentApp.handleETFCalculation sample_etf_form
         (mkState [plain_element "etf-result"] [] []
            (fun _ => Responded (mkResponse 200 "OK" (Ok JNull))) (JStr "etf") None [] working_charts))
  = Throw (cannot_read "null" "classList").
Proof.
  apply (submission_without_loading_indicator "etf-result" "/etf-investment" []
           InvestmentApp.handleETFCalculation).
  - apply list_elem_of_In. simpl. auto.
  - reflexivity.
Defined.

(** X14. A submission changes the page only in the loading indicator, in its
    own result panel and, for the goal form, in the chart canvas: every
    other element is as it was, and no element changes its id.  This holds
    for each of the five form handlers, whatever the outcome of the call. *)
Theorem submission_stays_in_its_panel :
  forall (panel endpoint : string) (also : list string) (handler : Form -> M unit),
    (panel, endpoint, also, handler) ∈ submissions ->
    forall (form : Form) (st : State),
      map elem_id (document (snd (handler form st))) = map elem_id (document st)
      /\ forall n,
           (forall id, id ∈ "loading" :: panel :: also ->
                       find_index (has_id id) (document st) <> Some n) ->
           document (snd (handler form st)) !! n = document st !! n.
Proof.
  intros panel endpoint also handler Hin form st.
  destruct (submissions_shape _ _ _ _ Hin) as [_ [body [Hshape [Hconf _]]]].
  rewrite Hshape. revert st.
  apply (confined_try_catch_finally ("loading" :: panel :: also)).
  - apply confined_bind; [| intros _; apply Hconf].
    apply confined_showLoading. apply list_elem_of_here.
  - intros e. apply confined_show_error_in.
    apply list_elem_of_further, list_elem_of_here.
  - apply confined_hideLoading. apply list_elem_of_here.
Qed.

Lemma submission_stays_in_its_panel_witness :
  document (snd (InvestmentApp.handleHouseCalculation sample_etf_form
                   (full_state (Responded overloaded_500)))) !! 2%nat
  = document (full_state (Responded overloaded_500)) !! 2%nat.
Proof.
  apply (submission_stays_in_its_panel "house-result" "/house-investment" []
           InvestmentApp.handleHouseCalculation).
  - apply list_elem_of_In. simpl. auto.
  - intros id Hid. apply list_elem_of_In in Hid. simpl in Hid.
    destruct Hid as [<- | [<- | []]]; vm_compute; discriminate.
Defined.

(** ** What the panel shows after a submission *)

Lemma call_add_class (endpoint : string) (data : JsValue) (method : string)
    (i : nat) (cls : string) (st : State) :
  InvestmentAPI.call endpoint data method (add_class i cls st)
  = (fst (InvestmentAPI.call endpoint data method st),
     add_class i cls (snd (InvestmentAPI.call endpoint data method st))).
Proof.
  assert (Hsame : answer endpoint data method (add_class i cls st)
                  = answer endpoint data method st) by reflexivity.
  destruct (answer endpoint data method st) as [e | r] eqn:Hnet.
  - rewrite (call_network_failure _ _ _ _ _ Hsame),
      (call_network_failure _ _ _ _ _ Hnet). reflexivity.
  - destruct (ok r) eqn:Hok.
    + destruct (json_body r) as [v | e] eqn:Hbody.
      * rewrite (call_success _ _ _ _ _ _ Hsame Hok Hbody),
          (call_success _ _ _ _ _ _ Hnet Hok Hbody). reflexivity.
      * rewrite (call_success_unparsable _ _ _ _ _ _ Hsame Hok Hbody),
          (call_success_unparsable _ _ _ _ _ _ Hnet Hok Hbody). reflexivity.
    + destruct (detail_of_ok r) as [detail Hdetail].
      rewrite (call_failure_status _ _ _ _ _ _ Hsame Hok Hdetail),
        (call_failure_status _ _ _ _ _ _ Hnet Hok Hdetail).
      destruct (ToString _); reflexivity.
Qed.

Lemma render_run (panel_id : string) (markup : Res string) (st : State) (j : nat) :
  find_index (has_id panel_id) (document st) = Some j ->
  render panel_id markup st
  = match markup with
    | Ok html => (Ok tt, add_class j "show" (put_html j html st))
    | Throw e => (Throw e, st)
    end.
Proof.
  intros H. unfold render, bind, getElementById. rewrite H.
  destruct markup; reflexivity.
Qed.

Lemma try_catch_finally_ok {A : Type} (body : M A) (handler : JsError -> M A)
    (final : M unit) (st st1 st3 : State) (a : A) :
  body st = (Ok a, st1) ->
  final st1 = (Ok tt, st3) ->
  try_catch_finally body handler final st = (Ok a, st3).
Proof.
  intros Hbody Hfinal. unfold try_catch_finally, try_catch.
  now rewrite Hbody, Hfinal.
Qed.

Lemma panel_shows_rendered (i j : nat) (html : string) (st : State) (panel_id : string) :
  find_index (has_id "loading") (document st) = Some i ->
  find_index (has_id panel_id) (document st) = Some j ->
  panel_id <> "loading" ->
  panel_shows panel_id html
    (remove_class i "show" (add_class j "show" (put_html j html st))).
Proof.
  intros Hi Hj Hne.
  assert (Hij : i <> j).
  { apply (distinct_ids_distinct_nodes "loading" panel_id (document st)); auto. }
  destruct (find_index_lookup _ _ _ Hj) as [el [Hel _]].
  unfold panel_shows, element_by_id.
  rewrite find_id_remove_class, find_id_add_class, find_id_put_html, Hj.
  simpl.
  rewrite list_lookup_alter_ne by exact Hij.
  rewrite !list_lookup_alter_eq, Hel. simpl.
  eexists. split; [reflexivity |]. simpl. split; [reflexivity |].
  apply elem_of_union. right. now apply elem_of_singleton.
Qed.

(** A handler that sends [data] and renders the result with [markup]. *)
Lemma submission_run (panel endpoint : string) (markup : JsValue -> Res string)
    (data : JsValue) (st : State) (i j : nat) :
  panel <> "loading" ->
  find_index (has_id "loading") (document st) = Some i ->
  find_index (has_id panel) (document st) = Some j ->
  exists st',
    try_catch_finally
      (APIUtils.showLoading ;;;
       result <- InvestmentAPI.call endpoint data "POST" ;;
       render panel (markup result))
      (show_error_in panel) APIUtils.hideLoading st
    = (Ok tt, st')
    /\ panel_shows panel
         (outcome_markup markup (fst (InvestmentAPI.call endpoint data "POST" st))) st'
    /\ requests st' = (requests st ++ [request_of endpoint data "POST"])%list.
Proof.
  intros Hne Hi Hj.
  pose proof (call_add_class endpoint data "POST" i "show" st) as Hc.
  pose proof (call_document endpoint data "POST" st) as Hdoc.
  pose proof (call_requests endpoint data "POST" st) as Hreq.
  destruct (InvestmentAPI.call endpoint data "POST" st) as [[result | e] stc];
    cbn [fst snd] in *.
  - assert (Hi1 : find_index (has_id "loading") (document (add_class i "show" stc))
                  = Some i) by (now rewrite find_id_add_class, Hdoc).
    assert (Hj1 : find_index (has_id panel) (document (add_class i "show" stc))
                  = Some j) by (now rewrite find_id_add_class, Hdoc).
    destruct (markup result) as [html | e'] eqn:Hm.
    + exists (remove_class i "show"
                (add_class j "show" (put_html j html (add_class i "show" stc)))).
      split; [| split].
      * apply (try_catch_finally_ok _ _ _ _
                 (add_class j "show" (put_html j html (add_class i "show" stc)))).
        -- rewrite (bind_ok _ _ _ _ _ (showLoading_run st i Hi)).
           rewrite (bind_ok _ _ _ _ _ Hc).
           rewrite (render_run _ _ _ j Hj1), Hm. reflexivity.
        -- apply hideLoading_run.
           now rewrite find_id_add_class, find_id_put_html.
      * unfold outcome_markup. rewrite Hm. now apply panel_shows_rendered.
      * exact Hreq.
    + exists (error_shown i j (message e') (add_class i "show" stc)).
      split; [| split].
      * unfold show_error_in. apply handler_catches; [| exact Hi1 | exact Hj1].
        rewrite (bind_ok _ _ _ _ _ (showLoading_run st i Hi)).
        rewrite (bind_ok _ _ _ _ _ Hc).
        rewrite (render_run _ _ _ j Hj1), Hm. reflexivity.
      * unfold outcome_markup. rewrite Hm. now apply error_shown_panel.
      * exact Hreq.
  - assert (Hi1 : find_index (has_id "loading") (document (add_class i "show" stc))
                  = Some i) by (now rewrite find_id_add_class, Hdoc).
    assert (Hj1 : find_index (has_id panel) (document (add_class i "show" stc))
                  = Some j) by (now rewrite find_id_add_class, Hdoc).
    exists (error_shown i j (message e) (add_class i "show" stc)).
    split; [| split].
    + unfold show_error_in. apply handler_catches; [| exact Hi1 | exact Hj1].
      rewrite (bind_ok _ _ _ _ _ (showLoading_run st i Hi)).
      apply bind_throw. exact Hc.
    + now apply error_shown_panel.
    + exact Hreq.
Qed.

Lemma plain_submissions_shape (panel endpoint : string) (handler : Form -> M unit)
    (markup : JsValue -> Res string) :
  (panel, endpoint, handler, markup) ∈ plain_submissions ->
  panel <> "loading"
  /\ (exists field, markup JNull = Throw (cannot_read "null" field))
  /\ forall form,
       handler form
       = try_catch_finally
           (APIUtils.showLoading ;;;
            result <- InvestmentAPI.call endpoint
                        (JObj (APIUtils.formDataToObject (form_entries form))) "POST" ;;
            render panel (markup result))
           (show_error_in panel) APIUtils.hideLoading.
Proof.
  intros H. unfold plain_submissions in H.
  repeat (apply elem_of_cons in H as [H | H]);
    try (apply elem_of_nil in H; contradiction);
    injection H as -> -> -> ->;
    (split; [discriminate | split; [eexists; reflexivity | reflexivity]]).
Qed.

(** X15. What the ETF, house and stock handlers leave on the page, on a page
    with the loading indicator and their result panel: the form is sent as
    the object [formDataToObject] builds from it, in one POST request to the
    handler's endpoint, and the panel is shown with the markup of the result
    when the call returns and the markup can be built, and otherwise with
    the message of the error: that of the call when the call fails, that of
    the rendering when the rendering fails. *)
Theorem plain_submission_outcome :
  forall (panel endpoint : string) (handler : Form -> M unit)
         (markup : JsValue -> Res string),
    (panel, endpoint, handler, markup) ∈ plain_submissions ->
    forall (form : Form) (st : State) (i j : nat),
      find_index (has_id "loading") (document st) = Some i ->
      find_index (has_id panel) (document st) = Some j ->
      let data := JObj (APIUtils.formDataToObject (form_entries form)) in
      fst (handler form st) = Ok tt
      /\ panel_shows panel
           (outcome_markup markup (fst (InvestmentAPI.call endpoint data "POST" st)))
           (snd (handler form st))
      /\ requests (snd (handler form st))
         = (requests st ++ [request_of endpoint data "POST"])%list.
Proof.
  intros panel endpoint handler markup Hin form st i j Hi Hj data.
  destruct (plain_submissions_shape _ _ _ _ Hin) as [Hne [_ Hshape]].
  rewrite Hshape.
  destruct (submission_run panel endpoint markup data st i j Hne Hi Hj)
    as [st' [Hrun [Hpanel Hreq]]].
  fold data. rewrite Hrun. split; [reflexivity | split; assumption].
Qed.

Lemma plain_submission_outcome_witness :
  panel_shows "etf-result"
    (outcome_markup InvestmentApp.etf_markup
       (fst (InvestmentAPI.call "/etf-investment"
               (JObj (APIUtils.formDataToObject (form_entries sample_etf_form))) "POST"
               (full_state (Responded overloaded_500)))))
    (snd (InvestmentApp.handleETFCalculation sample_etf_form
            (full_state (Responded overloaded_500)))).
Proof.
  apply (plain_submission_outcome "etf-result" "/etf-investment"
           InvestmentApp.handleETFCalculation InvestmentApp.etf_markup)
    with (i := 0%nat) (j := 2%nat).
  - apply list_elem_of_In. simpl. auto.
  - reflexivity.
  - reflexivity.
Defined.

(** X16. A response with a success status whose body is the JSON value
    [null] is not a result: the ETF, house and stock handlers then show, in
    their panel, the [TypeError] raised by reading the first field of
    [null]. *)
Theorem null_result_shown_as_error :
  forall (panel endpoint : string) (handler : Form -> M unit)
         (markup : JsValue -> Res string),
    (panel, endpoint, handler, markup) ∈ plain_submissions ->
    forall (form : Form) (st : State) (i j : nat) (r : Response),
      find_index (has_id "loading") (document st) = Some i ->
      find_index (has_id panel) (document st) = Some j ->
      answer endpoint (JObj (APIUtils.formDataToObject (form_entries form))) "POST" st
      = Responded r ->
      ok r = true ->
      json_body r = Ok JNull ->
      exists field,
        panel_shows panel
          (APIUtils.error_markup (message (cannot_read "null" field)))
          (snd (handler form st)).
Proof.
  intros panel endpoint handler markup Hin form st i j r Hi Hj Hnet Hok Hbody.
  destruct (plain_submissions_shape _ _ _ _ Hin) as [Hne [[field Hfield] Hshape]].
  rewrite Hshape.
  destruct (submission_run panel endpoint markup
              (JObj (APIUtils.formDataToObject (form_entries form))) st i j Hne Hi Hj)
    as [st' [Hrun [Hpanel _]]].
  rewrite Hrun. exists field.
  rewrite (call_success _ _ _ _ _ _ Hnet Hok Hbody) in Hpanel.
  unfold outcome_markup in Hpanel. cbn [fst] in Hpanel.
  rewrite Hfield in Hpanel. exact Hpanel.
Qed.

Lemma null_result_shown_as_error_witness :
  exists field,
    panel_shows "house-result"
      (APIUtils.error_markup (message (cannot_read "null" field)))
      (snd (InvestmentApp.handleHouseCalculation sample_etf_form
              (full_state (Responded (mkResponse 200 "OK" (Ok JNull)))))).
Proof.
  apply (null_result_shown_as_error "house-result" "/house-investment"
           InvestmentApp.handleHouseCalculation InvestmentApp.house_markup)
    with (i := 0%nat) (j := 3%nat) (r := mkResponse 200 "OK" (Ok JNull)).
  - apply list_elem_of_In. simpl. auto.
  - reflexivity.
  - reflexivity.
  - reflexivity.
  - reflexivity.
  - reflexivity.
Defined.

(** X17. What the bond handler leaves on the page, on a page with the
    loading indicator and the bond panel.  With the compound check box in
    the form, the form is sent with the state of the box as [is_compound],
    in one POST request, and the panel shows the markup of the result or the
    message of the error of the call or of the rendering.  Without the check
    box nothing is sent, and the panel shows the [TypeError] raised by
    reading [checked] of [null]. *)
Theorem bond_submission_outcome :
  forall (form : Form) (st : State) (i j : nat),
    find_index (has_id "loading") (document st) = Some i ->
    find_index (has_id "bond-result") (document st) = Some j ->
    fst (InvestmentApp.handleBondCalculation form st) = Ok tt
    /\ match is_compound_checked form with
       | Some checked =>
           panel_shows "bond-result"
             (outcome_markup InvestmentApp.bond_markup
                (fst (InvestmentAPI.call "/bond-deposit" (bond_data form checked)
                        "POST" st)))
             (snd (InvestmentApp.handleBondCalculation form st))
           /\ requests (snd (InvestmentApp.handleBondCalculation form st))
              = (requests st
                   ++ [request_of "/bond-deposit" (bond_data form checked) "POST"])%list
       | None =>
           panel_shows "bond-result"
             (APIUtils.error_markup (message (cannot_read "null" "checked")))
             (snd (InvestmentApp.handleBondCalculation form st))
           /\ requests (snd (InvestmentApp.handleBondCalculation form st))
              = requests st
       end.
Proof.
  intros form st i j Hi Hj.
  destruct (is_compound_checked form) as [checked |] eqn:Hchecked.
  - assert (Heq : InvestmentApp.handleBondCalculation form st
                  = try_catch_finally
                      (APIUtils.showLoading ;;;
                       result <- InvestmentAPI.call "/bond-deposit"
                                   (bond_data form checked) "POST" ;;
                       render "bond-result" (InvestmentApp.bond_markup result))
                      (show_error_in "bond-result") APIUtils.hideLoading st).
    { unfold InvestmentApp.handleBondCalculation, InvestmentApp.is_compound_of.
      rewrite Hchecked. reflexivity. }
    rewrite Heq.
    destruct (submission_run "bond-result" "/bond-deposit" InvestmentApp.bond_markup
                (bond_data form checked) st i j) as [st' [Hrun [Hpanel Hreq]]];
      [discriminate | exact Hi | exact Hj |].
    rewrite Hrun. split; [reflexivity | split; assumption].
  - assert (Hrun : InvestmentApp.handleBondCalculation form st
                   = (Ok tt, error_shown i j (message (cannot_read "null" "checked"))
                               (add_class i "show" st))).
    { unfold InvestmentApp.handleBondCalculation.
      apply handler_catches.
      - rewrite (bind_ok _ _ _ _ _ (showLoading_run st i Hi)).
        unfold InvestmentApp.is_compound_of. rewrite Hchecked. reflexivity.
      - now rewrite find_id_add_class.
      - now rewrite find_id_add_class. }
    rewrite Hrun. split; [reflexivity | split; [| reflexivity]].
    apply error_shown_panel; [| | discriminate]; now rewrite find_id_add_class.
Qed.

Lemma bond_submission_outcome_witness :
  fst (InvestmentApp.handleBondCalculation (mkForm [("principal", "1000")] None)
         (full_state (NetworkFailure (TypeError "Failed to fetch"))))
  = Ok tt
  /\ panel_shows "bond-result"
       (APIUtils.error_markup (message (cannot_read "null" "checked")))
       (snd (InvestmentApp.handleBondCalculation (mkForm [("principal", "1000")] None)
               (full_state (NetworkFailure (TypeError "Failed to fetch")))))
  /\ requests (snd (InvestmentApp.handleBondCalculation
                      (mkForm [("principal", "1000")] None)
                      (full_state (NetworkFailure (TypeError "Failed to fetch")))))
     = requests (full_state (NetworkFailure (TypeError "Failed to fetch"))).
Proof.
  apply (bond_submission_outcome (mkForm [("principal", "1000")] None)
           (full_state (NetworkFailure (TypeError "Failed to fetch"))) 0%nat 1%nat);
    reflexivity.
Defined.

(** ** Rendering a result *)

Lemma obj_get_flat (o : JsObject) (k : string) :
  (forall key v, own o !! key = Some v -> is_primitive v = true) ->
  is_primitive (obj_get o k) = true \/ exists name, obj_get o k = JNative name.
Proof.
  intros Hflat. unfold obj_get.
  destruct (own o !! k) as [v |] eqn:Hv; [left; now apply (Hflat k) |].
  destruct (has_prototype o && bool_decide (k ∈ object_prototype_names));
    [right; eexists; reflexivity | left; reflexivity].
Qed.

Lemma ToString_flat (v : JsValue) :
  is_primitive v = true \/ (exists name, v = JNative name) ->
  exists s, ToString v = Ok s.
Proof.
  intros [H | [name ->]].
  - destruct v; try discriminate; simpl; eexists; reflexivity.
  - simpl. destruct (String.eqb name "__proto__"); eexists; reflexivity.
Qed.

Lemma ToNumber_flat (v : JsValue) :
  is_primitive v = true \/ (exists name, v = JNative name) ->
  exists x, ToNumber v = Ok x.
Proof.
  intros [H | [name ->]].
  - destruct v; try discriminate; simpl; eexists; reflexivity.
  - unfold ToNumber, ToPrimitive.
    destruct (ToString_flat (JNative name)) as [s ->]; [right; eexists; reflexivity |].
    simpl. eexists; reflexivity.
Qed.

Lemma value_class_above_flat (n : spec_float) (v : JsValue) :
  is_primitive v = true \/ (exists name, v = JNative name) ->
  exists s, InvestmentApp.value_class_above n v = Ok s.
Proof.
  intros H. unfold InvestmentApp.value_class_above, js_gt_number.
  destruct (ToNumber_flat v H) as [x ->]. simpl. eexists; reflexivity.
Qed.

Lemma value_class_flat (v : JsValue) :
  is_primitive v = true \/ (exists name, v = JNative name) ->
  exists s, InvestmentApp.value_class v = Ok s.
Proof.
  intros H. unfold InvestmentApp.value_class, js_gt_number.
  destruct (ToNumber_flat v H) as [x ->]. simpl. eexists; reflexivity.
Qed.

Lemma formatPercentage_defined (v : JsValue) (decimals : nat) :
  (decimals <= 100)%nat -> exists s, APIUtils.formatPercentage v decimals = Ok s.
Proof.
  intros Hd. apply Nat.leb_le in Hd.
  destruct v; simpl; try (eexists; reflexivity).
  unfold APIUtils.toFixed. rewrite Hd. simpl. eexists; reflexivity.
Qed.

Lemma formatNumber_defined (v : JsValue) (decimals : nat) :
  (decimals <= 100)%nat -> exists s, APIUtils.formatNumber v decimals = Ok s.
Proof.
  intros Hd. apply Nat.leb_le in Hd.
  destruct v; simpl; try (eexists; reflexivity).
  rewrite Hd. eexists; reflexivity.
Qed.

Ltac markup_step Hflat :=
  match goal with
  | |- context [InvestmentApp.value_class ?v] =>
      let s := fresh "s" in
      destruct (value_class_flat v (obj_get_flat _ _ Hflat)) as [s ->]
  | |- context [InvestmentApp.value_class_above ?n ?v] =>
      let s := fresh "s" in
      destruct (value_class_above_flat n v (obj_get_flat _ _ Hflat)) as [s ->]
  | |- context [APIUtils.formatPercentage ?v ?d] =>
      let s := fresh "s" in
      destruct (formatPercentage_defined v d ltac:(lia)) as [s ->]
  | |- context [APIUtils.formatNumber ?v ?d] =>
      let s := fresh "s" in
      destruct (formatNumber_defined v d ltac:(lia)) as [s ->]
  | |- context [ToString ?v] =>
      let s := fresh "s" in
      destruct (ToString_flat v (obj_get_flat _ _ Hflat)) as [s ->]
  end;
  cbn [res_bind].

(** X18. The markup of the bond, ETF, house and stock panels can always be
    built for a result object whose fields hold numbers, strings, booleans
    or [null]: no field is required, and rendering such a result never
    throws. *)
Theorem result_markup_defined :
  forall (o : JsObject),
    (forall key v, own o !! key = Some v -> is_primitive v = true) ->
    (exists html, InvestmentApp.bond_markup (JObj o) = Ok html)
    /\ (exists html, InvestmentApp.etf_markup (JObj o) = Ok html)
    /\ (exists html, InvestmentApp.house_markup (JObj o) = Ok html)
    /\ (exists html, InvestmentApp.stock_markup (JObj o) = Ok html).
Proof.
  intros o Hflat. split; [| split; [| split]].
  - unfold InvestmentApp.bond_markup. cbn [get_field res_bind].
    repeat markup_step Hflat. eexists; reflexivity.
  - unfold InvestmentApp.etf_markup. cbn [get_field res_bind].
    repeat markup_step Hflat. eexists; reflexivity.
  - unfold InvestmentApp.house_markup. cbn [get_field res_bind].
    repeat markup_step Hflat. eexists; reflexivity.
  - unfold InvestmentApp.stock_markup. cbn [get_field res_bind].
    repeat markup_step Hflat. eexists; reflexivity.
Qed.

Lemma result_markup_defined_witness :
  exists html,
    InvestmentApp.stock_markup
      (JObj (mkObj true {["mean" := JNum (Num.of_Z 120)]})) = Ok html.
Proof.
  apply (result_markup_defined (mkObj true {["mean" := JNum (Num.of_Z 120)]})).
  intros key v H. cbn [own] in H.
  apply lookup_singleton_Some in H as [_ <-]. reflexivity.
Defined.

(** ** The goal chart *)

Lemma get_field_truthy (v : JsValue) (k : string) :
  truthy v = true -> exists x, get_field v k = Ok x.
Proof.
  destruct v; simpl; try discriminate; intros _;
    try (destruct (String.eqb k "length")); eexists; reflexivity.
Qed.

Lemma destroy_goal_chart_library (st : State) :
  chart_library (InvestmentApp.destroy_goal_chart st) = chart_library st.
Proof.
  unfold InvestmentApp.destroy_goal_chart. now destruct (charts_goal st).
Qed.

Lemma destroy_goal_chart_charts (st : State) :
  charts_goal (InvestmentApp.destroy_goal_chart st) = charts_goal st
  /\ destroyed (InvestmentApp.destroy_goal_chart st)
     = (destroyed st ++ option_list (charts_goal st))%list.
Proof.
  unfold InvestmentApp.destroy_goal_chart.
  destruct (charts_goal st) as [old |] eqn:E; simpl.
  - split; reflexivity.
  - split; [exact E | now rewrite app_nil_r].
Qed.

Lemma draws_chart_data (result : JsValue) :
  draws_chart result = true ->
  exists chart_data,
    get_field result "chart_data" = Ok chart_data
    /\ field_of result "chart_data" = chart_data
    /\ truthy chart_data = true.
Proof.
  unfold draws_chart, field_of.
  destruct (get_field result "chart_data") as [cd | e]; [| discriminate].
  intros H. apply andb_true_iff in H as [H _]. exists cd. auto.
Qed.

(** What [drawGoalChart] does with the chart data of a result for which the
    chart is drawn. *)
Lemma drawGoalChart_run (result : JsValue) (st : State) :
  draws_chart result = true ->
  InvestmentApp.drawGoalChart (field_of result "chart_data") st
  = match find_index (has_id "goal-chart") (document st) with
    | None => (Throw (cannot_read "null" "style"), st)
    | Some canvas =>
        let shown :=
          InvestmentApp.destroy_goal_chart
            (set_document (alter (with_display "block") canvas (document st)) st) in
        match getContext (chart_library st) canvas with
        | Throw e => (Throw e, shown)
        | Ok _ =>
            match new_Chart (chart_library st) (goal_chart result) with
            | Throw e => (Throw e, shown)
            | Ok _ =>
                (Ok tt, set_charts (Some (goal_chart result)) (destroyed shown) shown)
            end
        end
    end.
Proof.
  intros Hdraws.
  destruct (draws_chart_data result Hdraws) as [cd [_ [Hfield Htruthy]]].
  unfold goal_chart. rewrite Hfield.
  destruct (get_field_truthy cd "years" Htruthy) as [years Hy].
  destruct (get_field_truthy cd "portfolio_values" Htruthy) as [values Hv].
  destruct (get_field_truthy cd "total_investments" Htruthy) as [investments Hi].
  unfold field_of. rewrite Hy, Hv, Hi.
  unfold InvestmentApp.drawGoalChart, bind, getElementById.
  destruct (find_index (has_id "goal-chart") (document st)) as [canvas |];
    [| reflexivity].
  unfold update_element, modify, get_state, lift. cbv beta iota zeta.
  rewrite destroy_goal_chart_library. cbn [chart_library set_document].
  rewrite Hy, Hv, Hi.
  destruct (getContext (chart_library st) canvas) as [[] | e]; [| reflexivity].
  destruct (new_Chart (chart_library st) _) as [[] | e]; reflexivity.
Qed.

(** After the panel is rendered, the chart is drawn or not. *)
Lemma chart_part_run (result : JsValue) (html : string) (st : State) :
  InvestmentApp.goal_markup result = Ok html ->
  (chart_data <- lift (get_field result "chart_data") ;;
   if truthy chart_data then
     years <- lift (get_field chart_data "years") ;;
     if truthy years then InvestmentApp.drawGoalChart chart_data else ret tt
   else ret tt) st
  = if draws_chart result
    then InvestmentApp.drawGoalChart (field_of result "chart_data") st
    else (Ok tt, st).
Proof.
  intros Hmarkup.
  assert (Hcd : exists cd, get_field result "chart_data" = Ok cd).
  { destruct result; try discriminate; simpl; eexists; reflexivity. }
  destruct Hcd as [cd Hcd].
  unfold draws_chart, field_of, bind, lift. rewrite Hcd.
  destruct (truthy cd) eqn:Hcdt; [| reflexivity].
  destruct (get_field_truthy cd "years" Hcdt) as [years Hyears]. rewrite Hyears.
  cbn [andb]. destruct (truthy years); reflexivity.
Qed.

Lemma render_fails (panel_id : string) (markup : Res string) (st : State) :
  (forall j html, find_index (has_id panel_id) (document st) = Some j ->
                  markup <> Ok html) ->
  exists e, render panel_id markup st = (Throw e, st).
Proof.
  intros H. unfold render, bind. unfold getElementById at 1. cbv beta iota.
  destruct markup as [html | e].
  - destruct (find_index (has_id panel_id) (document st)) as [j |] eqn:Hj.
    + exfalso. now apply (H j html).
    + eexists. reflexivity.
  - eexists. reflexivity.
Qed.

(** X19. What showing a goal result does to the chart, for every result and
    every page.  Either the chart and the list of destroyed charts are as
    before.  Or the canvas is displayed and the previous chart (if any) has
    been destroyed once; then the new chart replaces it when the drawing
    context and the chart could be created, and when either of them throws,
    that error is thrown on and the chart that was just destroyed is still
    the one in [charts.goal]. *)
Theorem displayGoalResult_chart :
  forall (result : JsValue) (st : State),
    (charts_goal (snd (InvestmentApp.displayGoalResult result st)) = charts_goal st
     /\ destroyed (snd (InvestmentApp.displayGoalResult result st)) = destroyed st)
    \/ (exists canvas,
          find_index (has_id "goal-chart") (document st) = Some canvas
          /\ style_display <$> document (snd (InvestmentApp.displayGoalResult result st))
                                 !! canvas
             = Some "block"
          /\ destroyed (snd (InvestmentApp.displayGoalResult result st))
             = (destroyed st ++ option_list (charts_goal st))%list
          /\ ((fst (InvestmentApp.displayGoalResult result st) = Ok tt
               /\ charts_goal (snd (InvestmentApp.displayGoalResult result st))
                  = Some (goal_chart result)
               /\ getContext (chart_library st) canvas = Ok tt
               /\ new_Chart (chart_library st) (goal_chart result) = Ok tt)
              \/ (exists e,
                    fst (InvestmentApp.displayGoalResult result st) = Throw e
                    /\ charts_goal (snd (InvestmentApp.displayGoalResult result st))
                       = charts_goal st
                    /\ (getContext (chart_library st) canvas = Throw e
                        \/ new_Chart (chart_library st) (goal_chart result)
                           = Throw e)))).
Proof.
  intros result st. rewrite displayGoalResult_split.
  destruct (find_index (has_id "goal-result") (document st)) as [j |] eqn:Hj;
    [destruct (InvestmentApp.goal_markup result) as [html | e0] eqn:Hm |].
  - pose proof (render_run "goal-result" (Ok html) st j Hj) as Hrender.
    rewrite (bind_ok _ _ _ _ _ Hrender).
    rewrite (chart_part_run result html _ Hm).
    destruct (draws_chart result) eqn:Hdraws; [| left; split; reflexivity].
    rewrite (drawGoalChart_run result _ Hdraws).
    rewrite find_id_add_class, find_id_put_html.
    destruct (find_index (has_id "goal-chart") (document st)) as [canvas |] eqn:Hcanvas;
      [| left; split; reflexivity].
    set (st1 := add_class j "show" (put_html j html st)).
    destruct (destroy_goal_chart_charts
                (set_document (alter (with_display "block") canvas (document st1)) st1))
      as [Hchart Hdestroyed].
    assert (Hshown : style_display
                       <$> document (InvestmentApp.destroy_goal_chart
                                       (set_document
                                          (alter (with_display "block") canvas
                                             (document st1)) st1)) !! canvas
                     = Some "block").
    { rewrite destroy_goal_chart_document. cbn [document set_document].
      rewrite list_lookup_alter_eq.
      assert (Hc1 : find_index (has_id "goal-chart") (document st1) = Some canvas)
        by (subst st1; now rewrite find_id_add_class, find_id_put_html).
      destruct (find_index_lookup _ _ _ Hc1) as [el [-> _]]. reflexivity. }
    right. exists canvas. cbv zeta.
    change (chart_library st1) with (chart_library st).
    destruct (getContext (chart_library st) canvas) as [[] | e] eqn:Hctx.
    + destruct (new_Chart (chart_library st) (goal_chart result)) as [[] | e] eqn:Hnew.
      * cbn [fst snd]. split; [reflexivity | split; [exact Hshown | split]].
        -- exact Hdestroyed.
        -- left. repeat split; reflexivity.
      * cbn [fst snd]. split; [reflexivity | split; [exact Hshown | split]].
        -- exact Hdestroyed.
        -- right. exists e. split; [reflexivity | split; [exact Hchart | now right]].
    + cbn [fst snd]. split; [reflexivity | split; [exact Hshown | split]].
      * exact Hdestroyed.
      * right. exists e. split; [reflexivity | split; [exact Hchart | now left]].
  - destruct (render_fails "goal-result" (Throw e0) st) as [e Hfail];
      [intros j' html' _; discriminate |].
    rewrite (bind_throw _ _ _ _ _ Hfail). left. split; reflexivity.
  - destruct (render_fails "goal-result" (InvestmentApp.goal_markup result) st)
      as [e Hfail]; [intros j' html' Hj'; congruence |].
    rewrite (bind_throw _ _ _ _ _ Hfail). left. split; reflexivity.
Qed.

(** X20. With the goal panel and the canvas on the page and a result whose
    markup can be built, the panel shows the markup, and the chart is drawn
    exactly when the result has a truthy [chart_data] with a truthy [years]
    (a list of years counts even when it is empty).  When it is not drawn,
    the chart, the list of destroyed charts and the canvas stay as they
    were.  When it is drawn, the canvas is displayed and the previous chart
    is destroyed; the chart made of the three series of [chart_data] then
    replaces it, unless the drawing context or the chart cannot be created:
    then that error is thrown and the destroyed chart stays in place. *)
Theorem goal_chart_drawn :
  forall (result : JsValue) (st : State) (j canvas : nat),
    find_index (has_id "goal-result") (document st) = Some j ->
    find_index (has_id "goal-chart") (document st) = Some canvas ->
    (exists html, InvestmentApp.goal_markup result = Ok html) ->
    (exists panel,
       document (snd (InvestmentApp.displayGoalResult result st)) !! j = Some panel
       /\ InvestmentApp.goal_markup result = Ok (innerHTML panel)
       /\ "show" ∈ classList panel)
    /\ if draws_chart result
       then style_display <$> document (snd (InvestmentApp.displayGoalResult result st))
                                !! canvas
            = Some "block"
            /\ destroyed (snd (InvestmentApp.displayGoalResult result st))
               = (destroyed st ++ option_list (charts_goal st))%list
            /\ match draw_failure st result with
               | None =>
                   fst (InvestmentApp.displayGoalResult result st) = Ok tt
                   /\ charts_goal (snd (InvestmentApp.displayGoalResult result st))
                      = Some (goal_chart result)
               | Some e =>
                   fst (InvestmentApp.displayGoalResult result st) = Throw e
                   /\ charts_goal (snd (InvestmentApp.displayGoalResult result st))
                      = charts_goal st
               end
       else fst (InvestmentApp.displayGoalResult result st) = Ok tt
            /\ charts_goal (snd (InvestmentApp.displayGoalResult result st))
               = charts_goal st
            /\ destroyed (snd (InvestmentApp.displayGoalResult result st))
               = destroyed st
            /\ style_display <$> document (snd (InvestmentApp.displayGoalResult result st))
                                   !! canvas
               = style_display <$> document st !! canvas.
Proof.
  intros result st j canvas Hj Hcanvas [html Hhtml].
  assert (Hne : j <> canvas).
  { apply (distinct_ids_distinct_nodes "goal-result" "goal-chart" (document st));
      [assumption | assumption | discriminate]. }
  destruct (find_index_lookup _ _ _ Hj) as [panel [Hpanel _]].
  destruct (find_index_lookup _ _ _ Hcanvas) as [el [Hel _]].
  rewrite displayGoalResult_split.
  pose proof (render_run "goal-result" (InvestmentApp.goal_markup result) st j Hj)
    as Hrender.
  rewrite Hhtml in Hrender |- *.
  rewrite (bind_ok _ _ _ _ _ Hrender).
  rewrite (chart_part_run result html _ Hhtml).
  set (st1 := add_class j "show" (put_html j html st)).
  assert (Hpanel1 : exists panel1,
             document st1 !! j = Some panel1
             /\ Ok html = Ok (innerHTML panel1) /\ "show" ∈ classList panel1).
  { subst st1. cbn [add_class put_html set_document document].
    rewrite !list_lookup_alter_eq, Hpanel. cbn.
    eexists. split; [reflexivity |]. cbn. split; [reflexivity |].
    apply elem_of_union. right. now apply elem_of_singleton. }
  destruct (draws_chart result) eqn:Hdraws.
  - rewrite (drawGoalChart_run result _ Hdraws).
    assert (Hc1 : find_index (has_id "goal-chart") (document st1) = Some canvas)
      by (subst st1; now rewrite find_id_add_class, find_id_put_html).
    rewrite Hc1. cbv zeta.
    change (chart_library st1) with (chart_library st).
    set (shown := InvestmentApp.destroy_goal_chart
                    (set_document (alter (with_display "block") canvas (document st1))
                       st1)).
    assert (Hdoc : document shown
                   = alter (with_display "block") canvas (document st1))
      by (subst shown; now rewrite destroy_goal_chart_document).
    destruct (destroy_goal_chart_charts
                (set_document (alter (with_display "block") canvas (document st1)) st1))
      as [Hchart Hdestroyed].
    fold shown in Hchart, Hdestroyed.
    cbn [charts_goal destroyed set_document] in Hchart, Hdestroyed.
    change (charts_goal st1) with (charts_goal st) in Hchart, Hdestroyed.
    change (destroyed st1) with (destroyed st) in Hdestroyed.
    assert (Hfinal : forall (r : Res unit) (s : State),
               document s = document shown ->
               destroyed s = destroyed shown ->
               (exists panel1,
                  document (snd (r, s)) !! j = Some panel1
                  /\ Ok html = Ok (innerHTML panel1) /\ "show" ∈ classList panel1)
               /\ style_display <$> document (snd (r, s)) !! canvas = Some "block"
               /\ destroyed (snd (r, s))
                  = (destroyed st ++ option_list (charts_goal st))%list).
    { intros r s Hs Hd. cbn [snd]. rewrite Hs, Hdoc, Hd.
      rewrite list_lookup_alter_ne by (intros Heq; now apply Hne).
      rewrite list_lookup_alter_eq.
      assert (Hel1 : exists el1, document st1 !! canvas = Some el1).
      { destruct (find_index_lookup _ _ _ Hc1) as [el1 [Hel1 _]]. now exists el1. }
      destruct Hel1 as [el1 ->].
      split; [exact Hpanel1 | split; [reflexivity | exact Hdestroyed]]. }
    unfold draw_failure. rewrite Hcanvas.
    destruct (getContext (chart_library st) canvas) as [[] | e].
    + destruct (new_Chart (chart_library st) (goal_chart result)) as [[] | e].
      * destruct (Hfinal (Ok tt)
                    (set_charts (Some (goal_chart result)) (destroyed shown) shown)
                    eq_refl eq_refl) as [H1 [H2 H3]].
        split; [exact H1 | split; [exact H2 | split; [exact H3 |]]].
        split; reflexivity.
      * destruct (Hfinal (Throw e) shown eq_refl eq_refl) as [H1 [H2 H3]].
        split; [exact H1 | split; [exact H2 | split; [exact H3 |]]].
        split; [reflexivity | exact Hchart].
    + destruct (Hfinal (Throw e) shown eq_refl eq_refl) as [H1 [H2 H3]].
      split; [exact H1 | split; [exact H2 | split; [exact H3 |]]].
      split; [reflexivity | exact Hchart].
  - cbn [fst snd]. split; [exact Hpanel1 |].
    split; [reflexivity | split; [reflexivity | split; [reflexivity |]]].
    subst st1. cbn [add_class put_html set_document document].
    now rewrite !list_lookup_alter_ne by exact Hne.
Qed.

Lemma goal_chart_drawn_witness :
  (charts_goal (snd (InvestmentApp.displayGoalResult (JObj empty_chart_result)
                       (full_state (Responded overloaded_500))))
   = Some (mkChart (JArr []) JUndefined JUndefined))
  /\ (fst (InvestmentApp.displayGoalResult (JObj empty_chart_result)
             (mkState full_page [] [] (fun _ => Responded overloaded_500)
                (JStr "goal") (Some (mkChart JNull JNull JNull)) [] failing_charts))
      = Throw (mkError "Error" "Canvas is already in use.")
      /\ charts_goal (snd (InvestmentApp.displayGoalResult (JObj empty_chart_result)
                             (mkState full_page [] [] (fun _ => Responded overloaded_500)
                                (JStr "goal") (Some (mkChart JNull JNull JNull)) []
                                failing_charts)))
         = Some (mkChart JNull JNull JNull)).
Proof.
  assert (Hmarkup : exists html,
             InvestmentApp.goal_markup (JObj empty_chart_result) = Ok html)
    by (eexists; vm_compute; reflexivity).
  split.
  - destruct (goal_chart_drawn (JObj empty_chart_result)
                (full_state (Responded overloaded_500)) 5%nat 6%nat
                eq_refl eq_refl Hmarkup) as [_ H].
    exact (proj2 (proj2 (proj2 H))).
  - destruct (goal_chart_drawn (JObj empty_chart_result)
                (mkState full_page [] [] (fun _ => Responded overloaded_500)
                   (JStr "goal") (Some (mkChart JNull JNull JNull)) [] failing_charts)
                5%nat 6%nat eq_refl eq_refl Hmarkup) as [_ H].
    exact (proj2 (proj2 H)).
Defined.

(** ** Which tab is active *)

Lemma active_alter_keep (f : Element -> Element) (m : nat) (d : list Element) (n : nat) :
  (forall el, "active" ∈ classList (f el) <-> "active" ∈ classList el) ->
  active_in (alter f m d) n <-> active_in d n.
Proof.
  intros Hf. unfold active_in.
  destruct (decide (n = m)) as [-> | Hne].
  - rewrite list_lookup_alter_eq. destruct (d !! m) as [el |]; simpl.
    + split.
      * intros [el' [[= <-] Hin]]. exists el. split; [reflexivity | now apply Hf].
      * intros [el' [[= <-] Hin]]. exists (f el). split; [reflexivity | now apply Hf].
    + split; intros [el' [Hel _]]; discriminate.
  - rewrite list_lookup_alter_ne by auto. reflexivity.
Qed.

Lemma active_alter_remove (m : nat) (d : list Element) (n : nat) :
  active_in (alter (with_classList (fun c => c ∖ {["active"]})) m d) n
  <-> n <> m /\ active_in d n.
Proof.
  unfold active_in.
  destruct (decide (n = m)) as [-> | Hne].
  - rewrite list_lookup_alter_eq. split.
    + intros [el' [Hel Hin]]. destruct (d !! m) as [el |]; [| discriminate].
      injection Hel as <-. simpl in Hin.
      apply elem_of_difference in Hin as [_ Hn].
      exfalso. apply Hn. now apply elem_of_singleton.
    + intros [Hne _]. now destruct Hne.
  - rewrite list_lookup_alter_ne by auto. tauto.
Qed.

Lemma active_alter_add (m : nat) (d : list Element) (n : nat) :
  active_in (alter (with_classList (fun c => c ∪ {["active"]})) m d) n
  <-> (n = m /\ is_Some (d !! m)) \/ active_in d n.
Proof.
  unfold active_in.
  destruct (decide (n = m)) as [-> | Hne].
  - rewrite list_lookup_alter_eq. split.
    + intros [el' [Hel Hin]]. destruct (d !! m) as [el |]; [| discriminate].
      left. split; [reflexivity | now exists el].
    + intros [[_ [el Hel]] | [el [Hel Hin]]]; rewrite Hel; simpl.
      * eexists. split; [reflexivity |]. simpl.
        apply elem_of_union. right. now apply elem_of_singleton.
      * eexists. split; [reflexivity |]. simpl.
        apply elem_of_union. now left.
  - rewrite list_lookup_alter_ne by auto. split; [tauto |].
    intros [[Heq _] | H]; [now destruct Hne | exact H].
Qed.

Lemma active_remove_all (nodes : list nat) (d : list Element) (n : nat) :
  active_in (remove_class_all nodes "active" d) n <-> (n ∉ nodes) /\ active_in d n.
Proof.
  revert d. induction nodes as [|m nodes IH]; intros d.
  - simpl. split; [intros H; split; [apply not_elem_of_nil | exact H] | tauto].
  - simpl. rewrite IH, active_alter_remove, not_elem_of_cons. tauto.
Qed.

Lemma remove_class_all_is_Some (nodes : list nat) (cls : string) (d : list Element)
    (n : nat) :
  is_Some (remove_class_all nodes cls d !! n) <-> is_Some (d !! n).
Proof.
  rewrite !lookup_lt_is_Some.
  rewrite <- (length_map elem_id (remove_class_all nodes cls d)).
  rewrite <- (length_map elem_id d).
  now rewrite remove_class_all_ids.
Qed.

Lemma active_after_switch (tabBtns tabContents : list nat) (btn : nat)
    (d : list Element) (n : nat) :
  is_Some (d !! btn) ->
  active_in (remove_class_all tabContents "active"
               (alter (with_classList (fun c => c ∪ {["active"]})) btn
                  (remove_class_all tabBtns "active" d))) n
  <-> (n = btn /\ (n ∉ tabContents))
      \/ ((n ∉ tabBtns) /\ (n ∉ tabContents) /\ active_in d n).
Proof.
  intros Hbtn.
  rewrite active_remove_all, active_alter_add, active_remove_all.
  rewrite remove_class_all_is_Some.
  split.
  - intros [Hc [[-> _] | [Hb Ha]]]; [left | right]; auto.
  - intros [[-> Hc] | [Hb [Hc Ha]]]; split; auto.
Qed.

(** X21. After a click on a tab button whose panel exists, the elements that
    carry the class [active] are exactly: the panel of the clicked tab; the
    clicked button (unless it is itself among the tab panels); and the
    elements outside both node lists that were active before.  No other
    button and no other panel stays active, and the tab is recorded as the
    current one.  This holds whether or not the result panel of the tab
    exists. *)
Theorem tab_click_activates :
  forall (tabBtns tabContents : list nat) (btn : nat) (st : State)
         (button : Element) (p : nat),
    document st !! btn = Some button ->
    find_index (has_id (tab_name button)) (document st) = Some p ->
    currentTab (snd (InvestmentApp.tab_click tabBtns tabContents btn st))
    = tab_id button
    /\ forall n,
         active_in (document (snd (InvestmentApp.tab_click tabBtns tabContents btn st))) n
         <-> n = p
             \/ (n = btn /\ (n ∉ tabContents))
             \/ ((n ∉ tabBtns) /\ (n ∉ tabContents) /\ active_in (document st) n).
Proof.
  intros tabBtns tabContents btn st button p Hbtn Hp.
  rewrite (tab_click_switch _ _ _ _ _ Hbtn).
  set (d3 := remove_class_all tabContents "active"
               (alter (with_classList (fun c => c ∪ {["active"]})) btn
                  (remove_class_all tabBtns "active" (document st)))).
  assert (Hids : map elem_id d3 = map elem_id (document st)).
  { subst d3. rewrite remove_class_all_ids.
    rewrite map_alter_same by reflexivity. apply remove_class_all_ids. }
  assert (Hp3 : find_index (has_id (tab_name button)) (document (set_document d3 st))
                = Some p) by (cbn [document set_document]; now rewrite (same_ids_find _ _ _ Hids)).
  rewrite (bind_ok _ _ _ _ _ (getElementById_run _ _ _ Hp3)).
  rewrite (bind_ok _ _ _ _ _ (classList_add_run p "active" _)).
  rewrite (bind_ok _ _ _ _ _ (modify_run _ _)).
  assert (Hsome : is_Some (d3 !! p)).
  { destruct (find_index_lookup _ _ _ Hp3) as [el [Hel _]]. now exists el. }
  assert (Hactive : forall n,
             active_in (alter (with_classList (fun c => c ∪ {["active"]})) p d3) n
             <-> n = p
                 \/ (n = btn /\ (n ∉ tabContents))
                 \/ ((n ∉ tabBtns) /\ (n ∉ tabContents) /\ active_in (document st) n)).
  { intros n. rewrite active_alter_add. subst d3.
    rewrite active_after_switch by (now exists button).
    split.
    - intros [[-> _] | H]; [now left | now right].
    - intros [-> | H]; [left; split; [reflexivity | exact Hsome] | now right]. }
  unfold APIUtils.clearResult, bind, getElementById.
  destruct (find_index (has_id (tab_name button ++ "-result")) _) as [r |].
  - cbn [classList_remove classList_add set_innerHTML update_element modify fst snd
           document currentTab set_document set_currentTab add_class].
    split; [reflexivity |]. intros n.
    rewrite active_alter_keep by (intros el; reflexivity).
    rewrite active_alter_keep.
    + apply Hactive.
    + intros el. simpl. rewrite elem_of_difference, elem_of_singleton.
      split; [tauto | intros H; split; [exact H | discriminate]].
  - cbn [classList_remove throw fst snd document currentTab set_document
           set_currentTab add_class].
    split; [reflexivity |]. intros n. apply Hactive.
Qed.

Lemma tab_click_activates_witness :
  currentTab (snd (InvestmentApp.tab_click [0; 1]%nat [2; 3]%nat 1%nat tab_state))
  = JStr "etf".
Proof.
  apply (tab_click_activates [0; 1]%nat [2; 3]%nat 1%nat tab_state
           (mkElement None {["tab-btn"]} "ETF" (Some "etf") "") 3%nat);
    reflexivity.
Defined.

(** X22. A click on a tab button whose panel does not exist (also a button
    without a [data-tab] attribute, which looks for the id [undefined])
    fails half-way with a [TypeError]: by then the clicked button has been
    made the active one and every panel has been deactivated, but the
    current tab is not updated and no markup has changed, so no result
    panel is cleared. *)
Theorem tab_click_missing_panel :
  forall (tabBtns tabContents : list nat) (btn : nat) (st : State) (button : Element),
    document st !! btn = Some button ->
    find_index (has_id (tab_name button)) (document st) = None ->
    fst (InvestmentApp.tab_click tabBtns tabContents btn st)
    = Throw (cannot_read "null" "classList")
    /\ currentTab (snd (InvestmentApp.tab_click tabBtns tabContents btn st))
       = currentTab st
    /\ map innerHTML (document (snd (InvestmentApp.tab_click tabBtns tabContents btn st)))
       = map innerHTML (document st)
    /\ forall n,
         active_in (document (snd (InvestmentApp.tab_click tabBtns tabContents btn st))) n
         <-> (n = btn /\ (n ∉ tabContents))
             \/ ((n ∉ tabBtns) /\ (n ∉ tabContents) /\ active_in (document st) n).
Proof.
  intros tabBtns tabContents btn st button Hbtn Hnone.
  rewrite (tab_click_switch _ _ _ _ _ Hbtn).
  set (d3 := remove_class_all tabContents "active"
               (alter (with_classList (fun c => c ∪ {["active"]})) btn
                  (remove_class_all tabBtns "active" (document st)))).
  assert (Hids : map elem_id d3 = map elem_id (document st)).
  { subst d3. rewrite remove_class_all_ids.
    rewrite map_alter_same by reflexivity. apply remove_class_all_ids. }
  assert (Hp3 : find_index (has_id (tab_name button)) (document (set_document d3 st))
                = None) by (cbn [document set_document]; now rewrite (same_ids_find _ _ _ Hids)).
  rewrite (bind_ok _ _ _ _ _ (getElementById_run _ _ _ Hp3)).
  cbn [classList_add]. unfold bind, throw.
  cbn [fst snd document currentTab set_document].
  split; [reflexivity | split; [reflexivity | split]].
  - subst d3. rewrite remove_class_all_html.
    rewrite map_alter_same by reflexivity. apply remove_class_all_html.
  - intros n. subst d3. apply active_after_switch. now exists button.
Qed.

Lemma tab_click_missing_panel_witness :
  fst (InvestmentApp.tab_click [0]%nat []
         0%nat (mkState [mkElement None {["tab-btn"]} "ETF" None ""] [] []
                  (fun _ => NetworkFailure (TypeError "Failed to fetch"))
                  (JStr "bond") None [] working_charts))
  = Throw (cannot_read "null" "classList").
Proof.
  apply (tab_click_missing_panel [0]%nat [] 0%nat
           (mkState [mkElement None {["tab-btn"]} "ETF" None ""] [] []
              (fun _ => NetworkFailure (TypeError "Failed to fetch"))
              (JStr "bond") None [] working_charts)
           (mkElement None {["tab-btn"]} "ETF" None ""));
    reflexivity.
Defined.

(** ** Showing and clearing *)

Lemma alter_fuse {A : Type} (f g h : A -> A) (n : nat) (l : list A) :
  (forall x, f (g x) = h x) -> alter f n (alter g n l) = alter h n l.
Proof.
  intros H. revert n. induction l as [|x l IH]; intros [|n]; try reflexivity.
  - simpl. now rewrite H.
  - simpl. f_equal. apply IH.
Qed.

Lemma alter_fixed {A : Type} (f : A -> A) (n : nat) (l : list A) (x : A) :
  l !! n = Some x -> f x = x -> alter f n l = l.
Proof.
  revert n. induction l as [|y l IH]; intros [|n] Hl Hf; try discriminate.
  - injection Hl as ->. simpl. now rewrite Hf.
  - simpl. f_equal. now apply IH.
Qed.

Lemma classes_add_remove (c : gset string) (cls : string) :
  (c ∪ {[cls]}) ∖ {[cls]} = c ∖ {[cls]}.
Proof.
  apply set_eq. intros x.
  rewrite !elem_of_difference, elem_of_union, elem_of_singleton. tauto.
Qed.

Lemma classes_add_add (c : gset string) (cls : string) :
  (c ∪ {[cls]}) ∪ {[cls]} = c ∪ {[cls]}.
Proof.
  apply set_eq. intros x. rewrite !elem_of_union, elem_of_singleton. tauto.
Qed.

Lemma classes_remove_absent (c : gset string) (cls : string) :
  cls ∉ c -> (c ∪ {[cls]}) ∖ {[cls]} = c.
Proof.
  intros Hc. apply set_eq. intros x.
  rewrite elem_of_difference, elem_of_union, elem_of_singleton.
  split; [tauto |]. intros Hx. split; [now left | now intros ->].
Qed.

Lemma clearResult_run (id : string) (st : State) (j : nat) :
  find_index (has_id id) (document st) = Some j ->
  APIUtils.clearResult id st = (Ok tt, put_html j "" (remove_class j "show" st)).
Proof.
  intros H. unfold APIUtils.clearResult, bind, getElementById. now rewrite H.
Qed.

Lemma clear_after_show (j : nat) (html : string) (st : State) :
  put_html j "" (remove_class j "show" (add_class j "show" (put_html j html st)))
  = put_html j "" (remove_class j "show" st).
Proof.
  unfold put_html, remove_class, add_class, set_document. cbn [document].
  f_equal.
  rewrite (alter_fuse _ _ (fun el => with_innerHTML ""
                             (with_classList (fun c => c ∖ {["show"]}) el)))
    by reflexivity.
  rewrite (alter_fuse (with_classList (fun c => c ∪ {["show"]})) (with_innerHTML html)
             (fun el => with_classList (fun c => c ∪ {["show"]})
                          (with_innerHTML html el))) by reflexivity.
  rewrite (alter_fuse _ _ (fun el => with_innerHTML ""
                             (with_classList (fun c => c ∖ {["show"]}) el))).
  - symmetry. now apply alter_fuse.
  - intros el. unfold with_innerHTML, with_classList. cbn.
    now rewrite classes_add_remove.
Qed.

Lemma show_after_show (j : nat) (html1 html2 : string) (st : State) :
  add_class j "show" (put_html j html2 (add_class j "show" (put_html j html1 st)))
  = add_class j "show" (put_html j html2 st).
Proof.
  unfold put_html, add_class, set_document. cbn [document].
  f_equal.
  rewrite (alter_fuse (with_classList (fun c => c ∪ {["show"]})) (with_innerHTML html2)
             (fun el => with_classList (fun c => c ∪ {["show"]})
                          (with_innerHTML html2 el))) by reflexivity.
  rewrite (alter_fuse (with_classList (fun c => c ∪ {["show"]})) (with_innerHTML html1)
             (fun el => with_classList (fun c => c ∪ {["show"]})
                          (with_innerHTML html1 el))) by reflexivity.
  rewrite (alter_fuse _ _ (fun el => with_classList (fun c => c ∪ {["show"]})
                                       (with_innerHTML html2 el))).
  - symmetry. now apply alter_fuse.
  - intros el. unfold with_innerHTML, with_classList. cbn.
    now rewrite classes_add_add.
Qed.

(** X23. Clearing a panel removes all that [showError] or [showSuccess] put
    there: clearing after a message leaves exactly the page that clearing
    alone leaves, with the markup of the panel empty and the panel not
    shown. *)
Theorem clearResult_clears_message :
  forall (id msg : string) (st : State) (j : nat),
    find_index (has_id id) (document st) = Some j ->
    APIUtils.clearResult id (snd (APIUtils.showError (Some j) msg st))
    = APIUtils.clearResult id st
    /\ APIUtils.clearResult id (snd (APIUtils.showSuccess (Some j) msg st))
       = APIUtils.clearResult id st
    /\ exists el,
         document (snd (APIUtils.clearResult id st)) !! j = Some el
         /\ innerHTML el = ""
         /\ "show" ∉ classList el.
Proof.
  intros id msg st j Hj.
  rewrite (clearResult_run id st j Hj).
  split; [| split].
  - rewrite showError_run. cbn [snd].
    rewrite (clearResult_run id _ j)
      by (now rewrite find_id_add_class, find_id_put_html).
    now rewrite clear_after_show.
  - change (APIUtils.showSuccess (Some j) msg st)
      with (Ok tt, add_class j "show" (put_html j (APIUtils.success_markup msg) st)).
    cbn [snd].
    rewrite (clearResult_run id _ j)
      by (now rewrite find_id_add_class, find_id_put_html).
    now rewrite clear_after_show.
  - destruct (find_index_lookup _ _ _ Hj) as [el [Hel _]].
    cbn [snd put_html remove_class set_document document].
    rewrite !list_lookup_alter_eq, Hel. cbn.
    eexists. split; [reflexivity |]. cbn. split; [reflexivity |].
    intros Hin. apply elem_of_difference in Hin as [_ Hn].
    apply Hn. now apply elem_of_singleton.
Qed.

Lemma clearResult_clears_message_witness :
  APIUtils.clearResult "bond-result"
    (snd (APIUtils.showError (Some 1%nat) "overloaded"
            (full_state (Responded overloaded_500))))
  = APIUtils.clearResult "bond-result" (full_state (Responded overloaded_500)).
Proof.
  apply (clearResult_clears_message "bond-result" "overloaded"
           (full_state (Responded overloaded_500)) 1%nat).
  reflexivity.
Defined.

(** X24. Messages do not pile up: a message shown in a panel that already
    shows one replaces it, so that only the last [showError] or
    [showSuccess] counts. *)
Theorem last_message_wins :
  forall (j : nat) (first last : string) (st : State),
    APIUtils.showError (Some j) last (snd (APIUtils.showError (Some j) first st))
    = APIUtils.showError (Some j) last st
    /\ APIUtils.showError (Some j) last (snd (APIUtils.showSuccess (Some j) first st))
       = APIUtils.showError (Some j) last st
    /\ APIUtils.showSuccess (Some j) last (snd (APIUtils.showError (Some j) first st))
       = APIUtils.showSuccess (Some j) last st
    /\ APIUtils.showSuccess (Some j) last (snd (APIUtils.showSuccess (Some j) first st))
       = APIUtils.showSuccess (Some j) last st.
Proof.
  intros j first last st.
  assert (Herror : forall msg s,
             APIUtils.showError (Some j) msg s
             = (Ok tt, add_class j "show" (put_html j (APIUtils.error_markup msg) s)))
    by reflexivity.
  assert (Hsuccess : forall msg s,
             APIUtils.showSuccess (Some j) msg s
             = (Ok tt, add_class j "show" (put_html j (APIUtils.success_markup msg) s)))
    by reflexivity.
  rewrite !Herror, !Hsuccess. cbn [snd].
  now rewrite !show_after_show.
Qed.

(** X25. Showing and then hiding the loading indicator restores the page
    exactly, when the indicator was hidden to begin with. *)
Theorem loading_round_trip :
  forall (st : State) (i : nat) (el : Element),
    find_index (has_id "loading") (document st) = Some i ->
    document st !! i = Some el ->
    "show" ∉ classList el ->
    APIUtils.hideLoading (snd (APIUtils.showLoading st)) = (Ok tt, st).
Proof.
  intros st i el Hi Hel Hshow.
  rewrite (showLoading_run st i Hi). cbn [snd].
  rewrite (hideLoading_run _ i) by (now rewrite find_id_add_class).
  f_equal. unfold remove_class, add_class, set_document. cbn [document].
  rewrite (alter_fuse _ _ (fun el => with_classList (fun c => c ∖ {["show"]})
                                       (with_classList (fun c => c ∪ {["show"]}) el)))
    by reflexivity.
  rewrite (alter_fixed _ i (document st) el Hel).
  - now destruct st.
  - destruct el as [id c html tab display]. unfold with_classList. cbn in *.
    now rewrite classes_remove_absent.
Qed.

Lemma loading_round_trip_witness :
  APIUtils.hideLoading
    (snd (APIUtils.showLoading (full_state (Responded overloaded_500))))
  = (Ok tt, full_state (Responded overloaded_500)).
Proof.
  apply (loading_round_trip (full_state (Responded overloaded_500)) 0%nat
           (plain_element "loading")).
  - reflexivity.
  - reflexivity.
  - apply not_elem_of_empty.
Defined.

(** ** What the goal panel shows after a submission *)

Lemma call_chart_library (endpoint : string) (data : JsValue) (method : string)
    (st : State) :
  chart_library (snd (InvestmentAPI.call endpoint data method st)) = chart_library st.
Proof.
  destruct (call_outcome endpoint data method st) as [[v ->] | [e ->]]; reflexivity.
Qed.

Lemma panel_shows_drawn (i j canvas : nat) (html : string) (st s : State) :
  find_index (has_id "loading") (document st) = Some i ->
  find_index (has_id "goal-result") (document st) = Some j ->
  find_index (has_id "goal-chart") (document st) = Some canvas ->
  document s
  = alter (with_classList (fun c => c ∖ {["show"]})) i
      (alter (with_display "block") canvas
         (document (add_class j "show" (put_html j html st)))) ->
  panel_shows "goal-result" html s.
Proof.
  intros Hi Hj Hcanvas Hs.
  assert (Hij : i <> j).
  { apply (distinct_ids_distinct_nodes "loading" "goal-result" (document st));
      [assumption | assumption | discriminate]. }
  assert (Hcj : canvas <> j).
  { apply (distinct_ids_distinct_nodes "goal-chart" "goal-result" (document st));
      [assumption | assumption | discriminate]. }
  destruct (find_index_lookup _ _ _ Hj) as [el [Hel _]].
  unfold panel_shows, element_by_id. rewrite Hs.
  cbn [add_class put_html set_document document].
  rewrite !find_index_alter by reflexivity. rewrite Hj.
  rewrite list_lookup_alter_ne by exact Hij.
  rewrite list_lookup_alter_ne by exact Hcj.
  rewrite !list_lookup_alter_eq, Hel. cbn.
  eexists. split; [reflexivity |]. cbn. split; [reflexivity |].
  apply elem_of_union. right. now apply elem_of_singleton.
Qed.

(** X26. What the goal handler leaves on a page that has the loading
    indicator and the goal panel, for a form whose allocations pass the
    check: the handler completes normally, and the panel is shown with the
    markup of the result when the call returns, the markup can be built and
    the chart, if one is to be drawn, can be drawn.  Otherwise the panel
    shows the message of the first error: that of the call, that of the
    rendering, or that of the drawing (the canvas is missing, or its drawing
    context or the chart cannot be created), which replaces the result
    that was just rendered. *)
Theorem goal_submission_outcome :
  forall (form : Form) (st : State) (i j : nat) (total : JsValue),
    find_index (has_id "loading") (document st) = Some i ->
    find_index (has_id "goal-result") (document st) = Some j ->
    InvestmentApp.allocation_total (goal_data form) = Ok total ->
    InvestmentApp.allocation_off total = Ok false ->
    fst (InvestmentApp.handleGoalCalculation form st) = Ok tt
    /\ panel_shows "goal-result"
         (goal_outcome_markup st
            (fst (InvestmentAPI.call "/financial-goal" (JObj (goal_data form))
                    "POST" st)))
         (snd (InvestmentApp.handleGoalCalculation form st)).
Proof.
  intros form st i j total Hi Hj Htotal Hoff.
  destruct (handleGoal_proceeds form st i total Hi Htotal Hoff) as [Heq _].
  rewrite Heq. unfold submit_goal, InvestmentAPI.calculateFinancialGoal.
  fold (show_error_in "goal-result").
  pose proof (call_add_class "/financial-goal" (JObj (goal_data form)) "POST"
                i "show" st) as Hc.
  pose proof (call_document "/financial-goal" (JObj (goal_data form)) "POST" st)
    as Hdoc.
  pose proof (call_chart_library "/financial-goal" (JObj (goal_data form)) "POST" st)
    as Hlib.
  destruct (InvestmentAPI.call "/financial-goal" (JObj (goal_data form)) "POST" st)
    as [[result | e] stc]; cbn [fst snd] in *.
  - assert (Hi1 : find_index (has_id "loading") (document (add_class i "show" stc))
                  = Some i) by (now rewrite find_id_add_class, Hdoc).
    assert (Hj1 : find_index (has_id "goal-result") (document (add_class i "show" stc))
                  = Some j) by (now rewrite find_id_add_class, Hdoc).
    unfold goal_outcome_markup.
    destruct (InvestmentApp.goal_markup result) as [html | e'] eqn:Hm.
    + set (st2 := add_class j "show" (put_html j html (add_class i "show" stc))).
      assert (Hi2 : find_index (has_id "loading") (document st2) = Some i)
        by (subst st2; now rewrite find_id_add_class, find_id_put_html).
      assert (Hj2 : find_index (has_id "goal-result") (document st2) = Some j)
        by (subst st2; now rewrite find_id_add_class, find_id_put_html).
      assert (Hcanvas : find_index (has_id "goal-chart") (document st2)
                        = find_index (has_id "goal-chart") (document st))
        by (subst st2; now rewrite find_id_add_class, find_id_put_html,
              find_id_add_class, Hdoc).
      assert (Hbody : forall out,
                 (chart_data <- lift (get_field result "chart_data") ;;
                  if truthy chart_data then
                    years <- lift (get_field chart_data "years") ;;
                    if truthy years then InvestmentApp.drawGoalChart chart_data
                    else ret tt
                  else ret tt) st2 = out ->
                 (APIUtils.showLoading ;;;
                  result <- InvestmentAPI.call "/financial-goal"
                              (JObj (goal_data form)) "POST" ;;
                  InvestmentApp.displayGoalResult result) st = out).
      { intros out Hout.
        rewrite (bind_ok _ _ _ _ _ (showLoading_run st i Hi)).
        rewrite (bind_ok _ _ _ _ _ Hc).
        rewrite displayGoalResult_split.
        pose proof (render_run "goal-result" (InvestmentApp.goal_markup result)
                      _ j Hj1) as Hrender.
        rewrite Hm in Hrender |- *.
        rewrite (bind_ok _ _ _ _ _ Hrender). exact Hout. }
      pose proof (chart_part_run result html st2 Hm) as Hpart.
      destruct (draws_chart result) eqn:Hdraws.
      * rewrite (drawGoalChart_run result st2 Hdraws), Hcanvas in Hpart.
        change (chart_library st2) with (chart_library stc) in Hpart.
        rewrite Hlib in Hpart.
        unfold draw_failure.
        destruct (find_index (has_id "goal-chart") (document st)) as [canvas |]
          eqn:Hcv.
        -- cbv zeta in Hpart.
           set (shown := InvestmentApp.destroy_goal_chart
                           (set_document
                              (alter (with_display "block") canvas (document st2))
                              st2)) in *.
           assert (Hshown : document shown
                            = alter (with_display "block") canvas (document st2))
             by (subst shown; now rewrite destroy_goal_chart_document).
           assert (Hi3 : find_index (has_id "loading") (document shown) = Some i)
             by (rewrite Hshown, find_index_alter by reflexivity; exact Hi2).
           assert (Hj3 : find_index (has_id "goal-result") (document shown) = Some j)
             by (rewrite Hshown, find_index_alter by reflexivity; exact Hj2).
           destruct (getContext (chart_library st) canvas) as [[] | e1].
           ++ destruct (new_Chart (chart_library st) (goal_chart result))
                as [[] | e2].
              ** rewrite (try_catch_finally_ok _ _ _ _ _
                            (remove_class i "show"
                               (set_charts (Some (goal_chart result))
                                  (destroyed shown) shown))
                            tt (Hbody _ Hpart)).
                 --- split; [reflexivity |].
                     apply (panel_shows_drawn i j canvas html (add_class i "show" stc));
                       [exact Hi1 | exact Hj1
                       | now rewrite find_id_add_class, Hdoc |].
                     transitivity (alter (with_classList (fun c => c ∖ {["show"]})) i
                                     (document shown)); [reflexivity |].
                     now rewrite Hshown.
                 --- apply hideLoading_run. exact Hi3.
              ** unfold show_error_in.
                 rewrite (handler_catches _ "goal-result" st shown i j _
                            (Hbody _ Hpart) Hi3 Hj3).
                 split; [reflexivity |].
                 apply error_shown_panel; [exact Hi3 | exact Hj3 | discriminate].
           ++ unfold show_error_in.
              rewrite (handler_catches _ "goal-result" st shown i j _
                         (Hbody _ Hpart) Hi3 Hj3).
              split; [reflexivity |].
              apply error_shown_panel; [exact Hi3 | exact Hj3 | discriminate].
        -- unfold show_error_in.
           rewrite (handler_catches _ "goal-result" st st2 i j _ (Hbody _ Hpart) Hi2 Hj2).
           split; [reflexivity |].
           apply error_shown_panel; [exact Hi2 | exact Hj2 | discriminate].
      * rewrite (try_catch_finally_ok _ _ _ _ _ (remove_class i "show" st2) tt
                   (Hbody _ Hpart) (hideLoading_run st2 i Hi2)).
        split; [reflexivity |].
        subst st2. now apply panel_shows_rendered.
    + unfold show_error_in.
      rewrite (handler_catches _ "goal-result" st (add_class i "show" stc) i j e').
      * split; [reflexivity |].
        apply error_shown_panel; [exact Hi1 | exact Hj1 | discriminate].
      * rewrite (bind_ok _ _ _ _ _ (showLoading_run st i Hi)).
        rewrite (bind_ok _ _ _ _ _ Hc).
        rewrite displayGoalResult_split.
        pose proof (render_run "goal-result" (InvestmentApp.goal_markup result)
                      _ j Hj1) as Hrender.
        rewrite Hm in Hrender |- *.
        apply bind_throw. exact Hrender.
      * exact Hi1.
      * exact Hj1.
  - assert (Hi1 : find_index (has_id "loading") (document (add_class i "show" stc))
                  = Some i) by (now rewrite find_id_add_class, Hdoc).
    assert (Hj1 : find_index (has_id "goal-result") (document (add_class i "show" stc))
                  = Some j) by (now rewrite find_id_add_class, Hdoc).
    unfold show_error_in.
    rewrite (handler_catches _ "goal-result" st (add_class i "show" stc) i j e).
    + split; [reflexivity |].
      apply error_shown_panel; [exact Hi1 | exact Hj1 | discriminate].
    + rewrite (bind_ok _ _ _ _ _ (showLoading_run st i Hi)).
      apply bind_throw. exact Hc.
    + exact Hi1.
    + exact Hj1.
Qed.

Lemma goal_submission_outcome_witness :
  panel_shows "goal-result"
    (APIUtils.error_markup "Canvas is already in use.")
    (snd (InvestmentApp.handleGoalCalculation (goal_form "40" "30" "20" "10")
            (mkState full_page [] []
               (fun _ => Responded (mkResponse 200 "OK" (Ok (JObj empty_chart_result))))
               (JStr "goal") None [] failing_charts))).
Proof.
  apply (goal_submission_outcome (goal_form "40" "30" "20" "10")
           (mkState full_page [] []
              (fun _ => Responded (mkResponse 200 "OK" (Ok (JObj empty_chart_result))))
              (JStr "goal") None [] failing_charts)
           0%nat 5%nat (JNum (Num.of_Z 100))).
  - reflexivity.
  - reflexivity.
  - vm_compute. reflexivity.
  - vm_compute. reflexivity.
Defined.

(** ** What a submission leaves of the application state *)

Section Preserves.

Context {T : Type} (proj : State -> T).
Hypothesis proj_document : forall d st, proj (set_document d st) = proj st.
Hypothesis proj_console : forall c st, proj (set_console c st) = proj st.
Hypothesis proj_requests : forall r st, proj (set_requests r st) = proj st.

Lemma preserves_pure {A : Type} (m : M A) :
  (forall st, snd (m st) = st) -> preserves proj m.
Proof. intros H st. now rewrite H. Qed.

Lemma preserves_bind {A B : Type} (m : M A) (k : A -> M B) :
  preserves proj m -> (forall a, preserves proj (k a)) -> preserves proj (bind m k).
Proof.
  intros Hm Hk st. unfold bind. specialize (Hm st).
  destruct (m st) as [[a | e] st1]; simpl in *; [| exact Hm].
  now rewrite (Hk a st1).
Qed.

Lemma preserves_try_catch_finally {A : Type} (body : M A) (handler : JsError -> M A)
    (final : M unit) :
  preserves proj body -> (forall e, preserves proj (handler e)) ->
  preserves proj final ->
  preserves proj (try_catch_finally body handler final).
Proof.
  intros Hb Hh Hf st. unfold try_catch_finally, try_catch. specialize (Hb st).
  destruct (body st) as [[a | e] st1]; simpl in *.
  - specialize (Hf st1). destruct (final st1) as [[u | e'] st2]; simpl in *; congruence.
  - specialize (Hh e st1). destruct (handler e st1) as [r st2]. simpl in *.
    specialize (Hf st2). destruct (final st2) as [[u | e'] st3]; simpl in *; congruence.
Qed.

Lemma preserves_update_element (n : nat) (f : Element -> Element) :
  preserves proj (update_element n f).
Proof. intros st. apply proj_document. Qed.

Lemma preserves_classList_add (node : option nat) (cls : string) :
  preserves proj (classList_add node cls).
Proof.
  destruct node; [apply preserves_update_element | now apply preserves_pure].
Qed.

Lemma preserves_classList_remove (node : option nat) (cls : string) :
  preserves proj (classList_remove node cls).
Proof.
  destruct node; [apply preserves_update_element | now apply preserves_pure].
Qed.

Lemma preserves_set_innerHTML (node : option nat) (html : string) :
  preserves proj (set_innerHTML node html).
Proof.
  destruct node; [apply preserves_update_element | now apply preserves_pure].
Qed.

Lemma preserves_showLoading : preserves proj APIUtils.showLoading.
Proof.
  apply preserves_bind; [now apply preserves_pure | intros node].
  apply preserves_classList_add.
Qed.

Lemma preserves_hideLoading : preserves proj APIUtils.hideLoading.
Proof.
  apply preserves_bind; [now apply preserves_pure | intros node].
  apply preserves_classList_remove.
Qed.

Lemma preserves_show_error_in (panel_id : string) (e : JsError) :
  preserves proj (show_error_in panel_id e).
Proof.
  apply preserves_bind; [now apply preserves_pure | intros node].
  apply preserves_bind; [apply preserves_set_innerHTML | intros _].
  apply preserves_classList_add.
Qed.

Lemma preserves_render (panel_id : string) (markup : Res string) :
  preserves proj (render panel_id markup).
Proof.
  apply preserves_bind; [now apply preserves_pure | intros node].
  apply preserves_bind; [now apply preserves_pure | intros html].
  apply preserves_bind; [apply preserves_set_innerHTML | intros _].
  apply preserves_classList_add.
Qed.

Lemma preserves_call (endpoint : string) (data : JsValue) (method : string) :
  preserves proj (InvestmentAPI.call endpoint data method).
Proof.
  intros st.
  destruct (call_outcome endpoint data method st) as [[v ->] | [e ->]];
    unfold logged, sent; cbn [snd];
    now rewrite ?proj_console, ?proj_requests.
Qed.

(** The body of a handler that sends [data] once the form is accepted. *)
Lemma preserves_submission (panel_id : string) (accept : Res unit)
    (send : M JsValue) (display : JsValue -> M unit) :
  preserves proj send -> (forall result, preserves proj (display result)) ->
  preserves proj
    (try_catch_finally
       (APIUtils.showLoading ;;; lift accept ;;; result <- send ;; display result)
       (show_error_in panel_id) APIUtils.hideLoading).
Proof.
  intros Hsend Hdisplay. apply preserves_try_catch_finally.
  - apply preserves_bind; [apply preserves_showLoading | intros _].
    apply preserves_bind; [now apply preserves_pure | intros _].
    apply preserves_bind; [exact Hsend | exact Hdisplay].
  - intros e. apply preserves_show_error_in.
  - apply preserves_hideLoading.
Qed.

End Preserves.

Lemma preserves_tab_drawGoalChart (chartData : JsValue) :
  preserves currentTab (InvestmentApp.drawGoalChart chartData).
Proof.
  apply preserves_bind; [now apply preserves_pure | intros [n |]];
    [| now apply preserves_pure].
  apply preserves_bind; [now apply preserves_update_element | intros _].
  apply preserves_bind.
  { intros st. unfold modify. cbn [snd].
    unfold InvestmentApp.destroy_goal_chart. now destruct (charts_goal st). }
  intros _. apply preserves_bind; [now apply preserves_pure | intros st].
  apply preserves_bind; [now apply preserves_pure | intros _].
  apply preserves_bind; [now apply preserves_pure | intros years].
  apply preserves_bind; [now apply preserves_pure | intros values].
  apply preserves_bind; [now apply preserves_pure | intros investments].
  apply preserves_bind; [now apply preserves_pure | intros _].
  intros st'. reflexivity.
Qed.

Lemma preserves_tab_displayGoalResult (result : JsValue) :
  preserves currentTab (InvestmentApp.displayGoalResult result).
Proof.
  intros st. rewrite displayGoalResult_split. revert st.
  apply preserves_bind; [now apply preserves_render | intros _].
  apply preserves_bind; [now apply preserves_pure | intros chart_data].
  destruct (truthy chart_data); [| now apply preserves_pure].
  apply preserves_bind; [now apply preserves_pure | intros years].
  destruct (truthy years); [apply preserves_tab_drawGoalChart | now apply preserves_pure].
Qed.

(** The allocation check of the goal handler, as a result. *)
Lemma handleGoal_as_submission (form : Form) (st : State) :
  exists accept : Res unit,
    InvestmentApp.handleGoalCalculation form st
    = try_catch_finally
        (APIUtils.showLoading ;;; lift accept ;;;
         result <- InvestmentAPI.calculateFinancialGoal (JObj (goal_data form)) ;;
         InvestmentApp.displayGoalResult result)
        (show_error_in "goal-result") APIUtils.hideLoading st.
Proof.
  exists (match InvestmentApp.allocation_total (goal_data form) with
          | Ok total =>
              match InvestmentApp.allocation_off total with
              | Ok true =>
                  match InvestmentApp.allocation_message total with
                  | Ok msg => Throw (Error msg)
                  | Throw e => Throw e
                  end
              | Ok false => Ok tt
              | Throw e => Throw e
              end
          | Throw e => Throw e
          end).
  unfold InvestmentApp.handleGoalCalculation. fold (goal_data form).
  unfold try_catch_finally, try_catch, bind, lift, throw, ret.
  destruct (APIUtils.showLoading st) as [[[] | e0] st1]; [| reflexivity].
  destruct (InvestmentApp.allocation_total (goal_data form)) as [total | e];
    [| reflexivity].
  destruct (InvestmentApp.allocation_off total) as [[|] | e]; try reflexivity.
  destruct (InvestmentApp.allocation_message total) as [msg | e]; reflexivity.
Qed.

Lemma handleBond_as_submission (form : Form) (st : State) :
  exists (accept : Res unit) (data : JsValue),
    InvestmentApp.handleBondCalculation form st
    = try_catch_finally
        (APIUtils.showLoading ;;; lift accept ;;;
         result <- InvestmentAPI.calculateBondDeposit data ;;
         render "bond-result" (InvestmentApp.bond_markup result))
        (show_error_in "bond-result") APIUtils.hideLoading st.
Proof.
  unfold InvestmentApp.handleBondCalculation.
  destruct (InvestmentApp.is_compound_of form) as [checked | e].
  - exists (Ok tt), (bond_data form checked). reflexivity.
  - exists (Throw e), JNull.
    unfold try_catch_finally, try_catch, bind, lift.
    destruct (APIUtils.showLoading st) as [[[] | e0] st1]; reflexivity.
Qed.

(** X27. A submission never changes the current tab, and only the goal
    handler touches the chart: after the bond, ETF, house and stock handlers
    the chart and the list of destroyed charts are as before.  This holds
    for every form and state, whatever the outcome. *)
Theorem submission_keeps_tab_and_chart :
  forall (panel endpoint : string) (also : list string) (handler : Form -> M unit),
    (panel, endpoint, also, handler) ∈ submissions ->
    forall (form : Form) (st : State),
      currentTab (snd (handler form st)) = currentTab st
      /\ (panel <> "goal-result" ->
          charts_goal (snd (handler form st)) = charts_goal st
          /\ destroyed (snd (handler form st)) = destroyed st).
Proof.
  intros panel endpoint also handler H form st. unfold submissions in H.
  assert (Hplain : forall (T : Type) (proj : State -> T) (p : string) (data : JsValue)
                     (send : JsValue -> M JsValue) (markup : JsValue -> Res string)
                     (e : string),
             (forall d s, proj (set_document d s) = proj s) ->
             (forall c s, proj (set_console c s) = proj s) ->
             (forall r s, proj (set_requests r s) = proj s) ->
             send = (fun data => InvestmentAPI.call e data "POST") ->
             preserves proj
               (try_catch_finally
                  (APIUtils.showLoading ;;; result <- send data ;;
                   render p (markup result))
                  (show_error_in p) APIUtils.hideLoading)).
  { intros T proj p data send markup e H1 H2 H3 ->.
    apply preserves_try_catch_finally; try assumption.
    - apply preserves_bind; [now apply preserves_showLoading | intros _].
      apply preserves_bind; [now apply preserves_call | intros result].
      now apply preserves_render.
    - intros err. now apply preserves_show_error_in.
    - now apply preserves_hideLoading. }
  repeat (apply elem_of_cons in H as [H | H]);
    try (apply elem_of_nil in H; contradiction);
    injection H as -> -> -> ->.
  - destruct (handleBond_as_submission form st) as [accept [data ->]].
    split.
    + apply (preserves_submission currentTab); try reflexivity.
      * now apply preserves_call.
      * intros result. now apply preserves_render.
    + intros _.
      assert (Hp : charts (snd (try_catch_finally
                  (APIUtils.showLoading ;;; lift accept ;;;
                   result <- InvestmentAPI.calculateBondDeposit data ;;
                   render "bond-result" (InvestmentApp.bond_markup result))
                  (show_error_in "bond-result") APIUtils.hideLoading st))
                  = charts st).
      { apply (preserves_submission charts); try reflexivity.
        - now apply preserves_call.
        - intros result. now apply preserves_render. }
      unfold charts in Hp. now injection Hp.
  - split.
    + apply (Hplain _ currentTab "etf-result" _ InvestmentAPI.calculateETFInvestment
               InvestmentApp.etf_markup "/etf-investment"); reflexivity.
    + intros _.
      assert (Hp : charts (snd (InvestmentApp.handleETFCalculation form st)) = charts st)
        by (apply (Hplain _ charts "etf-result" _ InvestmentAPI.calculateETFInvestment
                     InvestmentApp.etf_markup "/etf-investment"); reflexivity).
      unfold charts in Hp. now injection Hp.
  - split.
    + apply (Hplain _ currentTab "house-result" _ InvestmentAPI.calculateHouseInvestment
               InvestmentApp.house_markup "/house-investment"); reflexivity.
    + intros _.
      assert (Hp : charts (snd (InvestmentApp.handleHouseCalculation form st)) = charts st)
        by (apply (Hplain _ charts "house-result" _ InvestmentAPI.calculateHouseInvestment
                     InvestmentApp.house_markup "/house-investment"); reflexivity).
      unfold charts in Hp. now injection Hp.
  - split.
    + apply (Hplain _ currentTab "stock-result" _ InvestmentAPI.calculateStockSimulation
               InvestmentApp.stock_markup "/stock-simulation"); reflexivity.
    + intros _.
      assert (Hp : charts (snd (InvestmentApp.handleStockCalculation form st)) = charts st)
        by (apply (Hplain _ charts "stock-result" _ InvestmentAPI.calculateStockSimulation
                     InvestmentApp.stock_markup "/stock-simulation"); reflexivity).
      unfold charts in Hp. now injection Hp.
  - split; [| intros Hne; now destruct Hne].
    destruct (handleGoal_as_submission form st) as [accept ->].
    apply (preserves_submission currentTab); try reflexivity.
    + now apply preserves_call.
    + apply preserves_tab_displayGoalResult.
Qed.

Lemma submission_keeps_tab_and_chart_witness :
  currentTab (snd (InvestmentApp.handleStockCalculation sample_etf_form
                     (full_state (Responded overloaded_500))))
  = currentTab (full_state (Responded overloaded_500)).
Proof.
  apply (submission_keeps_tab_and_chart "stock-result" "/stock-simulation" []
           InvestmentApp.handleStockCalculation).
  apply list_elem_of_In. simpl. auto.
Defined.

(** ** What a submission sends *)

Lemma obj_get_set_other (o : JsObject) (key other : string) (v : JsValue) :
  key <> "__proto__" -> other <> key ->
  obj_get (obj_set o key v) other = obj_get o other.
Proof.
  intros Hkey Hother. unfold obj_set.
  destruct (String.eqb_spec key "__proto__") as [-> | _]; [contradiction |].
  cbn [andb]. unfold obj_get. cbn [own has_prototype].
  rewrite lookup_insert_ne by (intros ->; now apply Hother). reflexivity.
Qed.

(** Each handler accepts or rejects the form, and then sends one object. *)
Lemma submissions_data (panel endpoint : string) (also : list string)
    (handler : Form -> M unit) :
  (panel, endpoint, also, handler) ∈ submissions ->
  exists (accept : Form -> Res unit) (data : Form -> JsObject)
         (display : JsValue -> M unit),
    (forall form st,
       handler form st
       = try_catch_finally
           (APIUtils.showLoading ;;; lift (accept form) ;;;
            result <- InvestmentAPI.call endpoint (JObj (data form)) "POST" ;;
            display result)
           (show_error_in panel) APIUtils.hideLoading st)
    /\ (forall result, keeps_requests (display result))
    /\ (forall form key,
          key <> "is_compound" ->
          obj_get (data form) key
          = obj_get (APIUtils.formDataToObject (form_entries form)) key)
    /\ (forall form,
          panel = "bond-result" -> accept form = Ok tt ->
          exists checked,
            is_compound_checked form = Some checked
            /\ obj_get (data form) "is_compound" = JBool checked).
Proof.
  intros H. unfold submissions in H.
  repeat (apply elem_of_cons in H as [H | H]);
    try (apply elem_of_nil in H; contradiction);
    injection H as -> -> -> ->.
  - exists (fun form => match is_compound_checked form with
                        | Some _ => Ok tt
                        | None => Throw (cannot_read "null" "checked")
                        end),
           (fun form => obj_set (APIUtils.formDataToObject (form_entries form))
                          "is_compound"
                          (JBool (match is_compound_checked form with
                                  | Some checked => checked
                                  | None => false
                                  end))),
           (fun result => render "bond-result" (InvestmentApp.bond_markup result)).
    split; [| split; [| split]].
    + intros form st.
      unfold InvestmentApp.handleBondCalculation, InvestmentApp.is_compound_of.
      unfold try_catch_finally, try_catch, bind, lift.
      destruct (APIUtils.showLoading st) as [[[] | e0] st1]; [| reflexivity].
      destruct (is_compound_checked form); reflexivity.
    + intros result. apply keeps_render.
    + intros form key Hkey. apply obj_get_set_other; [discriminate | exact Hkey].
    + intros form _ Haccept.
      destruct (is_compound_checked form) as [checked |]; [| discriminate].
      exists checked. split; [reflexivity |]. now apply obj_get_set.
  - exists (fun _ => Ok tt),
           (fun form => APIUtils.formDataToObject (form_entries form)),
           (fun result => render "etf-result" (InvestmentApp.etf_markup result)).
    split; [reflexivity | split; [intros; apply keeps_render | split]].
    + reflexivity.
    + discriminate.
  - exists (fun _ => Ok tt),
           (fun form => APIUtils.formDataToObject (form_entries form)),
           (fun result => render "house-result" (InvestmentApp.house_markup result)).
    split; [reflexivity | split; [intros; apply keeps_render | split]].
    + reflexivity.
    + discriminate.
  - exists (fun _ => Ok tt),
           (fun form => APIUtils.formDataToObject (form_entries form)),
           (fun result => render "stock-result" (InvestmentApp.stock_markup result)).
    split; [reflexivity | split; [intros; apply keeps_render | split]].
    + reflexivity.
    + discriminate.
  - exists (fun form =>
              match InvestmentApp.allocation_total (goal_data form) with
              | Ok total =>
                  match InvestmentApp.allocation_off total with
                  | Ok true =>
                      match InvestmentApp.allocation_message total with
                      | Ok msg => Throw (Error msg)
                      | Throw e => Throw e
                      end
                  | Ok false => Ok tt
                  | Throw e => Throw e
                  end
              | Throw e => Throw e
              end),
           goal_data, InvestmentApp.displayGoalResult.
    split; [| split; [| split]].
    + intros form st.
      unfold InvestmentApp.handleGoalCalculation. fold (goal_data form).
      unfold InvestmentAPI.calculateFinancialGoal.
      unfold try_catch_finally, try_catch, bind, lift, throw, ret.
      destruct (APIUtils.showLoading st) as [[[] | e0] st1]; [| reflexivity].
      destruct (InvestmentApp.allocation_total (goal_data form)) as [total | e];
        [| reflexivity].
      destruct (InvestmentApp.allocation_off total) as [[|] | e]; try reflexivity.
      destruct (InvestmentApp.allocation_message total) as [msg | e]; reflexivity.
    + apply keeps_displayGoalResult.
    + reflexivity.
    + discriminate.
Qed.

(** X28. What a submission sends, for each of the five form handlers:
    nothing, or one request to the handler's endpoint under the base path,
    by POST, with the JSON content type and an object as body, which is
    never left out, not even for an empty form.  The fields of that object
    are those [formDataToObject] builds from the form; for the bond form
    the field [is_compound] is the state of the check box, whatever the
    form's own entries say. *)
Theorem submission_request_body :
  forall (panel endpoint : string) (also : list string) (handler : Form -> M unit),
    (panel, endpoint, also, handler) ∈ submissions ->
    forall (form : Form) (st : State),
      requests (snd (handler form st)) = requests st
      \/ exists data : JsObject,
          requests (snd (handler form st))
          = (requests st
               ++ [mkRequest ("/api/v1" ++ endpoint)
                     (mkConfig "POST" [("Content-Type", "application/json")]
                        (Some (JObj data)))])%list
          /\ (forall key,
                key <> "is_compound" ->
                obj_get data key
                = obj_get (APIUtils.formDataToObject (form_entries form)) key)
          /\ (panel = "bond-result" ->
              exists checked,
                is_compound_checked form = Some checked
                /\ obj_get data "is_compound" = JBool checked).
Proof.
  intros panel endpoint also handler Hin form st.
  destruct (submissions_data _ _ _ _ Hin)
    as [accept [data [display [Hshape [Hkeeps [Hfields Hbox]]]]]].
  rewrite Hshape.
  rewrite requests_try_catch_finally;
    [| intros e; exact (keeps_show_error_in panel e) | apply keeps_hideLoading].
  pose proof (keeps_showLoading st) as Hkeep.
  destruct (APIUtils.showLoading st) as [[[] | e] st1] eqn:Hshow; cbn [snd] in Hkeep.
  - rewrite (bind_ok _ _ _ _ _ Hshow).
    destruct (accept form) as [[] | e] eqn:Haccept; [| left; exact Hkeep].
    right. exists (data form). split; [| split].
    + rewrite <- Hkeep.
      exact (requests_call_then endpoint (JObj (data form)) display st1 Hkeeps).
    + apply Hfields.
    + intros Hpanel. now apply Hbox.
  - rewrite (bind_throw _ _ _ _ _ Hshow). left. exact Hkeep.
Qed.

Lemma submission_request_body_witness :
  requests (snd (InvestmentApp.handleBondCalculation sample_bond_form
                   (full_state (Responded overloaded_500))))
  = requests (full_state (Responded overloaded_500))
  \/ exists data : JsObject,
      requests (snd (InvestmentApp.handleBondCalculation sample_bond_form
                       (full_state (Responded overloaded_500))))
      = (requests (full_state (Responded overloaded_500))
           ++ [mkRequest ("/api/v1" ++ "/bond-deposit")
                 (mkConfig "POST" [("Content-Type", "application/json")]
                    (Some (JObj data)))])%list
      /\ (forall key,
            key <> "is_compound" ->
            obj_get data key
            = obj_get (APIUtils.formDataToObject (form_entries sample_bond_form)) key)
      /\ ("bond-result" = "bond-result" ->
          exists checked,
            is_compound_checked sample_bond_form = Some checked
            /\ obj_get data "is_compound" = JBool checked).
Proof.
  apply (submission_request_body "bond-result" "/bond-deposit" []
           InvestmentApp.handleBondCalculation).
  apply list_elem_of_In. simpl. auto.
Defined.
